(** * Attendance scanner: sequencing, scan deduplication, lighting and feedback

    A shallow embedding of the scan-to-record pipeline of the attendance
    application:

    - [Scanner]: the first [QRScanner] component of
      [src/components/QRScanner.tsx] (validate-then-process sequencer,
      state-held scan cache, light sampler);
    - [ScannerAlt]: the second [QRScanner] component kept in the same file
      (ref-held scan cache, sequencing inside [processAttendance]);
    - [FeedbackSystem]: the feedback singleton;
    - [ScannerPerformance], [CameraOptimizer]: the monitor and the device
      profile and constraints of [src/lib];
    - [ScannerGuidance]: the guidance singleton;
    - [OneSignalService]: the push notification built for an attendance
      event;
    - [Dashboard]: a reader of the rows the scanners write.

    Conventions.  Instants are epoch milliseconds in [Z], as returned by
    [Date.now()] and [Date.prototype.getTime()].  A nullable timestamp
    column is an [option Z].  Stored hours are kept as an integer number
    of hundredths of an hour, as the [decimal(4,2)] column holds them; the
    arithmetic that produces them is the binary64 arithmetic of the
    JavaScript [number] type ([Double]).  Instants lie in the range of
    [Date], where they and their differences below [2^53] are exact. *)

From Stdlib Require Import ZArith QArith Qround Qabs Lia Lqa SpecFloat.
From stdpp Require Import gmap strings list fin_maps pretty.

Local Open Scope Z_scope.

(** ** JavaScript primitives used by the components *)

Module Js.

(** [Math.ceil(a / b)] for integers [a] and a positive integer [b]. *)
Definition ceil_div (a b : Z) : Z := - ((- a) / b).

(** The [%] operator: the remainder takes the sign of the dividend. *)
Definition rem (a b : Z) : Z := Z.rem a b.

(** [Math.round]: nearest integer, halves towards plus infinity. *)
Definition Math_round (x : Q) : Z := Qfloor (x + (1 # 2))%Q.

(** [Number(x.toFixed(2))] as a number of hundredths: nearest, halves away
    from zero. *)
Definition toFixed2 (x : Q) : Z :=
  if Qle_bool 0 x then Qfloor (x * 100 + (1 # 2))%Q
  else - Qfloor ((- x) * 100 + (1 # 2))%Q.

(** Truthiness of a number read out of an object used as a map:
    [undefined] and [0] are falsy. *)
Definition truthy (v : option Z) : bool :=
  match v with
  | Some n => negb (n =? 0)
  | None => false
  end.

(** Truthiness of a nullable timestamp column (an ISO string or [null]). *)
Definition present (v : option Z) : bool :=
  match v with Some _ => true | None => false end.

(** [new Date(v).getTime()]; [new Date(null)] is the epoch. *)
Definition getTime (v : option Z) : Z :=
  match v with Some t => t | None => 0 end.

End Js.

(** ** The [number] type: IEEE 754 binary64, rounding to nearest even *)

Module Double.

Definition prec : Z := 53.
Definition emax : Z := 1024.

Definition t : Set := spec_float.

(** The number nearest to an integer; exact below [2^53]. *)
Definition ofZ (n : Z) : t := binary_normalize prec emax n 0 false.

Definition add (x y : t) : t := SFadd prec emax x y.
Definition sub (x y : t) : t := SFsub prec emax x y.
Definition mul (x y : t) : t := SFmul prec emax x y.
Definition div (x y : t) : t := SFdiv prec emax x y.

(** The exact value of a finite number (0 for the others, which no
    computation on instants of the range of [Date] produces). *)
Definition toQ (x : t) : Q :=
  match x with
  | S754_finite s m e =>
    let n := if s then Z.neg m else Z.pos m in
    match e with
    | Z0 => inject_Z n
    | Z.pos p => inject_Z (n * Z.pos (Pos.pow 2 p))
    | Z.neg p => Qmake n (Pos.pow 2 p)
    end
  | _ => 0%Q
  end.

(** [Math.round(x)]: the integer nearest to the value of [x], halves
    towards plus infinity. *)
Definition round (x : t) : Z := Js.Math_round (toQ x).

(** [Number(x.toFixed(2))] in hundredths: the integer [n] for which
    [n / 100] is nearest to the value of [x]. *)
Definition toFixed2 (x : t) : Z := Js.toFixed2 (toQ x).

(** The hours between two instants:
    [(finish.getTime() - start.getTime()) / (1000 * 60 * 60)]. *)
Definition hours (start finish : Z) : t :=
  div (sub (ofZ finish) (ofZ start)) (ofZ (1000 * 60 * 60)).

End Double.

Arguments Double.ofZ : simpl never.
Arguments Double.add : simpl never.
Arguments Double.sub : simpl never.
Arguments Double.mul : simpl never.
Arguments Double.div : simpl never.
Arguments Double.toQ : simpl never.
Arguments Double.round : simpl never.
Arguments Double.toFixed2 : simpl never.
Arguments Double.hours : simpl never.

(** ** Rows of the external store *)

Record Employee := mkEmployee {
  e_id : string;
  qr_code : string;
  is_active : bool;
  first_name : string;
  last_name : string
}.

(** One row of [attendance_records].  [total_hours] is a decimal column
    with default 0, held here in hundredths of an hour. *)
Record Attendance := mkAttendance {
  a_id : string;
  employee_id : string;
  date : string;
  first_check_in : option Z;
  first_check_out : option Z;
  second_check_in : option Z;
  second_check_out : option Z;
  total_hours : Z;
  is_late : bool;
  late_duration : Z
}.

(** The store: employees, the attendance rows of the table keyed by its
    unique constraint [(employee_id, date)], and the configured work start
    time ([settings.work_start_time], hours and minutes). *)
Record Store := mkStore {
  employees : list Employee;
  attendance_records : gmap (string * string) Attendance;
  work_start_time : option (Z * Z)
}.

(** What can go wrong with one request to the store: the client reports an
    error object carrying a code, or the request promise rejects. *)
Inductive Fault :=
| NoFault
| ErrorCode (code message : string)
| Rejected (message : string).

(** The data-model invariant of a daily record, as far as presence goes: no
    timestamp is set unless the one of the previous phase is. *)
Definition sequenced (a : Attendance) : Prop :=
  (Js.present (first_check_out a) = true -> Js.present (first_check_in a) = true) /\
  (Js.present (second_check_in a) = true -> Js.present (first_check_out a) = true) /\
  (Js.present (second_check_out a) = true -> Js.present (second_check_in a) = true).

(** The object passed to [update]: only the assigned columns are written.
    [u_total_hours] is the number of hundredths that the column, which keeps
    two decimals, stores for the number sent. *)
Record UpdateData := mkUpdate {
  u_first_check_out : option Z;
  u_second_check_in : option Z;
  u_second_check_out : option Z;
  u_total_hours : option Z
}.

Definition applyUpdate (u : UpdateData) (a : Attendance) : Attendance :=
  mkAttendance (a_id a) (employee_id a) (date a) (first_check_in a)
    (match u_first_check_out u with Some t => Some t | None => first_check_out a end)
    (match u_second_check_in u with Some t => Some t | None => second_check_in a end)
    (match u_second_check_out u with Some t => Some t | None => second_check_out a end)
    (match u_total_hours u with Some h => h | None => total_hours a end)
    (is_late a) (late_duration a).

(** Observable actions of a handler, in the order they are issued. *)
Inductive Effect :=
| SetScannerStatus (status : string)
| SetScanning (on : bool)
| SetScanCache (qrCode : string) (now : Z)
| SetError (message : string)
| SetMetricsScan (processingTime : Z)
| SetMetricsLight (lightLevel : Q)
| SetGuidance (needsFlash : bool)
| SetFlashEnabled (on : bool)
| TurnFlashOn
| TurnFlashOff
| Vibrate (pattern : list Z)
| PlayTeakSound
| ShowVisualConfirmation
| SelectEmployee (qrCode : string)
| SelectAttendance (employeeId day : string)
| SelectSetting (key : string)
| InsertAttendance (row : Attendance)
| UpdateAttendance (rowId : string) (u : UpdateData)
| UpsertAttendance (row : Attendance)
| AnnounceError (message : string)
| AnnounceAttendance (employeeName action : string) (time : Z)
| NotifyAttendanceEvent (employeeName action : string) (cooldownRemaining : option Z)
| NotifyAttendance (employeeName action : string)
| Speak (message : string)
| SwalFire (icon title text : string).

(** The effects that change the store. *)
Definition mutates (e : Effect) : bool :=
  match e with
  | InsertAttendance _ | UpdateAttendance _ _ | UpsertAttendance _ => true
  | _ => false
  end.

(** ** The first scanner component *)

Module Scanner.

Definition SCAN_COOLDOWN : Z := 2000.
Definition CHECKOUT_TO_CHECKIN_COOLDOWN : Z := 3 * 60 * 1000.
Definition MAX_SCAN_TIME : Z := 500.
Definition MIN_LIGHT_LEVEL : Q := 5%Q.

Record AttendanceValidation := mkValidation {
  isValid : bool;
  nextAction : string;
  errorMessage : option string;
  cooldownRemaining : option Z;
  canProceed : bool
}.

(** The outcome of [supabase.from(..).select(..).maybeSingle()] on the
    attendance table: [None] when the promise rejects, otherwise the pair
    [(data, error)]. *)
Definition readAttendance (s : Store) (f : Fault) (employeeId day : string)
  : option (option Attendance * option string) :=
  match f with
  | NoFault => Some (attendance_records s !! (employeeId, day), None)
  | ErrorCode c _ => Some (None, Some c)
  | Rejected _ => None
  end.

(** The text of the cooldown rejection. *)
Definition cooldownMessage (cooldownRemaining : Z) : string :=
  let remainingMinutes := Js.ceil_div cooldownRemaining (60 * 1000) in
  let remainingSeconds := Js.ceil_div (Js.rem cooldownRemaining (60 * 1000)) 1000 in
  "Cooldown period active. Please wait " +:+ pretty remainingMinutes +:+ "m "
    +:+ pretty remainingSeconds +:+ "s before checking in again.".

(** The sequencing rules applied to the record that was read. *)
Definition validateRecord (attendance : option Attendance) (now : Z)
  : AttendanceValidation :=
  match attendance with
  | None => mkValidation true "first_check_in" None None true
  | Some a =>
    if Js.present (first_check_in a) && negb (Js.present (first_check_out a)) then
      mkValidation true "first_check_out" None None true
    else if Js.present (first_check_in a) && Js.present (first_check_out a)
            && negb (Js.present (second_check_in a)) then
      let timeSinceCheckOut := now - Js.getTime (first_check_out a) in
      let cooldownRemaining := CHECKOUT_TO_CHECKIN_COOLDOWN - timeSinceCheckOut in
      if timeSinceCheckOut <? CHECKOUT_TO_CHECKIN_COOLDOWN then
        mkValidation false "second_check_in"
          (Some (cooldownMessage cooldownRemaining)) (Some cooldownRemaining) false
      else
        mkValidation true "second_check_in" None None true
    else if Js.present (second_check_in a) && negb (Js.present (second_check_out a)) then
      mkValidation true "second_check_out" None None true
    else if Js.present (second_check_out a) then
      mkValidation false "complete"
        (Some "All attendance records for today are complete. No further check-ins allowed.")
        None false
    else
      mkValidation false "unknown"
        (Some "Unable to determine next action. Please contact administrator.")
        None false
  end.

(** The rejection returned from the [catch] block. *)
Definition validationError : AttendanceValidation :=
  mkValidation false "error"
    (Some "Error validating attendance. Please try again.") None false.

(** [validateAttendanceSequence]: read today's record of the employee, then
    apply the rules; an error other than [PGRST116] is thrown and caught. *)
Definition validateAttendanceSequence
  (s : Store) (f : Fault) (employee : Employee) (today : string) (now : Z)
  : AttendanceValidation :=
  match readAttendance s f (e_id employee) today with
  | None => validationError
  | Some (attendance, Some code) =>
    if negb (String.eqb code "PGRST116") then validationError
    else validateRecord attendance now
  | Some (attendance, None) => validateRecord attendance now
  end.

(** *** Requests, clock and environment of one scan *)

(** A computation that either completes or throws an error with a message. *)
Inductive Outcome (A : Type) :=
| Done (a : A)
| Thrown (message : string).
Arguments Done {A} a.
Arguments Thrown {A} message.

Definition faultMessage (f : Fault) : string :=
  match f with
  | NoFault => ""
  | ErrorCode _ m => m
  | Rejected m => m
  end.

(** The successive readings of the clock during one scan. *)
Record Clock := mkClock {
  t_scan : Z;      (* Date.now() on entry of handleScanResult *)
  t_start : Z;     (* processingStart *)
  t_validate : Z;  (* new Date() in validateAttendanceSequence *)
  t_process : Z;   (* new Date().toISOString() in processAttendance *)
  t_end : Z        (* Date.now() after processAttendance *)
}.

(** The fault, if any, of each request issued during one scan. *)
Record Net := mkNet {
  n_employee : Fault;
  n_validate : Fault;
  n_process : Fault;
  n_settings : Fault;
  n_write : Fault
}.

Record Env := mkEnv {
  mounted : bool;      (* isMountedRef.current *)
  canVibrate : bool;   (* 'vibrate' in navigator *)
  today : string;      (* format(new Date(), 'yyyy-MM-dd') *)
  wallClock : Z -> Z -> Z;
    (* new Date(year, month, date, hours, minutes).getTime() for today's
       local date: the instant of that local time *)
  fresh_id : string;   (* the id generated for an inserted row *)
  clock : Clock;
  net : Net
}.

(** *** Component state and closures *)

(** The values of the state variables as bound in one render of the
    component.  A handler created in a render reads these values. *)
Record Render := mkRender {
  scanning : bool;
  scanCache : gmap string Z;
  isOnline : bool;
  flashEnabled : bool;
  error : string
}.

(** The first render: the initial values given to [useState]. *)
Definition initialRender (online : bool) : Render :=
  mkRender false ∅ online false "".

(** The state setters. *)
Definition applyEffect (r : Render) (e : Effect) : Render :=
  match e with
  | SetScanning on =>
    mkRender on (scanCache r) (isOnline r) (flashEnabled r) (error r)
  | SetScanCache qrCode now =>
    mkRender (scanning r) (<[qrCode := now]> (scanCache r)) (isOnline r)
      (flashEnabled r) (error r)
  | SetFlashEnabled on =>
    mkRender (scanning r) (scanCache r) (isOnline r) on (error r)
  | SetError message =>
    mkRender (scanning r) (scanCache r) (isOnline r) (flashEnabled r) message
  | _ => r
  end.

Definition applyEffects (r : Render) (es : list Effect) : Render :=
  foldl applyEffect r es.

(** *** Scan handling *)

Definition provideFeedback (env : Env) (type : string) : list Effect :=
  if canVibrate env then
    if String.eqb type "success" then [Vibrate [100; 50; 100]]
    else [Vibrate [200; 100; 200]]
  else [].

(** [.single()]: exactly one row, otherwise an error. *)
Definition single {A : Type} (rows : list A) : option A :=
  match rows with
  | [row] => Some row
  | _ => None
  end.

(** The employee lookup of [handleScanResult], with its check
    [employeeError || !employee]. *)
Definition findEmployee (s : Store) (f : Fault) (qrCode : string) : Outcome Employee :=
  match f with
  | NoFault =>
    match single (filter (λ e, qr_code e = qrCode ∧ is_active e = true)
                    (employees s)) with
    | Some employee => Done employee
    | None => Thrown "Invalid QR code or employee not found"
    end
  | ErrorCode _ _ => Thrown "Invalid QR code or employee not found"
  | Rejected m => Thrown m
  end.

Definition employeeName (employee : Employee) : string :=
  first_name employee +:+ " " +:+ last_name employee.

Definition orElse (message : option string) (default : string) : string :=
  match message with
  | Some m => if String.eqb m "" then default else m
  | None => default
  end.

Definition showTimingError (env : Env) (employee : Employee)
  (validation : AttendanceValidation) : list Effect :=
  [ AnnounceError (orElse (errorMessage validation) "Timing violation");
    NotifyAttendanceEvent (employeeName employee) (nextAction validation)
      (cooldownRemaining validation);
    SwalFire "warning" "Check-in Timing Violation"
      (match errorMessage validation with Some m => m | None => "undefined" end) ]
  ++ (if canVibrate env then [Vibrate [200; 100; 200; 100; 200]] else []).

Definition handleProcessingError (message : string) : list Effect :=
  let errorMessage := orElse (Some message) "Failed to process attendance" in
  [SetError errorMessage; AnnounceError errorMessage].

(** [checkIfLate]: compares the check-in with today's work start time, a
    local time of day.  The quotient of the elapsed milliseconds, below
    [2^53], by 60000 is floored to the same integer in binary64 as in the
    integers. *)
Definition checkIfLate (s : Store) (env : Env) (checkInTime : Z) : bool * Z :=
  match n_settings (net env), work_start_time s with
  | NoFault, Some (hours, minutes) =>
    let workStart := wallClock env hours minutes in
    if workStart <? checkInTime then (true, (checkInTime - workStart) / (1000 * 60))
    else (false, 0)
  | _, _ => (false, 0)
  end.

(** [calculateTotalHours], in hundredths: the integer
    [Math.round((morning + afternoon) * 100)], which is then divided by 100
    and stored with two decimals. *)
Definition calculateTotalHours (attendance : Attendance) (secondCheckOut : Z) : Z :=
  let firstIn := Js.getTime (first_check_in attendance) in
  let firstOut := Js.getTime (first_check_out attendance) in
  let secondIn := Js.getTime (second_check_in attendance) in
  let secondOut := secondCheckOut in
  let morning := Double.hours firstIn firstOut in
  let afternoon := Double.hours secondIn secondOut in
  Double.round (Double.mul (Double.add morning afternoon) (Double.ofZ 100)).

(** The [switch] of [processAttendance]; [None] is the [default] branch. *)
Definition updateFor (attendance : Attendance) (action : string) (now : Z)
  : option UpdateData :=
  if String.eqb action "first_check_out" then
    Some (mkUpdate (Some now) None None None)
  else if String.eqb action "second_check_in" then
    Some (mkUpdate None (Some now) None None)
  else if String.eqb action "second_check_out" then
    Some (mkUpdate None None (Some now) (Some (calculateTotalHours attendance now)))
  else None.

Definition formatActionText (action : string) : string :=
  if String.eqb action "first_check_in" then "First Check In"
  else if String.eqb action "first_check_out" then "First Check Out"
  else if String.eqb action "second_check_in" then "Second Check In"
  else if String.eqb action "second_check_out" then "Second Check Out"
  else action.

Definition showSuccessFeedback (env : Env) (employee : Employee)
  (action : string) (time : Z) : list Effect :=
  if negb (mounted env) then []
  else
    [ AnnounceAttendance (employeeName employee) action time;
      NotifyAttendance (employeeName employee) (formatActionText action);
      NotifyAttendanceEvent (employeeName employee) action None;
      SwalFire "success" "Attendance Recorded" (formatActionText action) ].

Definition setAttendance (s : Store) (key : string * string) (row : Attendance) : Store :=
  mkStore (employees s) (<[key := row]> (attendance_records s)) (work_start_time s).

(** [processAttendance]: the new store, the effects, and the message of the
    error it rethrows, if any. *)
Definition processAttendance (s : Store) (env : Env) (employee : Employee)
  (action : string) : Store * list Effect * option string :=
  let now := t_process (clock env) in
  let key := (e_id employee, today env) in
  let read := [SelectAttendance (e_id employee) (today env)] in
  let proceed (attendance : option Attendance) :=
    match attendance with
    | None =>
      if String.eqb action "first_check_in" then
        let '(isLate, lateDuration) := checkIfLate s env now in
        let row := mkAttendance (fresh_id env) (e_id employee) (today env)
                     (Some now) None None None 0 isLate lateDuration in
        let effs := read ++ [SelectSetting "work_start_time"; InsertAttendance row] in
        match n_write (net env), attendance_records s !! key with
        | NoFault, None =>
          (setAttendance s key row, effs ++ showSuccessFeedback env employee action now, None)
        | NoFault, Some _ =>
          (s, effs, Some "duplicate key value violates unique constraint")
        | f, _ => (s, effs, Some (faultMessage f))
        end
      else
        (s, read, Some ("Invalid state: No attendance record for action " +:+ action))
    | Some a =>
      match updateFor a action now with
      | None => (s, read, Some ("Invalid action: " +:+ action))
      | Some u =>
        let effs := read ++ [UpdateAttendance (a_id a) u] in
        match n_write (net env) with
        | NoFault =>
          (setAttendance s key (applyUpdate u a),
           effs ++ showSuccessFeedback env employee action now, None)
        | f => (s, effs, Some (faultMessage f))
        end
      end
    end in
  match readAttendance s (n_process (net env)) (e_id employee) (today env) with
  | None => (s, read, Some (faultMessage (n_process (net env))))
  | Some (attendance, Some code) =>
    if negb (String.eqb code "PGRST116") then
      (s, read, Some (faultMessage (n_process (net env))))
    else proceed attendance
  | Some (attendance, None) => proceed attendance
  end.

(** The scan-cooldown test of [handleScanResult], on the cache the handler
    reads: [scanCache[qrCode] && (now - scanCache[qrCode]) < SCAN_COOLDOWN]. *)
Definition recentlyScanned (seen : Render) (qrCode : string) (now : Z) : bool :=
  Js.truthy (scanCache seen !! qrCode)
  && (now - Js.getTime (scanCache seen !! qrCode) <? SCAN_COOLDOWN).

(** [handleScanResult], as created in the render [seen]: one handler run
    from its first line to its last on the store [s], no other writer
    changing the store between its requests. *)
Definition handleScanResult (seen : Render) (env : Env) (s : Store) (qrCode : string)
  : Store * list Effect :=
  if negb (mounted env) then (s, [])
  else
    let now := t_scan (clock env) in
    let ready := [SetScannerStatus "ready"] in
    let failure (s' : Store) (done : list Effect) (message : string) :=
      (s', done ++ provideFeedback env "error" ++ handleProcessingError message ++ ready) in
    let entered := [SetScannerStatus "processing"] in
    if recentlyScanned seen qrCode now then (s, entered ++ ready)
    else
      let cached := entered ++ [SetScanCache qrCode now] ++ provideFeedback env "success" in
      if negb (isOnline seen) then failure s cached "No internet connection"
      else
        let looked := cached ++ [SelectEmployee qrCode] in
        match findEmployee s (n_employee (net env)) qrCode with
        | Thrown m => failure s looked m
        | Done employee =>
          let validation :=
            validateAttendanceSequence s (n_validate (net env)) employee
              (today env) (t_validate (clock env)) in
          let validated := looked ++ [SelectAttendance (e_id employee) (today env)] in
          if negb (canProceed validation) then
            (s, validated ++ showTimingError env employee validation ++ ready)
          else
            match processAttendance s env employee (nextAction validation) with
            | (s', effs, Some m) => failure s' (validated ++ effs) m
            | (s', effs, None) =>
              (s', validated ++ effs
                   ++ [SetMetricsScan (t_end (clock env) - t_start (clock env))]
                   ++ ready)
            end
        end.

(** *** Flash and light-level sampling *)

(** The scanner object and camera at the time of one call. *)
Record Device := mkDevice {
  videoPresent : bool;     (* videoRef.current is set *)
  scannerPresent : bool;   (* scannerRef.current is set *)
  flashResponds : bool     (* turnFlashOn / turnFlashOff resolve *)
}.

Definition enableFlash (env : Env) (d : Device) : list Effect :=
  if negb (mounted env) then []
  else if scannerPresent d then
    TurnFlashOn ::
      (if flashResponds d then SetFlashEnabled true :: provideFeedback env "success"
       else [])
  else [].

Definition disableFlash (env : Env) (d : Device) : list Effect :=
  if negb (mounted env) then []
  else if scannerPresent d then
    TurnFlashOff :: (if flashResponds d then [SetFlashEnabled false] else [])
  else [].

Definition Qltb (x y : Q) : bool := negb (Qle_bool y x).

(** One run of the interval callback installed by
    [startLightLevelMonitoring] in the render [seen]; [lightLevel] is the
    value resolved by [detectLightLevel]. *)
Definition lightSample (seen : Render) (env : Env) (d : Device) (lightLevel : Q)
  : list Effect :=
  if negb (mounted env) || negb (videoPresent d) || negb (scanning seen) then []
  else
    [SetMetricsLight lightLevel]
    ++ (if Qltb lightLevel MIN_LIGHT_LEVEL && negb (flashEnabled seen)
        then enableFlash env d else [])
    ++ [SetGuidance (Qltb lightLevel 30)].

(** The flash-enable action. *)
Definition flashOn (e : Effect) : bool :=
  match e with
  | TurnFlashOn => true
  | _ => false
  end.

(** *** The running component

    The callbacks that the scanner library and the interval timer hold are
    created inside [initializeScanner]: the decode callback passed to
    [new QrScanner(..)] calls [handleScanResult], and
    [startLightLevelMonitoring] passes the sampling callback to
    [setInterval].  They read the state variables of the render in which
    that [initializeScanner] was created, while the state setters they call
    feed later renders.  [installed] records that render. *)

Record Component := mkComponent {
  installed : option Render;   (* the render whose callbacks are installed *)
  current : Render;            (* the state of the latest render *)
  store : Store
}.

(** The outcome of [qrScanner.start()]. *)
Inductive CameraStart :=
| CameraStarts
| CameraFails (message : string).

(** The video element is rendered only while [error] is empty: otherwise
    the error panel with its Retry button takes its place. *)
Definition videoRendered (r : Render) : bool := String.eqb (error r) "".

Definition handleScannerError (message : string) : list Effect :=
  [ SetError (orElse (Some message) "Scanner error occurred");
    SwalFire "error" "Scanner Error" message ].

(** [initializeScanner] as created in the render [r], run on the component
    [c].  (The re-entrancy flag [initializingRef] is clear whenever it is
    called here.) *)
Definition initializeScanner (r : Render) (env : Env) (camera : CameraStart)
  (c : Component) : Component * list Effect :=
  if negb (mounted env) then (c, [])
  else if negb (videoRendered (current c)) then
    let effs := handleScannerError "Video element not available" in
    (mkComponent (installed c) (applyEffects (current c) effs) (store c), effs)
  else
    let begun := [SetScannerStatus "initializing"; SetError ""] in
    match camera with
    | CameraFails message =>
      let effs := begun ++ handleScannerError message in
      (mkComponent (installed c) (applyEffects (current c) effs) (store c), effs)
    | CameraStarts =>
      let effs := begun ++ [SetScannerStatus "ready"; SetScanning true] in
      (mkComponent (Some r) (applyEffects (current c) effs) (store c), effs)
    end.

(** The mount effect (dependency list []) runs the [initializeScanner] of
    the first render. *)
Definition mountComponent (online : bool) (s : Store) (env : Env) (camera : CameraStart)
  : Component * list Effect :=
  initializeScanner (initialRender online) env camera
    (mkComponent None (initialRender online) s).

(** The component once the mount effect has succeeded. *)
Definition started (online : bool) (s : Store) : Component :=
  mkComponent (Some (initialRender online)) (mkRender true ∅ online false "") s.

Inductive Event :=
| Scan (qrCode : string) (env : Env)
    (* the scanner library decoded a code *)
| Sample (env : Env) (d : Device) (lightLevel : Q)
    (* the 2 s interval fired *)
| FlashButton (env : Env) (d : Device)
    (* the flash button of the header *)
| Retry (r : Render) (env : Env) (camera : CameraStart).
    (* the Retry button of the error panel, or "Try Again" of the error
       dialog, calling the [initializeScanner] of the render [r] *)

(** One event: the effects issued and the component afterwards.  The flash
    button is rendered anew each time and reads the current state; both
    ways to retry exist only once [error] has been set. *)
Definition step (c : Component) (ev : Event) : Component * list Effect :=
  match ev with
  | Scan qrCode env =>
    match installed c with
    | None => (c, [])
    | Some seen =>
      let '(s', effs) := handleScanResult seen env (store c) qrCode in
      (mkComponent (installed c) (applyEffects (current c) effs) s', effs)
    end
  | Sample env d lightLevel =>
    match installed c with
    | None => (c, [])
    | Some seen =>
      let effs := lightSample seen env d lightLevel in
      (mkComponent (installed c) (applyEffects (current c) effs) (store c), effs)
    end
  | FlashButton env d =>
    let effs := if flashEnabled (current c) then disableFlash env d
                else enableFlash env d in
    (mkComponent (installed c) (applyEffects (current c) effs) (store c), effs)
  | Retry r env camera =>
    if videoRendered (current c) then (c, [])
    else initializeScanner r env camera c
  end.

(** A run: the component after the events and, per event, the state it
    was handled in and the effects it issued. *)
Fixpoint run (c : Component) (evs : list Event)
  : Component * list (Render * Event * list Effect) :=
  match evs with
  | [] => (c, [])
  | ev :: rest =>
    let '(c', effs) := step c ev in
    let '(c'', log) := run c' rest in
    (c'', (current c, ev, effs) :: log)
  end.

End Scanner.

(** ** The second scanner component *)

Module ScannerAlt.

(** [COOLDOWN_PERIODS]. *)
Definition SCAN : Z := 2000.
Definition CHECKIN_TO_CHECKOUT : Z := 3 * 60 * 1000.
Definition CHECKOUT_TO_CHECKIN : Z := 3 * 60 * 1000.

Record Clock := mkClock {
  t_seen : Z;   (* Date.now() in isRecentlySeen *)
  t_mark : Z;   (* Date.now() stored in lastScanRef *)
  t_now : Z     (* new Date() in processAttendance *)
}.

Record Net := mkNet {
  n_employee : Fault;
  n_read : Fault;
  n_settings : Fault;
  n_write : Fault
}.

Record Env := mkEnv {
  mounted : bool;
  today : string;     (* new Date().toISOString().split('T')[0] *)
  wallClock : Z -> Z -> Z;
    (* scheduleTime.setHours(hours, minutes, 0, 0) on the check-in instant:
       the instant of that local time on the check-in's local date *)
  fresh_id : string;
  clock : Clock;
  net : Net
}.

(** The mutable parts: the [lastScanRef] object and the store. *)
Record State := mkState {
  lastScanRef : gmap string Z;
  store : Store
}.

(** [lastScanRef.current] is a plain object, held here as the map of its
    own properties.  The name [__proto__] is an accessor inherited from
    [Object.prototype]: reading it gives the prototype object, which is
    truthy and gives [NaN] in the subtraction, and assigning a number to it
    stores nothing.  Any other inherited name reads as a function until it is
    assigned, with the same outcome as a missing one. *)
Definition isRecentlySeen (lastScanRef : gmap string Z) (qrCode : string) (now : Z)
  : bool :=
  if String.eqb qrCode "__proto__" then false
  else
    let lastScan := lastScanRef !! qrCode in
    Js.truthy lastScan && (now - Js.getTime lastScan <? SCAN).

(** [lastScanRef.current[qrData] = Date.now()]. *)
Definition markScan (lastScanRef : gmap string Z) (qrData : string) (now : Z)
  : gmap string Z :=
  if String.eqb qrData "__proto__" then lastScanRef
  else <[qrData := now]> lastScanRef.

(** [validateQRCode]: every failure is rethrown with one message. *)
Definition validateQRCode (s : Store) (f : Fault) (qrData : string)
  : Scanner.Outcome Employee :=
  match f with
  | NoFault =>
    match Scanner.single (filter (λ e, qr_code e = qrData) (employees s)) with
    | Some employee => Scanner.Done employee
    | None => Scanner.Thrown "Failed to validate QR code"
    end
  | _ => Scanner.Thrown "Failed to validate QR code"
  end.

(** [isLate]; [None] when the settings request rejects. *)
Definition isLate (s : Store) (env : Env) (checkInTime : Z) : option bool :=
  match n_settings (net env) with
  | Rejected _ => None
  | f =>
    let '(hours, minutes) :=
      match f, work_start_time s with
      | NoFault, Some hm => hm
      | _, _ => (9, 0)
      end in
    let scheduleTime := wallClock env hours minutes in
    Some (scheduleTime <? checkInTime)
  end.

(** [calculateHours], in hundredths. *)
Definition calculateHours (start finish : Z) : Z :=
  Double.toFixed2 (Double.hours start finish).

(** [String.prototype.includes]. *)
Fixpoint includes (needle hay : string) : bool :=
  String.prefix needle hay
  || match hay with
     | EmptyString => false
     | String _ rest => includes needle rest
     end.

Definition handleError (message : string) : list Effect :=
  if includes "3 minutes between first check-in and first check-out" message then
    let errorMessage :=
      "Please wait at least 3 minutes between your first check-in and first check-out." in
    [SwalFire "warning" "Wait Required" errorMessage; AnnounceError errorMessage]
  else
    let errorMessage := Scanner.orElse (Some message) "Failed to process attendance" in
    [SwalFire "error" "Error" errorMessage; AnnounceError errorMessage].

(** The branch of [processAttendance] that picks the column to write for
    an existing record. *)
Definition nextUpdate (existingRecord : Attendance) (now : Z) : Scanner.Outcome UpdateData :=
  if negb (Js.present (first_check_out existingRecord)) then
    let firstCheckInTime := Js.getTime (first_check_in existingRecord) in
    let timeDifference := now - firstCheckInTime in
    if timeDifference <? 3 * 60 * 1000 then
      Scanner.Thrown
        "Please wait at least 3 minutes between first check-in and first check-out"
    else
      Scanner.Done (mkUpdate (Some now) None None
        (Some (calculateHours (Js.getTime (first_check_in existingRecord)) now)))
  else if negb (Js.present (second_check_in existingRecord)) then
    Scanner.Done (mkUpdate None (Some now) None None)
  else if negb (Js.present (second_check_out existingRecord)) then
    let firstSession :=
      calculateHours (Js.getTime (first_check_in existingRecord))
        (Js.getTime (first_check_out existingRecord)) in
    let secondSession :=
      calculateHours (Js.getTime (second_check_in existingRecord)) now in
    Scanner.Done (mkUpdate None None (Some now) (Some (firstSession + secondSession)))
  else
    Scanner.Thrown "All check-ins and check-outs are completed for today".

Definition determineActionType (existingRecord : option Attendance) (u : UpdateData)
  : string :=
  match existingRecord with
  | None => "check-in"
  | Some _ =>
    if Js.present (u_first_check_out u) then "check-out"
    else if Js.present (u_second_check_in u) then "check-in"
    else if Js.present (u_second_check_out u) then "check-out"
    else "check-in"
  end.

(** The spoken and displayed message; the formatted clock time that ends
    it is left out. *)
Definition showSuccessFeedback (employee : Employee) (action : string) : list Effect :=
  let actionText := if String.eqb action "check-in" then "check-in" else "check-out" in
  let message :=
    first_name employee +:+ " " +:+ last_name employee +:+ " " +:+ actionText
      +:+ " successful at" in
  [Speak message; SwalFire "success" "Success!" message].

(** [processAttendance]: the store afterwards, the effects, and the message
    of the error it rethrows, if any.  Its [catch] block reports the error
    before rethrowing it.  The read and the upsert are taken on the same
    store: no other writer comes between them. *)
Definition processAttendance (s : Store) (env : Env) (employee : Employee)
  : Store * list Effect * option string :=
  let key := (e_id employee, today env) in
  let now := t_now (clock env) in
  let read := [SelectAttendance (e_id employee) (today env)] in
  let fail (done : list Effect) (message : string) :=
    (s, done ++ handleError message, Some message) in
  let upsert (done : list Effect) (existingRecord : option Attendance)
             (row : Attendance) (u : UpdateData) :=
    let effs := done ++ [UpsertAttendance row] in
    match n_write (net env), existingRecord, attendance_records s !! key with
    | NoFault, None, Some _ => fail effs "Failed to update attendance"
    | NoFault, _, _ =>
      (Scanner.setAttendance s key row,
       effs ++ showSuccessFeedback employee (determineActionType existingRecord u),
       None)
    | Rejected m, _, _ => fail effs m
    | ErrorCode _ _, _, _ => fail effs "Failed to update attendance"
    end in
  let proceed (existingRecord : option Attendance) :=
    match existingRecord with
    | None =>
      match isLate s env now with
      | None => fail (read ++ [SelectSetting "work_start_time"])
                  (Scanner.faultMessage (n_settings (net env)))
      | Some late =>
        let row := mkAttendance (fresh_id env) (e_id employee) (today env)
                     (Some now) None None None 0 late 0 in
        upsert (read ++ [SelectSetting "work_start_time"]) None row
          (mkUpdate None None None (Some 0))
      end
    | Some a =>
      match nextUpdate a now with
      | Scanner.Thrown m => fail read m
      | Scanner.Done u => upsert read (Some a) (applyUpdate u a) u
      end
    end in
  match n_read (net env) with
  | NoFault => proceed (attendance_records s !! key)
  | ErrorCode code _ =>
    if negb (String.eqb code "PGRST116") then
      fail read "Failed to check existing attendance"
    else proceed None
  | Rejected m => fail read m
  end.

(** [handleScan]. *)
Definition handleScan (st : State) (env : Env) (qrData : string) : State * list Effect :=
  if isRecentlySeen (lastScanRef st) qrData (t_seen (clock env)) then (st, [])
  else
    let marked := markScan (lastScanRef st) qrData (t_mark (clock env)) in
    let status (v : string) := if mounted env then [SetScannerStatus v] else [] in
    let entered := status "processing" ++ [SelectEmployee qrData] in
    match validateQRCode (store st) (n_employee (net env)) qrData with
    | Scanner.Thrown m =>
      (mkState marked (store st), entered ++ handleError m ++ status "ready")
    | Scanner.Done employee =>
      match processAttendance (store st) env employee with
      | (s', effs, Some m) =>
        (mkState marked s', entered ++ effs ++ handleError m ++ status "ready")
      | (s', effs, None) =>
        (mkState marked s', entered ++ effs ++ status "ready")
      end
    end.

End ScannerAlt.

(** ** The feedback singleton *)

Module FeedbackSystem.

Inductive FeedbackType := success | error | warning.

Record t := mkFeedback {
  audioContext : bool;      (* an AudioContext could be created *)
  lastFeedbackTime : Z;
  feedbackCooldown : Z
}.

(** The instance built by [getInstance]. *)
Definition instance (audio : bool) : t := mkFeedback audio 0 2000.

Definition playTeakSound (fs : t) : list Effect :=
  if audioContext fs then [PlayTeakSound] else [].

Definition triggerHapticFeedback (canVibrate : bool) : list Effect :=
  if canVibrate then [Vibrate [100; 50; 100]] else [].

Definition showVisualConfirmation : list Effect := [ShowVisualConfirmation].

(** [provideFeedback(type, element)] called when the clock reads [now];
    [element] tells whether the optional element was passed. *)
Definition provideFeedback (fs : t) (canVibrate : bool) (type : FeedbackType)
  (element : bool) (now : Z) : t * list Effect :=
  if now - lastFeedbackTime fs <? feedbackCooldown fs then (fs, [])
  else
    let fs' := mkFeedback (audioContext fs) now (feedbackCooldown fs) in
    match type with
    | success =>
      (fs', playTeakSound fs ++ triggerHapticFeedback canVibrate
            ++ (if element then showVisualConfirmation else []))
    | error =>
      (fs', triggerHapticFeedback canVibrate
            ++ (if canVibrate then [Vibrate [200; 100; 200; 100; 200]] else []))
    | warning =>
      (fs', if canVibrate then [Vibrate [150]] else [])
    end.

Definition isDuplicateFeedback (fs : t) (now : Z) : bool :=
  now - lastFeedbackTime fs <? feedbackCooldown fs.

Definition setCooldownPeriod (fs : t) (milliseconds : Z) : t :=
  mkFeedback (audioContext fs) (lastFeedbackTime fs) milliseconds.

Definition cleanup (fs : t) : t := mkFeedback false 0 (feedbackCooldown fs).

(** A call passes the cooldown gate. *)
Definition dispatches (fs : t) (now : Z) : bool := negb (isDuplicateFeedback fs now).

(** One call: whether the device vibrates, the kind, whether an element is
    passed, and the clock. *)
Record Call := mkCall {
  c_vibrate : bool;
  c_type : FeedbackType;
  c_element : bool;
  c_now : Z
}.

(** Successive calls on the singleton: the effects of each call. *)
Fixpoint provideAll (fs : t) (calls : list Call) : t * list (list Effect) :=
  match calls with
  | [] => (fs, [])
  | c :: rest =>
    let '(fs', effs) := provideFeedback fs (c_vibrate c) (c_type c) (c_element c) (c_now c) in
    let '(fs'', log) := provideAll fs' rest in
    (fs'', effs :: log)
  end.

End FeedbackSystem.

(** ** The performance monitor ([lib/scannerPerformance.ts]) *)

Module ScannerPerformance.

(** The [data] object stored with an event. *)
Inductive EventData :=
| ProcessingTime (processingTime : Double.t)
| ErrorInfo (errorType errorMessage : string)
| NoData.

Record HistoryEntry := mkEntry {
  h_timestamp : Z;
  h_event : string;
  h_data : EventData
}.

Record Metrics := mkMetrics {
  scanAttempts : Z;
  successfulScans : Z;
  errorCount : Z;
  averageProcessingTime : Double.t;
  lastScanTime : Z;
  flickerEvents : Z;
  cameraRestarts : Z
}.

Record t := mkMonitor {
  performanceMetrics : Metrics;
  performanceHistory : list HistoryEntry
}.

(** The state set by the field initialisers and by [reset]. *)
Definition reset : t := mkMonitor (mkMetrics 0 0 0 (Double.ofZ 0) 0 0 0) [].

(** [array.slice(-n)]: the last [n] elements, the whole array when it is
    shorter. *)
Definition sliceLast {A : Type} (n : nat) (l : list A) : list A :=
  drop (length l - n) l.

Definition addToHistory (now : Z) (event : string) (data : EventData)
  (history : list HistoryEntry) : list HistoryEntry :=
  let pushed := history ++ [mkEntry now event data] in
  if (100 <? Z.of_nat (length pushed)) then sliceLast 100 pushed else pushed.

Definition recordScanAttempt (now : Z) (m : t) : t :=
  let pm := performanceMetrics m in
  mkMonitor
    (mkMetrics (scanAttempts pm + 1) (successfulScans pm) (errorCount pm)
       (averageProcessingTime pm) now (flickerEvents pm) (cameraRestarts pm))
    (performanceHistory m).

Definition recordSuccessfulScan (now : Z) (processingTime : Double.t) (m : t) : t :=
  let pm := performanceMetrics m in
  let totalScans := successfulScans pm + 1 in
  let average :=
    Double.div
      (Double.add (Double.mul (averageProcessingTime pm) (Double.ofZ (totalScans - 1)))
         processingTime)
      (Double.ofZ totalScans) in
  mkMonitor
    (mkMetrics (scanAttempts pm) totalScans (errorCount pm) average
       (lastScanTime pm) (flickerEvents pm) (cameraRestarts pm))
    (addToHistory now "scan_success" (ProcessingTime processingTime)
       (performanceHistory m)).

Definition recordError (now : Z) (errorType errorMessage : string) (m : t) : t :=
  let pm := performanceMetrics m in
  mkMonitor
    (mkMetrics (scanAttempts pm) (successfulScans pm) (errorCount pm + 1)
       (averageProcessingTime pm) (lastScanTime pm) (flickerEvents pm)
       (cameraRestarts pm))
    (addToHistory now "error" (ErrorInfo errorType errorMessage)
       (performanceHistory m)).

Definition recordFlickerEvent (now : Z) (m : t) : t :=
  let pm := performanceMetrics m in
  mkMonitor
    (mkMetrics (scanAttempts pm) (successfulScans pm) (errorCount pm)
       (averageProcessingTime pm) (lastScanTime pm) (flickerEvents pm + 1)
       (cameraRestarts pm))
    (addToHistory now "flicker" NoData (performanceHistory m)).

Definition recordCameraRestart (now : Z) (m : t) : t :=
  let pm := performanceMetrics m in
  mkMonitor
    (mkMetrics (scanAttempts pm) (successfulScans pm) (errorCount pm)
       (averageProcessingTime pm) (lastScanTime pm) (flickerEvents pm)
       (cameraRestarts pm + 1))
    (addToHistory now "camera_restart" NoData (performanceHistory m)).

(** One call on the monitor, with the clock reading it takes. *)
Inductive Call :=
| ScanAttempt (now : Z)
| SuccessfulScan (now : Z) (processingTime : Double.t)
| ScanError (now : Z) (errorType errorMessage : string)
| FlickerEvent (now : Z)
| CameraRestart (now : Z).

Definition call (m : t) (c : Call) : t :=
  match c with
  | ScanAttempt now => recordScanAttempt now m
  | SuccessfulScan now processingTime => recordSuccessfulScan now processingTime m
  | ScanError now errorType errorMessage => recordError now errorType errorMessage m
  | FlickerEvent now => recordFlickerEvent now m
  | CameraRestart now => recordCameraRestart now m
  end.

Definition calls (m : t) (cs : list Call) : t := foldl call m cs.

(** The history entries a call asks to add. *)
Definition entryOf (c : Call) : list HistoryEntry :=
  match c with
  | ScanAttempt _ => []
  | SuccessfulScan now processingTime =>
    [mkEntry now "scan_success" (ProcessingTime processingTime)]
  | ScanError now errorType errorMessage =>
    [mkEntry now "error" (ErrorInfo errorType errorMessage)]
  | FlickerEvent now => [mkEntry now "flicker" NoData]
  | CameraRestart now => [mkEntry now "camera_restart" NoData]
  end.

End ScannerPerformance.

(** ** Property reads on object literals *)

(** The property names that every object literal inherits from
    [Object.prototype]: reading one of them from a literal used as a table
    gives a function or an object, not [undefined]. *)
Definition objectPrototypeKeys : list string :=
  [ "constructor"; "__defineGetter__"; "__defineSetter__"; "hasOwnProperty";
    "__lookupGetter__"; "__lookupSetter__"; "isPrototypeOf"; "propertyIsEnumerable";
    "toString"; "valueOf"; "__proto__"; "toLocaleString" ].

(** ** The camera optimizer ([lib/cameraOptimizer.ts]) *)

Module CameraOptimizer.

(** The fields of [MediaTrackCapabilities] that the optimizer reads; [None]
    is [undefined].  [width_max] and [frameRate_max] stand for
    [capabilities.width?.max] and [capabilities.frameRate?.max]. *)
Record Capabilities := mkCapabilities {
  width_max : option Z;
  frameRate_max : option Q;
  focusMode : option (list string);
  exposureMode : option (list string);
  whiteBalanceMode : option (list string);
  torch : option bool
}.

(** The empty object [{}]. *)
Definition noCapabilities : Capabilities :=
  mkCapabilities None None None None None None.

(** [v >= n] and [v < n] on a possibly undefined number: both are false on
    [undefined]. *)
Definition atLeastZ (v : option Z) (n : Z) : bool :=
  match v with Some x => n <=? x | None => false end.

Definition atLeastQ (v : option Q) (n : Q) : bool :=
  match v with Some x => Qle_bool n x | None => false end.

Definition belowZ (v : option Z) (n : Z) : bool :=
  match v with Some x => x <? n | None => false end.

Definition belowQ (v : option Q) (n : Q) : bool :=
  match v with Some x => negb (Qle_bool n x) | None => false end.

(** Truthiness of an array-valued and of a boolean capability. *)
Definition given {A : Type} (v : option A) : bool :=
  match v with Some _ => true | None => false end.

Definition enabled (v : option bool) : bool :=
  match v with Some b => b | None => false end.

(** The object kept in [deviceCapabilities]; [currentSettings] is stored
    there too and read nowhere. *)
Record DeviceCapabilities := mkDeviceCapabilities {
  deviceCount : Z;
  hasBackCamera : bool;
  hasFrontCamera : bool;
  capabilities : Capabilities;
  supportedResolutions : list string;
  supportedFrameRates : list Q;
  advancedControls : bool    (* the field [hasAdvancedControls] *)
}.

Definition getSupportedResolutions (c : Capabilities) : list string :=
  ["low"] ++ (if atLeastZ (width_max c) 1280 then ["medium"] else [])
          ++ (if atLeastZ (width_max c) 1920 then ["high"] else []).

Definition getSupportedFrameRates (c : Capabilities) : list Q :=
  [10%Q; 15%Q] ++ (if atLeastQ (frameRate_max c) 20 then [20%Q] else [])
               ++ (if atLeastQ (frameRate_max c) 30 then [30%Q] else []).

Definition hasAdvancedControls (c : Capabilities) : bool :=
  given (focusMode c) || given (exposureMode c) || given (whiteBalanceMode c)
  || enabled (torch c).

(** A video input device, as far as its label is tested:
    [label.toLowerCase().includes('back')] and the same for ['front']. *)
Record VideoDevice := mkVideoDevice {
  labelHasBack : bool;
  labelHasFront : bool
}.

(** What the [try] block of [detectDeviceCapabilities] meets: an exception
    from enumerating the devices or opening the camera, or the video input
    devices and the capabilities of the first video track. *)
Inductive Probe :=
| ProbeFailed
| Probed (videoDevices : list VideoDevice) (capabilities : Capabilities).

(** The object returned from the [catch] block. *)
Definition fallback : DeviceCapabilities :=
  mkDeviceCapabilities 0 false false noCapabilities ["medium"] [15%Q] false.

Record Range (A : Type) := mkRange {
  ideal : A;
  limit : A     (* the field [max] *)
}.
Arguments mkRange {A} ideal limit.
Arguments ideal {A} r.
Arguments limit {A} r.

Inductive Advanced :=
| FocusMode (mode : string)
| ExposureMode (mode : string)
| WhiteBalanceMode (mode : string)
| Torch (on : bool).

(** [constraints.video]; a width or height of [None] is [undefined]. *)
Record VideoConstraints := mkVideoConstraints {
  v_facingMode : string;
  v_width : Range (option Z);
  v_height : Range (option Z);
  v_frameRate : Range Q;
  v_aspectRatio : Q;
  v_advanced : option (list Advanced)
}.

Record Settings := mkSettings {
  facingMode : string;
  resolution : string;
  frameRate : Q;
  enableAdvancedControls : bool;
  recommendedConstraints : VideoConstraints
}.

Record Preferences := mkPreferences {
  p_resolution : option string;
  p_frameRate : option Q;
  p_facingMode : option string
}.

(** The default argument [{}]. *)
Definition noPreferences : Preferences := mkPreferences None None None.

(** The instance: [deviceCapabilities] and [optimalSettings], both [null]
    at first. *)
Record t := mkOptimizer {
  deviceCapabilities : option DeviceCapabilities;
  optimalSettings : option Settings
}.

Definition instance : t := mkOptimizer None None.

(** The object built after a successful probe. *)
Definition probed (videoDevices : list VideoDevice) (c : Capabilities)
  : DeviceCapabilities :=
  mkDeviceCapabilities (Z.of_nat (length videoDevices))
    (existsb labelHasBack videoDevices) (existsb labelHasFront videoDevices)
    c (getSupportedResolutions c) (getSupportedFrameRates c) (hasAdvancedControls c).

Definition detectDeviceCapabilities (o : t) (probe : Probe) : t * DeviceCapabilities :=
  match deviceCapabilities o with
  | Some d => (o, d)
  | None =>
    match probe with
    | Probed videoDevices c =>
      let d := probed videoDevices c in
      (mkOptimizer (Some d) (optimalSettings o), d)
    | ProbeFailed => (o, fallback)
    end
  end.

(** A property read of the object literal [resolutionMap]: one of its own
    three keys, a property inherited from [Object.prototype], or nothing. *)
Inductive Entry :=
| Own (width height : Z)
| Inherited
| Absent.

Definition resolutionMap (key : string) : Entry :=
  if String.eqb key "low" then Own 640 480
  else if String.eqb key "medium" then Own 1280 720
  else if String.eqb key "high" then Own 1920 1080
  else if existsb (String.eqb key) objectPrototypeKeys then Inherited
  else Absent.

(** [Array.prototype.includes] on a list of mode names. *)
Definition includes (modes : list string) (mode : string) : bool :=
  existsb (String.eqb mode) modes.

(** [Math.min(frameRate + 5, 30)]. *)
Definition frameRateLimit (frameRate : Q) : Q :=
  if Qle_bool (frameRate + 5) 30 then (frameRate + 5)%Q else 30%Q.

(** [buildOptimalConstraints]; its [settings] argument carries a resolution
    and a frame rate and no [facingMode].  Reading [width] of a missing
    entry throws. *)
Definition buildOptimalConstraints (d : DeviceCapabilities)
  (resolution : string) (frameRate : Q) : Scanner.Outcome VideoConstraints :=
  let build (width height : option Z) :=
    let c := capabilities d in
    let advanced :=
      if advancedControls d then
        Some ((match focusMode c with
               | Some modes =>
                 [FocusMode (if includes modes "continuous" then "continuous"
                             else "single-shot")]
               | None => []
               end)
              ++ (match exposureMode c with
                  | Some modes =>
                    [ExposureMode (if includes modes "continuous" then "continuous"
                                   else "manual")]
                  | None => []
                  end)
              ++ (match whiteBalanceMode c with
                  | Some modes =>
                    [WhiteBalanceMode (if includes modes "continuous" then "continuous"
                                       else "manual")]
                  | None => []
                  end)
              ++ (if enabled (torch c) then [Torch false] else []))
      else None in
    Scanner.Done
      (mkVideoConstraints "environment" (mkRange width width) (mkRange height height)
         (mkRange frameRate (frameRateLimit frameRate)) (16 # 9) advanced) in
  match resolutionMap resolution with
  | Own width height => build (Some width) (Some height)
  | Inherited => build None None
  | Absent => Scanner.Thrown "Cannot read properties of undefined (reading 'width')"
  end.

(** [userPreferences.frameRate || 20]. *)
Definition frameRateOr (preferred : option Q) (default : Q) : Q :=
  match preferred with
  | Some q => if Qeq_bool q 0 then default else q
  | None => default
  end.

(** The device is treated as high-end. *)
Definition highEnd (c : Capabilities) : bool :=
  atLeastZ (width_max c) 1920 && atLeastQ (frameRate_max c) 30.

(** [getOptimalSettings]: the instance afterwards, and the settings returned
    or the error thrown. *)
Definition getOptimalSettings (o : t) (probe : Probe) (userPreferences : Preferences)
  : t * Scanner.Outcome Settings :=
  let '(o1, d) := detectDeviceCapabilities o probe in
  let limited := (deviceCount d =? 1) || negb (advancedControls d) in
  let optimalResolution :=
    if highEnd (capabilities d)
    then Scanner.orElse (p_resolution userPreferences) "medium"
    else if limited then "low" else "medium" in
  let optimalFrameRate :=
    if highEnd (capabilities d)
    then frameRateOr (p_frameRate userPreferences) 20
    else if limited then 10%Q else 15%Q in
  match buildOptimalConstraints d optimalResolution optimalFrameRate with
  | Scanner.Thrown m => (o1, Scanner.Thrown m)
  | Scanner.Done constraints =>
    let settings :=
      mkSettings (Scanner.orElse (p_facingMode userPreferences) "environment")
        optimalResolution optimalFrameRate (advancedControls d) constraints in
    (mkOptimizer (deviceCapabilities o1) (Some settings), Scanner.Done settings)
  end.

Definition getPerformanceRecommendations (o : t) : list string :=
  match deviceCapabilities o with
  | None => ["Run device detection first"]
  | Some d =>
    let recommendations :=
      (if deviceCount d =? 1
       then ["Single camera detected - use lower quality settings"] else [])
      ++ (if negb (advancedControls d)
          then [ "Limited camera controls - flickering may occur";
                 "Try using consistent lighting conditions" ]
          else [])
      ++ (if belowQ (frameRate_max (capabilities d)) 20
          then ["Low frame rate support - use 10-15 FPS"] else [])
      ++ (if belowZ (width_max (capabilities d)) 1280
          then ["Limited resolution support - use low quality"] else []) in
    match recommendations with
    | [] => ["Device appears to have good camera support"]
    | _ => recommendations
    end
  end.

(** Successive calls of [detectDeviceCapabilities], one probe each. *)
Definition detectAll (o : t) (probes : list Probe) : t :=
  foldl (fun o probe => fst (detectDeviceCapabilities o probe)) o probes.

(** The object built from the first successful probe of a list, if any. *)
Fixpoint firstSuccess (probes : list Probe) : option DeviceCapabilities :=
  match probes with
  | [] => None
  | Probed videoDevices c :: _ => Some (probed videoDevices c)
  | ProbeFailed :: rest => firstSuccess rest
  end.

End CameraOptimizer.

(** ** The guidance singleton ([ScannerGuidance]) *)

Module ScannerGuidance.

(** The instance; [optimalDistance] is the constant 30 and the list of
    callbacks is left to the caller of [updateScanningStatus].  The numbers
    are held by their exact values; they are only compared. *)
Record t := mkGuidance {
  currentDistance : Q;
  scanningStatus : string
}.

Definition instance : t := mkGuidance 0 "idle".

Definition optimalDistance : Q := 30.

Definition getDistanceGuidance (g : t) : string :=
  if Qeq_bool (currentDistance g) 0 then "Position QR code in frame"
  else if Scanner.Qltb (currentDistance g) 10 then "Move device further away"
  else if Scanner.Qltb 50 (currentDistance g) then "Move device closer"
  else if Scanner.Qltb (currentDistance g) 20 then "Move slightly further away"
  else if Scanner.Qltb 40 (currentDistance g) then "Move slightly closer"
  else "Perfect distance - hold steady".

Definition getLightingGuidance (lightLevel : Q) : string :=
  if Scanner.Qltb lightLevel 10 then
    "Very low light - enable flash or move to brighter area"
  else if Scanner.Qltb lightLevel 30 then "Low light detected - consider enabling flash"
  else if Scanner.Qltb 200 lightLevel then "Very bright - avoid direct sunlight"
  else if Scanner.Qltb 150 lightLevel then "Good lighting - avoid shadows on QR code"
  else "Good lighting conditions".

Definition getStabilityGuidance (motionLevel : Q) : string :=
  if Scanner.Qltb (8 # 10) motionLevel then "Device moving too much - hold steady"
  else if Scanner.Qltb (5 # 10) motionLevel then
    "Slight movement detected - try to hold steadier"
  else "Device stable - good for scanning".

Definition getAngleGuidance (angle : Q) : string :=
  if Scanner.Qltb 30 (Qabs angle) then "QR code at steep angle - position more directly"
  else if Scanner.Qltb 15 (Qabs angle) then "Slight angle detected - adjust position"
  else "Good angle for scanning".

Definition getStatusMessage (g : t) : string :=
  if String.eqb (scanningStatus g) "idle" then "Ready to scan - position QR code in frame"
  else if String.eqb (scanningStatus g) "scanning" then "Scanning... hold steady"
  else if String.eqb (scanningStatus g) "processing" then "Processing QR code..."
  else if String.eqb (scanningStatus g) "success" then "QR code detected successfully!"
  else if String.eqb (scanningStatus g) "error" then "Scan failed - try again"
  else "Ready to scan".

(** The array [issues] of [getOverallGuidance]. *)
Definition issues (g : t) (lightLevel motionLevel angle : Q) : list string :=
  (if Scanner.Qltb lightLevel 30 then ["lighting"] else [])
  ++ (if Scanner.Qltb (5 # 10) motionLevel then ["stability"] else [])
  ++ (if Scanner.Qltb 15 (Qabs angle) then ["angle"] else [])
  ++ (if Scanner.Qltb (currentDistance g) 10 || Scanner.Qltb 50 (currentDistance g)
      then ["distance"] else []).

(** [Array.prototype.join]. *)
Fixpoint join (separator : string) (items : list string) : string :=
  match items with
  | [] => ""
  | [item] => item
  | item :: rest => item +:+ separator +:+ join separator rest
  end.

Definition getOverallGuidance (g : t) (lightLevel motionLevel angle : Q) : string :=
  match issues g lightLevel motionLevel angle with
  | [] => "Optimal conditions for scanning"
  | [issue] => "Adjust " +:+ issue +:+ " for better scanning"
  | found =>
    "Adjust " +:+ join ", " (take (length found - 1) found) +:+ " and "
      +:+ match last found with Some issue => issue | None => "undefined" end
  end.

Record Guidance := mkReport {
  distance_current : Q;
  distance_optimal : Q;
  distance_guidance : string;
  lighting_level : Q;
  lighting_guidance : string;
  lighting_needsFlash : bool;
  stability_level : Q;
  stability_guidance : string;
  angle_current : Q;
  angle_guidance : string;
  status_current : string;
  status_message : string;
  overall : string
}.

Definition getComprehensiveGuidance (g : t) (lightLevel motionLevel angle : Q)
  : Guidance :=
  mkReport (currentDistance g) optimalDistance (getDistanceGuidance g)
    lightLevel (getLightingGuidance lightLevel) (Scanner.Qltb lightLevel 30)
    motionLevel (getStabilityGuidance motionLevel)
    angle (getAngleGuidance angle)
    (scanningStatus g) (getStatusMessage g)
    (getOverallGuidance g lightLevel motionLevel angle).

(** The object that [notifyGuidanceUpdate] passes to every callback. *)
Definition notifyGuidanceUpdate (g : t) : Guidance :=
  getComprehensiveGuidance g 0 0 0.

(** [updateScanningStatus]: the instance afterwards and the guidance its
    callbacks receive. *)
Definition updateScanningStatus (g : t) (status : string) : t * Guidance :=
  let g' := mkGuidance (currentDistance g) status in
  (g', notifyGuidanceUpdate g').

Definition cleanup (g : t) : t := mkGuidance 0 "idle".

End ScannerGuidance.

(** ** Push notifications of attendance events ([lib/oneSignalService.ts]) *)

Module OneSignalService.

Inductive Priority := low | normal | high | urgent.

(** The argument of [sendNotification], as far as [notifyAttendanceEvent]
    varies it.  The message is [None] when its text would embed a property
    inherited from [Object.prototype], which is not rendered here. *)
Record NotificationData := mkNotification {
  title : string;
  message : option string;
  type : string;
  priority : Priority
}.

(** [formatActionText]: [actionMap[action] || action]. *)
Definition formatActionText (action : string) : option string :=
  if String.eqb action "first_check_in" then Some "checked in"
  else if String.eqb action "first_check_out" then Some "checked out for break"
  else if String.eqb action "second_check_in" then Some "returned from break"
  else if String.eqb action "second_check_out" then Some "checked out for the day"
  else if existsb (String.eqb action) objectPrototypeKeys then None
  else Some action.

(** [notifyAttendanceEvent]; [timeStr] is the formatted time of day,
    [isLate] the truthiness of the optional argument. *)
Definition notifyAttendanceEvent (employeeName action timeStr : string)
  (isLate : bool) (cooldownRemaining : option Z) : NotificationData :=
  let actionText := formatActionText action in
  let plain :=
    mkNotification "Attendance Update"
      (match actionText with
       | Some text => Some (employeeName +:+ " " +:+ text +:+ " at " +:+ timeStr)
       | None => None
       end)
      "attendance" normal in
  let late :=
    if isLate then
      mkNotification "Late Arrival Alert"
        (Some ("‚ö†Ô∏è " +:+ employeeName +:+ " checked in late at " +:+ timeStr))
        "attendance" high
    else plain in
  match cooldownRemaining with
  | Some remaining =>
    if Js.truthy cooldownRemaining && (0 <? remaining) then
      mkNotification "Check-in Timing Violation"
        (Some ("‚ùå " +:+ employeeName +:+ " attempted early check-in. "
               +:+ pretty (Js.ceil_div remaining 60000) +:+ " minutes remaining."))
        "attendance" high
    else late
  | None => late
  end.

(** The delivery options that [sendNotification] sets for a priority:
    [priority], [ttl] in seconds and [android_channel_id]. *)
Definition delivery (p : Priority) : Z * Z * string :=
  match p with
  | urgent => (10, 3600, "urgent-notifications")
  | high => (8, 86400, "high-priority-notifications")
  | normal => (5, 259200, "default-notifications")
  | low => (3, 604800, "low-priority-notifications")
  end.

End OneSignalService.

(** The notifications that the first scanner's effects push through
    [oneSignalService.notifyAttendanceEvent]: neither [showSuccessFeedback]
    nor [showTimingError] passes a true [isLate]. *)
Definition pushes (timeStr : string) (es : list Effect)
  : list OneSignalService.NotificationData :=
  flat_map (fun e =>
              match e with
              | NotifyAttendanceEvent employeeName action cooldownRemaining =>
                [OneSignalService.notifyAttendanceEvent employeeName action timeStr
                   false cooldownRemaining]
              | _ => []
              end) es.

(** ** A reader of the attendance rows ([Dashboard]) *)

Module Dashboard.

Definition getLatestAction (record : Attendance) : string :=
  if Js.present (second_check_out record) then "Second Check Out"
  else if Js.present (second_check_in record) then "Second Check In"
  else if Js.present (first_check_out record) then "First Check Out"
  else if Js.present (first_check_in record) then "First Check In"
  else "Unknown".

(** [getLatestTime]: the instant that is formatted as [HH:mm]; [None] stands
    for the empty string. *)
Definition getLatestTime (record : Attendance) : option Z :=
  let times :=
    filter (fun v => Js.present v = true)
      [ second_check_out record; second_check_in record;
        first_check_out record; first_check_in record ] in
  match times with
  | Some t :: _ => Some t
  | _ => None
  end.

End Dashboard.

(** ** Runs of the feedback singleton *)

(** The clock readings of the calls that pass the cooldown gate, in order. *)
Fixpoint dispatchTimes (fs : FeedbackSystem.t) (calls : list FeedbackSystem.Call)
  : list Z :=
  match calls with
  | [] => []
  | c :: rest =>
    let fs' := fst (FeedbackSystem.provideFeedback fs (FeedbackSystem.c_vibrate c)
                      (FeedbackSystem.c_type c) (FeedbackSystem.c_element c)
                      (FeedbackSystem.c_now c)) in
    if FeedbackSystem.dispatches fs (FeedbackSystem.c_now c)
    then FeedbackSystem.c_now c :: dispatchTimes fs' rest
    else dispatchTimes fs' rest
  end.

(** Each instant of the list is at least [gap] after the one before it,
    starting from [last]. *)
Fixpoint spacedFrom (last gap : Z) (times : list Z) : Prop :=
  match times with
  | [] => True
  | t :: rest => gap <= t - last /\ spacedFrom t gap rest
  end.

(** * Properties *)

(** ** Vocabulary of the statements *)

(** A request failed for a reason other than the [PGRST116] result code
    that the client uses for "no single row". *)
Definition transient (f : Fault) : Prop :=
  match f with
  | NoFault => False
  | ErrorCode code _ => code <> "PGRST116"
  | Rejected _ => True
  end.

(** The flash-enable actions issued by the light samples of a run. *)
Definition sampleFlashActions
  (log : list (Scanner.Render * Scanner.Event * list Effect)) : list Effect :=
  flat_map (fun entry =>
              match entry with
              | (_, Scanner.Sample _ _ _, effs) => filter (fun e => Scanner.flashOn e = true) effs
              | _ => []
              end) log.

(** A light sample that took the flash state from off to on. *)
Definition isFlashChange (entry : Scanner.Render * Scanner.Event * list Effect) : bool :=
  match entry with
  | (st, Scanner.Sample _ _ _, effs) =>
    negb (Scanner.flashEnabled st)
    && existsb (fun e => match e with SetFlashEnabled true => true | _ => false end) effs
  | _ => false
  end.

Definition sampleFlashChanges
  (log : list (Scanner.Render * Scanner.Event * list Effect))
  : list (Scanner.Render * Scanner.Event * list Effect) :=
  filter (fun entry => isFlashChange entry = true) log.

(** A row as the scanners leave it: opened by a first check-in, and
    sequenced. *)
Definition recorded (a : Attendance) : Prop :=
  Js.present (first_check_in a) = true /\ sequenced a.

Definition tableRecorded (s : Store) : Prop :=
  forall key a, attendance_records s !! key = Some a -> recorded a.

(** No effect of the list writes to the store. *)
Definition readOnly (es : list Effect) : bool :=
  forallb (fun e => negb (mutates e)) es.

(** ** Sample data *)

Definition alice : Employee := mkEmployee "e-1" "QR-ALICE" true "Alice" "Perera".

Definition day : string := "2025-06-26".

(** 2025-06-26T09:05:00Z, in epoch milliseconds. *)
Definition t0905 : Z := 1750928700000.

Definition row (fi fo si so : option Z) (h : Z) : Attendance :=
  mkAttendance "r-1" "e-1" day fi fo si so h false 0.

Definition storeWith (r : option Attendance) : Store :=
  mkStore [alice]
    (match r with Some a => {[ ("e-1", day) := a ]} | None => ∅ end)
    (Some (9, 0)).

Definition t0920 : Z := t0905 + 15 * 60000.
Definition t0923 : Z := t0905 + 18 * 60000.
Definition t1700 : Z := t0905 + 475 * 60000.

Definition afterFirstIn : Attendance := row (Some t0905) None None None 0.
Definition afterFirstOut : Attendance := row (Some t0905) (Some t0920) None None 0.
Definition afterSecondIn : Attendance :=
  row (Some t0905) (Some t0920) (Some t0923) None 0.
Definition dayComplete : Attendance :=
  row (Some t0905) (Some t0920) (Some t0923) (Some t1700) 787.

Definition quiet : Scanner.Net := Scanner.mkNet NoFault NoFault NoFault NoFault NoFault.

(** The local times of the sample day, in a zone without offset. *)
Definition utcDay (hours minutes : Z) : Z :=
  t0905 - 32700000 + hours * 3600000 + minutes * 60000.

Definition envNet (net : Scanner.Net) (t : Z) : Scanner.Env :=
  Scanner.mkEnv true true day utcDay "r-1"
    (Scanner.mkClock t (t + 1) (t + 40) (t + 90) (t + 150)) net.

Definition envAt (t : Z) : Scanner.Env := envNet quiet t.

(** The read of the daily record made by the sequencer fails. *)
Definition readDown : Scanner.Net :=
  Scanner.mkNet NoFault (Rejected "Failed to fetch") NoFault NoFault NoFault.

(** A device with a working flash, and a run in which the flash button is
    pressed before two samples taken in the dark. *)
Definition torch : Scanner.Device := Scanner.mkDevice true true true.

Definition darkRun : list Scanner.Event :=
  [ Scanner.FlashButton (envAt t0905) torch;
    Scanner.Sample (envAt (t0905 + 2000)) torch 3%Q;
    Scanner.Sample (envAt (t0905 + 4000)) torch 3%Q ].

Definition altQuiet : ScannerAlt.Net := ScannerAlt.mkNet NoFault NoFault NoFault NoFault.

Definition altEnv (t : Z) : ScannerAlt.Env :=
  ScannerAlt.mkEnv true day utcDay "r-1"
    (ScannerAlt.mkClock t (t + 1) (t + 60)) altQuiet.

Definition altState (r : option Attendance) : ScannerAlt.State :=
  ScannerAlt.mkState ∅ (storeWith r).

(** A phone with two cameras, full HD at 30 frames a second and a torch; and
    a pair of webcams limited to 640 pixels of width. *)
Definition phone : CameraOptimizer.Probe :=
  CameraOptimizer.Probed
    [CameraOptimizer.mkVideoDevice true false; CameraOptimizer.mkVideoDevice false true]
    (CameraOptimizer.mkCapabilities (Some 1920) (Some 30%Q)
       (Some ["continuous"; "manual"]) None None (Some true)).

Definition webcams : CameraOptimizer.Probe :=
  CameraOptimizer.Probed
    [CameraOptimizer.mkVideoDevice false false; CameraOptimizer.mkVideoDevice false false]
    (CameraOptimizer.mkCapabilities (Some 640) (Some 30%Q) (Some ["manual"]) None None None).

(** ** Arithmetic of the JavaScript primitives *)

Lemma ceil_div_exact (q b : Z) : 0 < b -> Js.ceil_div (q * b) b = q.
Proof.
  intros Hb. unfold Js.ceil_div.
  replace (- (q * b)) with ((- q) * b) by ring.
  rewrite Z.div_mul by lia. lia.
Qed.

Lemma ceil_div_inexact (q r b : Z) :
  0 < r < b -> Js.ceil_div (q * b + r) b = q + 1.
Proof.
  intros Hr. unfold Js.ceil_div.
  replace (- (q * b + r)) with ((- (q + 1)) * b + (b - r)) by ring.
  rewrite Z.div_add_l by lia.
  rewrite Z.div_small by lia. lia.
Qed.

Lemma ceil_div_bounds (a b : Z) :
  0 < b -> b * (Js.ceil_div a b - 1) < a <= b * Js.ceil_div a b.
Proof.
  intros Hb. unfold Js.ceil_div.
  pose proof (Z.mul_div_le (- a) b Hb).
  pose proof (Z.mul_succ_div_gt (- a) b Hb). lia.
Qed.

Lemma rem_nonneg (a b : Z) : 0 <= a -> 0 < b -> Js.rem a b = a mod b.
Proof. intros Ha Hb. unfold Js.rem. apply Z.rem_mod_nonneg; lia. Qed.

(** ** The sequencing rules *)

Lemma readOnly_app (es1 es2 : list Effect) :
  readOnly (es1 ++ es2) = readOnly es1 && readOnly es2.
Proof. apply forallb_app. Qed.

Lemma validate_found (s : Store) (employee : Employee) (today : string)
  (a : Attendance) (now : Z) :
  attendance_records s !! (e_id employee, today) = Some a ->
  Scanner.validateAttendanceSequence s NoFault employee today now
  = Scanner.validateRecord (Some a) now.
Proof.
  intros Hrow. unfold Scanner.validateAttendanceSequence, Scanner.readAttendance.
  rewrite Hrow. reflexivity.
Qed.

(** The cooldown branch is the one taken once the first session is closed
    and the second not yet opened. *)
Lemma validateRecord_after_first_out (a : Attendance) (firstIn firstOut now : Z) :
  first_check_in a = Some firstIn ->
  first_check_out a = Some firstOut ->
  second_check_in a = None ->
  Scanner.validateRecord (Some a) now
  = if now - firstOut <? Scanner.CHECKOUT_TO_CHECKIN_COOLDOWN then
      Scanner.mkValidation false "second_check_in"
        (Some (Scanner.cooldownMessage
                 (Scanner.CHECKOUT_TO_CHECKIN_COOLDOWN - (now - firstOut))))
        (Some (Scanner.CHECKOUT_TO_CHECKIN_COOLDOWN - (now - firstOut))) false
    else Scanner.mkValidation true "second_check_in" None None true.
Proof.
  intros Hfi Hfo Hsi. unfold Scanner.validateRecord.
  rewrite Hfi, Hfo, Hsi. reflexivity.
Qed.

Lemma sequenced_first_in (a : Attendance) (firstOut : Z) :
  sequenced a -> first_check_out a = Some firstOut ->
  exists firstIn, first_check_in a = Some firstIn.
Proof.
  intros (H1 & _ & _) Hfo. rewrite Hfo in H1.
  destruct (first_check_in a) as [firstIn|]; [eauto|].
  specialize (H1 eq_refl). discriminate.
Qed.

(** C1.  When the daily record, a sequenced one, has [firstOut] set and
    [secondIn] null, a scan validated less than 3 minutes after [firstOut]
    is rejected and carries
    [cooldownRemaining = 3 min - (now - firstOut)], which strictly decreases
    from one rejected attempt to a later one; a scan 3 minutes or more after
    [firstOut] is accepted with next action [second_check_in]. *)
Theorem cooldown_guard (s : Store) (employee : Employee) (today : string)
  (a : Attendance) (firstOut : Z) :
  attendance_records s !! (e_id employee, today) = Some a ->
  sequenced a ->
  first_check_out a = Some firstOut ->
  second_check_in a = None ->
  let validate := Scanner.validateAttendanceSequence s NoFault employee today in
  (forall now, now - firstOut < 3 * 60 * 1000 ->
     Scanner.canProceed (validate now) = false /\
     Scanner.isValid (validate now) = false /\
     Scanner.cooldownRemaining (validate now)
     = Some (3 * 60 * 1000 - (now - firstOut))) /\
  (forall now1 now2, now1 < now2 -> now2 - firstOut < 3 * 60 * 1000 ->
     exists r1 r2,
       Scanner.cooldownRemaining (validate now1) = Some r1 /\
       Scanner.cooldownRemaining (validate now2) = Some r2 /\
       r2 < r1) /\
  (forall now, 3 * 60 * 1000 <= now - firstOut ->
     Scanner.canProceed (validate now) = true /\
     Scanner.isValid (validate now) = true /\
     Scanner.nextAction (validate now) = "second_check_in").
Proof.
  intros Hrow Hseq Hfo Hsi validate.
  destruct (sequenced_first_in a firstOut Hseq Hfo) as [firstIn Hfi].
  assert (Hv : forall now, validate now
    = if now - firstOut <? Scanner.CHECKOUT_TO_CHECKIN_COOLDOWN then
        Scanner.mkValidation false "second_check_in"
          (Some (Scanner.cooldownMessage
                   (Scanner.CHECKOUT_TO_CHECKIN_COOLDOWN - (now - firstOut))))
          (Some (Scanner.CHECKOUT_TO_CHECKIN_COOLDOWN - (now - firstOut))) false
      else Scanner.mkValidation true "second_check_in" None None true).
  { intros now. unfold validate. rewrite (validate_found _ _ _ a) by exact Hrow.
    apply (validateRecord_after_first_out a firstIn); assumption. }
  change Scanner.CHECKOUT_TO_CHECKIN_COOLDOWN with (3 * 60 * 1000) in Hv.
  split; [|split].
  - intros now Hnow. rewrite Hv.
    destruct (Z.ltb_spec (now - firstOut) (3 * 60 * 1000)); [|lia].
    cbn. auto.
  - intros now1 now2 Hlt Hnow2.
    exists (3 * 60 * 1000 - (now1 - firstOut)), (3 * 60 * 1000 - (now2 - firstOut)).
    rewrite !Hv.
    destruct (Z.ltb_spec (now1 - firstOut) (3 * 60 * 1000)); [|lia].
    destruct (Z.ltb_spec (now2 - firstOut) (3 * 60 * 1000)); [|lia].
    cbn. repeat split. lia.
  - intros now Hnow. rewrite Hv.
    destruct (Z.ltb_spec (now - firstOut) (3 * 60 * 1000)); [lia|].
    cbn. auto.
Qed.

Lemma sequenced_afterFirstOut : sequenced afterFirstOut.
Proof. repeat split; intros H; try reflexivity; discriminate H. Defined.

Lemma cooldown_guard_witness :
  attendance_records (storeWith (Some afterFirstOut)) !! (e_id alice, day)
  = Some afterFirstOut /\
  sequenced afterFirstOut /\
  Scanner.cooldownRemaining
    (Scanner.validateAttendanceSequence (storeWith (Some afterFirstOut)) NoFault
       alice day (t0920 + 60000))
  = Some 120000.
Proof.
  split; [reflexivity|]. split; [exact sequenced_afterFirstOut|].
  destruct (cooldown_guard (storeWith (Some afterFirstOut)) alice day afterFirstOut
              t0920 eq_refl sequenced_afterFirstOut eq_refl eq_refl) as [H _].
  destruct (H (t0920 + 60000)) as (_ & _ & Hr).
  - reflexivity.
  - exact Hr.
Defined.

(** ** Rejected scans leave the store alone *)

Lemma provideFeedback_readOnly (env : Scanner.Env) (type : string) :
  readOnly (Scanner.provideFeedback env type) = true.
Proof.
  unfold Scanner.provideFeedback.
  destruct (Scanner.canVibrate env); [|reflexivity].
  destruct (String.eqb type "success"); reflexivity.
Qed.

Lemma showTimingError_readOnly (env : Scanner.Env) (employee : Employee)
  (v : Scanner.AttendanceValidation) :
  readOnly (Scanner.showTimingError env employee v) = true.
Proof.
  unfold Scanner.showTimingError.
  destruct (Scanner.canVibrate env); reflexivity.
Qed.

Lemma failure_readOnly (env : Scanner.Env) (done : list Effect) (message : string) :
  readOnly done = true ->
  readOnly (done ++ Scanner.provideFeedback env "error"
              ++ Scanner.handleProcessingError message
              ++ [SetScannerStatus "ready"]) = true.
Proof.
  intros Hdone.
  rewrite !readOnly_app, Hdone, provideFeedback_readOnly. reflexivity.
Qed.

(** A scan that is suppressed, made offline, or fails the employee lookup
    never reaches the store's attendance rows. *)
Lemma scan_without_employee (seen : Scanner.Render) (env : Scanner.Env) (s : Store)
  (qrCode message : string) :
  Scanner.findEmployee s (Scanner.n_employee (Scanner.net env)) qrCode
  = Scanner.Thrown message ->
  fst (Scanner.handleScanResult seen env s qrCode) = s /\
  readOnly (snd (Scanner.handleScanResult seen env s qrCode)) = true.
Proof.
  intros Hfind. unfold Scanner.handleScanResult.
  destruct (Scanner.mounted env); [|split; reflexivity]. cbn [negb].
  destruct (Scanner.recentlyScanned seen qrCode _); [split; reflexivity|].
  destruct (Scanner.isOnline seen); cbn [negb].
  - rewrite Hfind. cbn [fst snd]. split; [reflexivity|].
    apply failure_readOnly.
    rewrite !readOnly_app, provideFeedback_readOnly. reflexivity.
  - cbn [fst snd]. split; [reflexivity|].
    apply failure_readOnly.
    rewrite !readOnly_app, provideFeedback_readOnly. reflexivity.
Qed.

(** A scan whose validation does not allow proceeding stops after the
    timing-error feedback: the store is returned as it was. *)
Lemma scan_rejected (seen : Scanner.Render) (env : Scanner.Env) (s : Store)
  (qrCode : string) (employee : Employee) :
  Scanner.findEmployee s (Scanner.n_employee (Scanner.net env)) qrCode
  = Scanner.Done employee ->
  Scanner.canProceed
    (Scanner.validateAttendanceSequence s (Scanner.n_validate (Scanner.net env))
       employee (Scanner.today env) (Scanner.t_validate (Scanner.clock env)))
  = false ->
  fst (Scanner.handleScanResult seen env s qrCode) = s /\
  readOnly (snd (Scanner.handleScanResult seen env s qrCode)) = true.
Proof.
  intros Hfind Hcan. unfold Scanner.handleScanResult.
  destruct (Scanner.mounted env); [|split; reflexivity]. cbn [negb].
  destruct (Scanner.recentlyScanned seen qrCode _); [split; reflexivity|].
  destruct (Scanner.isOnline seen); cbn [negb].
  - rewrite Hfind, Hcan. cbn [negb fst snd]. split; [reflexivity|].
    rewrite !readOnly_app, provideFeedback_readOnly, showTimingError_readOnly.
    reflexivity.
  - cbn [fst snd]. split; [reflexivity|].
    apply failure_readOnly.
    rewrite !readOnly_app, provideFeedback_readOnly. reflexivity.
Qed.

(** The exact condition under which a record with [secondOut] set is
    reported complete. *)
Lemma validateRecord_second_out (a : Attendance) (now : Z) :
  Js.present (second_check_out a) = true ->
  Js.present (first_check_in a) = false \/
  (Js.present (first_check_out a) = true /\ Js.present (second_check_in a) = true) ->
  Scanner.validateRecord (Some a) now
  = Scanner.mkValidation false "complete"
      (Some "All attendance records for today are complete. No further check-ins allowed.")
      None false.
Proof.
  intros Hso Hshape. unfold Scanner.validateRecord. rewrite Hso.
  destruct Hshape as [Hfi | [Hfo Hsi]].
  - rewrite Hfi. cbn. destruct (Js.present (second_check_in a)); reflexivity.
  - rewrite Hfo, Hsi. cbn. destruct (Js.present (first_check_in a)); reflexivity.
Qed.

(** C5.  Once [secondOut] is set in the (sequenced) daily record, a further
    scan of that employee on that day is rejected as day complete whatever
    the clock reads, and the handler neither changes the store nor issues a
    write. *)
Theorem day_complete_terminal (seen : Scanner.Render) (env : Scanner.Env) (s : Store)
  (qrCode : string) (employee : Employee) (a : Attendance) (secondOut : Z) :
  Scanner.findEmployee s (Scanner.n_employee (Scanner.net env)) qrCode
  = Scanner.Done employee ->
  Scanner.n_validate (Scanner.net env) = NoFault ->
  attendance_records s !! (e_id employee, Scanner.today env) = Some a ->
  sequenced a ->
  second_check_out a = Some secondOut ->
  let validation :=
    Scanner.validateAttendanceSequence s NoFault employee (Scanner.today env)
      (Scanner.t_validate (Scanner.clock env)) in
  Scanner.canProceed validation = false /\
  Scanner.isValid validation = false /\
  Scanner.nextAction validation = "complete" /\
  fst (Scanner.handleScanResult seen env s qrCode) = s /\
  readOnly (snd (Scanner.handleScanResult seen env s qrCode)) = true.
Proof.
  intros Hfind Hnet Hrow (H1 & H2 & H3) Hso validation.
  assert (Hv : validation
    = Scanner.mkValidation false "complete"
        (Some "All attendance records for today are complete. No further check-ins allowed.")
        None false).
  { unfold validation. rewrite (validate_found _ _ _ a) by exact Hrow.
    apply validateRecord_second_out.
    - rewrite Hso. reflexivity.
    - right. rewrite Hso in H3. specialize (H3 eq_refl). auto. }
  rewrite Hv. cbn [Scanner.canProceed Scanner.isValid Scanner.nextAction].
  repeat (split; [reflexivity|]).
  apply (scan_rejected seen env s qrCode employee Hfind).
  rewrite Hnet. fold validation. rewrite Hv. reflexivity.
Qed.

Lemma sequenced_dayComplete : sequenced dayComplete.
Proof. repeat split; intros H; reflexivity. Defined.

Lemma day_complete_terminal_witness :
  sequenced dayComplete /\
  fst (Scanner.handleScanResult (Scanner.initialRender true) (envAt (t1700 + 3600000))
         (storeWith (Some dayComplete)) "QR-ALICE")
  = storeWith (Some dayComplete).
Proof.
  split; [exact sequenced_dayComplete|].
  apply (day_complete_terminal (Scanner.initialRender true) (envAt (t1700 + 3600000))
           (storeWith (Some dayComplete)) "QR-ALICE" alice dayComplete t1700
           eq_refl eq_refl eq_refl sequenced_dayComplete eq_refl).
Defined.

(** C4.  When the sequencer's read of the daily record fails with a
    transient error, it returns the generic retry rejection, and the scan
    handler neither changes the store nor issues a write. *)
Theorem transient_error_rejected (seen : Scanner.Render) (env : Scanner.Env) (s : Store)
  (qrCode : string) (employee : Employee) :
  Scanner.findEmployee s (Scanner.n_employee (Scanner.net env)) qrCode
  = Scanner.Done employee ->
  transient (Scanner.n_validate (Scanner.net env)) ->
  let validation :=
    Scanner.validateAttendanceSequence s (Scanner.n_validate (Scanner.net env))
      employee (Scanner.today env) (Scanner.t_validate (Scanner.clock env)) in
  validation
  = Scanner.mkValidation false "error"
      (Some "Error validating attendance. Please try again.") None false /\
  fst (Scanner.handleScanResult seen env s qrCode) = s /\
  attendance_records (fst (Scanner.handleScanResult seen env s qrCode))
  = attendance_records s /\
  readOnly (snd (Scanner.handleScanResult seen env s qrCode)) = true.
Proof.
  intros Hfind Htransient validation.
  assert (Hv : validation = Scanner.validationError).
  { unfold validation, Scanner.validateAttendanceSequence, Scanner.readAttendance.
    destruct (Scanner.n_validate (Scanner.net env)) as [|code message|message];
      cbn in Htransient; [contradiction| |reflexivity].
    destruct (String.eqb_spec code "PGRST116") as [->|Hne]; [contradiction|].
    reflexivity. }
  split; [rewrite Hv; reflexivity|].
  destruct (scan_rejected seen env s qrCode employee Hfind) as [Hs Hro].
  { fold validation. rewrite Hv. reflexivity. }
  rewrite Hs. auto.
Qed.

(** The read that [processAttendance] repeats can fail too: the error is
    rethrown before any write. *)
Lemma process_read_failure (s : Store) (env : Scanner.Env) (employee : Employee)
  (action : string) :
  transient (Scanner.n_process (Scanner.net env)) ->
  Scanner.processAttendance s env employee action
  = (s, [SelectAttendance (e_id employee) (Scanner.today env)],
     Some (Scanner.faultMessage (Scanner.n_process (Scanner.net env)))).
Proof.
  intros Htransient. unfold Scanner.processAttendance, Scanner.readAttendance.
  destruct (Scanner.n_process (Scanner.net env)) as [|code message|message];
    cbn in Htransient; [contradiction| |reflexivity].
  destruct (String.eqb_spec code "PGRST116") as [->|Hne]; [contradiction|].
  reflexivity.
Qed.

Lemma transient_error_rejected_witness :
  transient (Scanner.n_validate (Scanner.net (envNet readDown t0920))) /\
  fst (Scanner.handleScanResult (Scanner.initialRender true) (envNet readDown t0920)
         (storeWith (Some afterFirstIn)) "QR-ALICE")
  = storeWith (Some afterFirstIn).
Proof.
  split; [exact I|].
  apply (transient_error_rejected (Scanner.initialRender true) (envNet readDown t0920)
           (storeWith (Some afterFirstIn)) "QR-ALICE" alice eq_refl I).
Defined.

(** ** The text of the cooldown rejection *)

Lemma ceil_div_shift (k q : Z) :
  Js.ceil_div (60000 * q + k) 1000 = 60 * q + Js.ceil_div k 1000.
Proof.
  unfold Js.ceil_div.
  replace (- (60000 * q + k)) with (- k + (- (60 * q)) * 1000) by ring.
  rewrite Z.div_add by lia. lia.
Qed.

(** Whenever the remaining time is not a whole number of minutes, the
    minutes and seconds put in the message add up to one minute more than
    the remaining time counted in (rounded-up) seconds. *)
Lemma cooldownMessage_parts (r : Z) :
  0 < r ->
  let remainingMinutes := Js.ceil_div r (60 * 1000) in
  let remainingSeconds := Js.ceil_div (Js.rem r (60 * 1000)) 1000 in
  (r mod 60000 = 0 -> 60 * remainingMinutes + remainingSeconds = Js.ceil_div r 1000) /\
  (r mod 60000 <> 0 ->
   60 * remainingMinutes + remainingSeconds = Js.ceil_div r 1000 + 60).
Proof.
  intros Hr remainingMinutes remainingSeconds.
  unfold remainingMinutes, remainingSeconds.
  change (60 * 1000) with 60000.
  rewrite rem_nonneg by lia.
  pose proof (Z.div_mod r 60000 ltac:(lia)) as Hdm.
  pose proof (Z.mod_pos_bound r 60000 ltac:(lia)) as Hk.
  set (q := r / 60000) in *. set (k := r mod 60000) in *.
  split; intros Hmod.
  - rewrite Hmod in Hdm. rewrite Hmod.
    replace r with (q * 60000) by lia.
    rewrite ceil_div_exact by lia.
    replace (q * 60000) with (60000 * q + 0) by ring.
    rewrite ceil_div_shift. reflexivity.
  - rewrite Hdm at 1. rewrite (Z.mul_comm 60000 q).
    rewrite ceil_div_inexact by lia.
    rewrite Hdm at 1. rewrite ceil_div_shift. lia.
Qed.

(** C7, on the code.  One second into the cooldown the remaining time is
    179000 ms, that is 2 min 59 s, and the message announces 3m 59s. *)
Theorem cooldown_message_overstates :
  let validation :=
    Scanner.validateAttendanceSequence (storeWith (Some afterFirstOut)) NoFault
      alice day (t0920 + 1000) in
  Scanner.canProceed validation = false /\
  Scanner.cooldownRemaining validation = Some (2 * 60000 + 59 * 1000) /\
  Scanner.errorMessage validation
  = Some "Cooldown period active. Please wait 3m 59s before checking in again.".
Proof. vm_compute. repeat split. Qed.

(** ** Transitions of the first scanner *)

Lemma validateRecord_after_first_in (a : Attendance) (firstIn now : Z) :
  first_check_in a = Some firstIn ->
  first_check_out a = None ->
  Scanner.validateRecord (Some a) now
  = Scanner.mkValidation true "first_check_out" None None true.
Proof.
  intros Hfi Hfo. unfold Scanner.validateRecord. rewrite Hfi, Hfo. reflexivity.
Qed.

(** With the requests succeeding, [processAttendance] applies the update
    chosen by its [switch] to the row it read. *)
Lemma processAttendance_update (s : Store) (env : Scanner.Env) (employee : Employee)
  (action : string) (a : Attendance) (u : UpdateData) :
  Scanner.n_process (Scanner.net env) = NoFault ->
  Scanner.n_write (Scanner.net env) = NoFault ->
  attendance_records s !! (e_id employee, Scanner.today env) = Some a ->
  Scanner.updateFor a action (Scanner.t_process (Scanner.clock env)) = Some u ->
  Scanner.processAttendance s env employee action
  = (Scanner.setAttendance s (e_id employee, Scanner.today env) (applyUpdate u a),
     [SelectAttendance (e_id employee) (Scanner.today env); UpdateAttendance (a_id a) u]
       ++ Scanner.showSuccessFeedback env employee action
            (Scanner.t_process (Scanner.clock env)),
     None).
Proof.
  intros Hread Hwrite Hrow Hu.
  unfold Scanner.processAttendance, Scanner.readAttendance.
  rewrite Hread, Hrow, Hu, Hwrite. reflexivity.
Qed.

(** A scan that gets past the scan cooldown, online, for a known employee
    whose record has only [firstIn] set, writes [firstOut]: no duration is
    required since the first check-in. *)
Lemma first_check_out_unguarded (seen : Scanner.Render) (env : Scanner.Env) (s : Store)
  (qrCode : string) (employee : Employee) (a : Attendance) (firstIn : Z) :
  Scanner.mounted env = true ->
  Scanner.recentlyScanned seen qrCode (Scanner.t_scan (Scanner.clock env)) = false ->
  Scanner.isOnline seen = true ->
  Scanner.findEmployee s (Scanner.n_employee (Scanner.net env)) qrCode
  = Scanner.Done employee ->
  Scanner.n_validate (Scanner.net env) = NoFault ->
  Scanner.n_process (Scanner.net env) = NoFault ->
  Scanner.n_write (Scanner.net env) = NoFault ->
  attendance_records s !! (e_id employee, Scanner.today env) = Some a ->
  first_check_in a = Some firstIn ->
  first_check_out a = None ->
  fst (Scanner.handleScanResult seen env s qrCode)
  = Scanner.setAttendance s (e_id employee, Scanner.today env)
      (applyUpdate (mkUpdate (Some (Scanner.t_process (Scanner.clock env))) None None None) a).
Proof.
  intros Hm Hrecent Honline Hfind Hv Hp Hw Hrow Hfi Hfo.
  unfold Scanner.handleScanResult.
  rewrite Hm, Hrecent, Honline, Hfind, Hv. cbn [negb].
  rewrite (validate_found _ _ _ a) by exact Hrow.
  rewrite (validateRecord_after_first_in a firstIn) by assumption.
  cbn [Scanner.canProceed Scanner.nextAction negb].
  rewrite (processAttendance_update s env employee "first_check_out" a
             (mkUpdate (Some (Scanner.t_process (Scanner.clock env))) None None None))
    by (assumption || reflexivity).
  reflexivity.
Qed.

(** ** Transitions of the second scanner *)

Lemma alt_scan_existing (st : ScannerAlt.State) (env : ScannerAlt.Env) (qrData : string)
  (employee : Employee) (a : Attendance) :
  ScannerAlt.isRecentlySeen (ScannerAlt.lastScanRef st) qrData
    (ScannerAlt.t_seen (ScannerAlt.clock env)) = false ->
  ScannerAlt.validateQRCode (ScannerAlt.store st)
    (ScannerAlt.n_employee (ScannerAlt.net env)) qrData = Scanner.Done employee ->
  ScannerAlt.n_read (ScannerAlt.net env) = NoFault ->
  ScannerAlt.n_write (ScannerAlt.net env) = NoFault ->
  attendance_records (ScannerAlt.store st) !! (e_id employee, ScannerAlt.today env)
  = Some a ->
  ScannerAlt.store (fst (ScannerAlt.handleScan st env qrData))
  = match ScannerAlt.nextUpdate a (ScannerAlt.t_now (ScannerAlt.clock env)) with
    | Scanner.Done u =>
      Scanner.setAttendance (ScannerAlt.store st) (e_id employee, ScannerAlt.today env)
        (applyUpdate u a)
    | Scanner.Thrown _ => ScannerAlt.store st
    end.
Proof.
  intros Hseen Hfind Hread Hwrite Hrow.
  unfold ScannerAlt.handleScan. rewrite Hseen, Hfind.
  unfold ScannerAlt.processAttendance. rewrite Hread, Hrow.
  destruct (ScannerAlt.nextUpdate a _) as [u|m]; [|reflexivity].
  rewrite Hwrite. reflexivity.
Qed.

Lemma alt_nextUpdate_first_out (a : Attendance) (firstIn now : Z) :
  first_check_in a = Some firstIn ->
  first_check_out a = None ->
  ScannerAlt.nextUpdate a now
  = if now - firstIn <? 3 * 60 * 1000 then
      Scanner.Thrown
        "Please wait at least 3 minutes between first check-in and first check-out"
    else
      Scanner.Done (mkUpdate (Some now) None None
                      (Some (ScannerAlt.calculateHours firstIn now))).
Proof.
  intros Hfi Hfo. unfold ScannerAlt.nextUpdate. rewrite Hfi, Hfo. reflexivity.
Qed.

(** The second scanner has no cooldown between first check-out and second
    check-in, and refuses a scan once the day is complete. *)
Lemma alt_nextUpdate_after_first_out (a : Attendance) (now : Z) :
  Js.present (first_check_out a) = true ->
  ScannerAlt.nextUpdate a now
  = if negb (Js.present (second_check_in a)) then
      Scanner.Done (mkUpdate None (Some now) None None)
    else if negb (Js.present (second_check_out a)) then
      Scanner.Done
        (mkUpdate None None (Some now)
           (Some (ScannerAlt.calculateHours (Js.getTime (first_check_in a))
                    (Js.getTime (first_check_out a))
                  + ScannerAlt.calculateHours (Js.getTime (second_check_in a)) now)))
    else Scanner.Thrown "All check-ins and check-outs are completed for today".
Proof. intros Hfo. unfold ScannerAlt.nextUpdate. rewrite Hfo. reflexivity. Qed.

Lemma lookup_setAttendance (s : Store) (key : string * string) (r : Attendance) :
  attendance_records (Scanner.setAttendance s key r) !! key = Some r.
Proof. unfold Scanner.setAttendance. cbn. apply lookup_insert_eq. Qed.

(** C8, as stated, fails on the second scanner: one minute after the first
    check-in the scan is refused and [firstOut] stays null. *)
Lemma first_check_out_refused_early :
  attendance_records
    (ScannerAlt.store
       (fst (ScannerAlt.handleScan (altState (Some afterFirstIn))
               (altEnv (t0905 + 60000)) "QR-ALICE")))
  !! ("e-1", day) = Some afterFirstIn /\
  first_check_out afterFirstIn = None /\
  In (SwalFire "warning" "Wait Required"
        "Please wait at least 3 minutes between your first check-in and first check-out.")
     (snd (ScannerAlt.handleScan (altState (Some afterFirstIn))
             (altEnv (t0905 + 60000)) "QR-ALICE")).
Proof. vm_compute. repeat split. auto. Qed.

(** C8, amended.  For a record with [firstIn] set and [firstOut] null, the
    first scanner sets [firstOut] to the time of the scan with no minimum
    duration; the second scanner refuses the scan until 3 minutes have
    passed since [firstIn], and sets [firstOut] from then on. *)
Theorem first_check_out_rules (a : Attendance) (firstIn : Z) :
  first_check_in a = Some firstIn ->
  first_check_out a = None ->
  (forall seen env s qrCode employee,
     Scanner.mounted env = true ->
     Scanner.recentlyScanned seen qrCode (Scanner.t_scan (Scanner.clock env)) = false ->
     Scanner.isOnline seen = true ->
     Scanner.findEmployee s (Scanner.n_employee (Scanner.net env)) qrCode
     = Scanner.Done employee ->
     Scanner.n_validate (Scanner.net env) = NoFault ->
     Scanner.n_process (Scanner.net env) = NoFault ->
     Scanner.n_write (Scanner.net env) = NoFault ->
     attendance_records s !! (e_id employee, Scanner.today env) = Some a ->
     attendance_records (fst (Scanner.handleScanResult seen env s qrCode))
       !! (e_id employee, Scanner.today env)
     = Some (applyUpdate
               (mkUpdate (Some (Scanner.t_process (Scanner.clock env))) None None None)
               a)) /\
  (forall st env qrData employee,
     ScannerAlt.isRecentlySeen (ScannerAlt.lastScanRef st) qrData
       (ScannerAlt.t_seen (ScannerAlt.clock env)) = false ->
     ScannerAlt.validateQRCode (ScannerAlt.store st)
       (ScannerAlt.n_employee (ScannerAlt.net env)) qrData = Scanner.Done employee ->
     ScannerAlt.n_read (ScannerAlt.net env) = NoFault ->
     ScannerAlt.n_write (ScannerAlt.net env) = NoFault ->
     attendance_records (ScannerAlt.store st) !! (e_id employee, ScannerAlt.today env)
     = Some a ->
     let now := ScannerAlt.t_now (ScannerAlt.clock env) in
     let after := ScannerAlt.store (fst (ScannerAlt.handleScan st env qrData)) in
     (now - firstIn < 3 * 60 * 1000 -> after = ScannerAlt.store st) /\
     (3 * 60 * 1000 <= now - firstIn ->
      attendance_records after !! (e_id employee, ScannerAlt.today env)
      = Some (applyUpdate
                (mkUpdate (Some now) None None
                   (Some (ScannerAlt.calculateHours firstIn now)))
                a))).
Proof.
  intros Hfi Hfo. split.
  - intros seen env s qrCode employee Hm Hrecent Honline Hfind Hv Hp Hw Hrow.
    rewrite (first_check_out_unguarded seen env s qrCode employee a firstIn)
      by assumption.
    apply lookup_setAttendance.
  - intros st env qrData employee Hseen Hfind Hread Hwrite Hrow now after.
    unfold after.
    rewrite (alt_scan_existing st env qrData employee a) by assumption.
    rewrite (alt_nextUpdate_first_out a firstIn) by assumption.
    fold now. split; intros Hnow.
    + destruct (Z.ltb_spec (now - firstIn) (3 * 60 * 1000)); [reflexivity|lia].
    + destruct (Z.ltb_spec (now - firstIn) (3 * 60 * 1000)); [lia|].
      apply lookup_setAttendance.
Qed.

Lemma first_check_out_rules_witness :
  first_check_in afterFirstIn = Some t0905 /\
  first_check_out afterFirstIn = None /\
  attendance_records
    (fst (Scanner.handleScanResult (Scanner.initialRender true) (envAt (t0905 + 1000))
            (storeWith (Some afterFirstIn)) "QR-ALICE"))
  !! ("e-1", day)
  = Some (row (Some t0905) (Some (t0905 + 1090)) None None 0).
Proof.
  split; [reflexivity|]. split; [reflexivity|].
  destruct (first_check_out_rules afterFirstIn t0905 eq_refl eq_refl) as [H _].
  exact (H (Scanner.initialRender true) (envAt (t0905 + 1000))
           (storeWith (Some afterFirstIn)) "QR-ALICE" alice
           eq_refl eq_refl eq_refl eq_refl eq_refl eq_refl eq_refl eq_refl).
Defined.

(** ** Total hours *)

(** The scenario of the specification: 09:05, 09:20, 09:23, 17:00 gives
    7.87 hours. *)
Lemma calculateTotalHours_scenario :
  Scanner.calculateTotalHours afterSecondIn t1700 = 787.
Proof. vm_compute. reflexivity. Qed.

(** The hours are binary64 numbers.  Sessions of 18 seconds and of one hour
    make 1.005 hours, whose hundredfold is computed as 100.49999999999999
    and rounds to 100; 270 seconds are computed as a number just below 0.075
    hours, which [toFixed(2)] renders as 0.07. *)
Lemma calculateTotalHours_binary64 :
  Scanner.calculateTotalHours
    (row (Some t0905) (Some (t0905 + 18000)) (Some t0923) None 0) (t0923 + 3600000)
  = 100.
Proof. vm_compute. reflexivity. Qed.

Lemma calculateHours_binary64 :
  ScannerAlt.calculateHours t0905 (t0905 + 270000) = 7.
Proof. vm_compute. reflexivity. Qed.

(** The first scanner leaves [total_hours] alone unless it performs the
    second check-out. *)
Lemma total_hours_after_process (s : Store) (env : Scanner.Env) (employee : Employee)
  (action : string) (a : Attendance) :
  attendance_records s !! (e_id employee, Scanner.today env) = Some a ->
  exists a',
    attendance_records (fst (fst (Scanner.processAttendance s env employee action)))
      !! (e_id employee, Scanner.today env) = Some a' /\
    (total_hours a' = total_hours a \/
     (action = "second_check_out" /\
      total_hours a'
      = Scanner.calculateTotalHours a (Scanner.t_process (Scanner.clock env)))).
Proof.
  intros Hrow.
  assert (Hkeep : exists a',
    attendance_records s !! (e_id employee, Scanner.today env) = Some a' /\
    (total_hours a' = total_hours a \/
     (action = "second_check_out" /\
      total_hours a'
      = Scanner.calculateTotalHours a (Scanner.t_process (Scanner.clock env)))))
    by (exists a; auto).
  unfold Scanner.processAttendance, Scanner.readAttendance.
  destruct (Scanner.n_process (Scanner.net env)) as [|code message|message];
    cbn [fst]; [| |exact Hkeep].
  - rewrite Hrow. unfold Scanner.updateFor.
    destruct (String.eqb_spec action "first_check_out");
      [destruct (Scanner.n_write (Scanner.net env)); cbn [fst];
       [rewrite lookup_setAttendance; eexists; split; [reflexivity|left; reflexivity]
       |exact Hkeep|exact Hkeep]|].
    destruct (String.eqb_spec action "second_check_in");
      [destruct (Scanner.n_write (Scanner.net env)); cbn [fst];
       [rewrite lookup_setAttendance; eexists; split; [reflexivity|left; reflexivity]
       |exact Hkeep|exact Hkeep]|].
    destruct (String.eqb_spec action "second_check_out"); [|exact Hkeep].
    destruct (Scanner.n_write (Scanner.net env)); cbn [fst];
      [rewrite lookup_setAttendance; eexists; split; [reflexivity|right; auto]
      |exact Hkeep|exact Hkeep].
  - destruct (negb (String.eqb code "PGRST116")); cbn [fst]; [exact Hkeep|].
    destruct (String.eqb action "first_check_in"); [|exact Hkeep].
    destruct (Scanner.checkIfLate s env _) as [isLate lateDuration].
    rewrite Hrow.
    destruct (Scanner.n_write (Scanner.net env)); exact Hkeep.
Qed.

(** C3, as stated, fails on the second scanner: the first check-out, one
    hour after the first check-in, stores 1.00 hour computed from the single
    open session ([secondIn] and [secondOut] are null). *)
Lemma total_hours_written_at_first_check_out :
  attendance_records
    (ScannerAlt.store
       (fst (ScannerAlt.handleScan (altState (Some afterFirstIn))
               (altEnv (t0905 + 3599940)) "QR-ALICE")))
  !! ("e-1", day)
  = Some (row (Some t0905) (Some (t0905 + 3600000)) None None 100) /\
  total_hours afterFirstIn = 0.
Proof. vm_compute. split; reflexivity. Qed.

(** At its second check-out the second scanner adds two rounded sessions,
    which need not be the rounded sum: two sessions of 20 seconds give
    0.02 hours, where the sum of 40 seconds rounds to 0.01. *)
Lemma alt_total_is_sum_of_rounded_sessions :
  let a := row (Some t0905) (Some (t0905 + 20000)) (Some t0923) None 0 in
  ScannerAlt.nextUpdate a (t0923 + 20000)
  = Scanner.Done (mkUpdate None None (Some (t0923 + 20000)) (Some 2)) /\
  Scanner.calculateTotalHours a (t0923 + 20000) = 1.
Proof. vm_compute. split; reflexivity. Qed.

(** C3, amended.  The first scanner writes [total_hours] only in the update
    of the second check-out: the hours of the two sessions, each the binary64
    quotient of its milliseconds by 3600000, are added, multiplied by 100 and
    rounded to the nearest integer number of hundredths.  The second scanner
    writes it at both check-outs: the hours of the first session alone,
    rendered with 2 decimals, at the first check-out, and the sum of the two
    sessions' hours, each rendered with 2 decimals, at the second; neither
    writes it at the second check-in. *)
Theorem total_hours_rules (a : Attendance) (now : Z) :
  (forall action u,
     Scanner.updateFor a action now = Some u ->
     u_total_hours u
     = if String.eqb action "second_check_out" then
         Some (Double.round
                 (Double.mul
                    (Double.add
                       (Double.hours (Js.getTime (first_check_in a))
                          (Js.getTime (first_check_out a)))
                       (Double.hours (Js.getTime (second_check_in a)) now))
                    (Double.ofZ 100)))
       else None) /\
  (forall u,
     ScannerAlt.nextUpdate a now = Scanner.Done u ->
     u_total_hours u
     = if negb (Js.present (first_check_out a)) then
         Some (ScannerAlt.calculateHours (Js.getTime (first_check_in a)) now)
       else if negb (Js.present (second_check_in a)) then None
       else
         Some (ScannerAlt.calculateHours (Js.getTime (first_check_in a))
                 (Js.getTime (first_check_out a))
               + ScannerAlt.calculateHours (Js.getTime (second_check_in a)) now)).
Proof.
  split.
  - intros action u. unfold Scanner.updateFor.
    destruct (String.eqb_spec action "first_check_out") as [->|_];
      [intros [= <-]; reflexivity|].
    destruct (String.eqb_spec action "second_check_in") as [->|_];
      [intros [= <-]; reflexivity|].
    destruct (String.eqb_spec action "second_check_out") as [->|_];
      [|discriminate].
    intros [= <-]. reflexivity.
  - intros u. unfold ScannerAlt.nextUpdate.
    destruct (Js.present (first_check_out a)); cbn [negb].
    + destruct (Js.present (second_check_in a)); cbn [negb].
      * destruct (Js.present (second_check_out a)); cbn [negb];
          [discriminate|intros [= <-]; reflexivity].
      * intros [= <-]; reflexivity.
    + destruct (_ <? _); [discriminate|intros [= <-]; reflexivity].
Qed.

Lemma total_hours_rules_witness :
  Scanner.updateFor afterSecondIn "second_check_out" t1700
  = Some (mkUpdate None None (Some t1700) (Some 787)) /\
  u_total_hours (mkUpdate None None (Some t1700) (Some 787)) = Some 787.
Proof.
  assert (Hupdate : Scanner.updateFor afterSecondIn "second_check_out" t1700
                    = Some (mkUpdate None None (Some t1700) (Some 787)))
    by (vm_compute; reflexivity).
  split; [exact Hupdate|].
  destruct (total_hours_rules afterSecondIn t1700) as [H _].
  rewrite (H "second_check_out" (mkUpdate None None (Some t1700) (Some 787)) Hupdate).
  vm_compute. reflexivity.
Defined.

(** ** The feedback cooldown *)

Lemma provideFeedback_inside_cooldown (fs : FeedbackSystem.t) (canVibrate : bool)
  (type : FeedbackSystem.FeedbackType) (element : bool) (now : Z) :
  now - FeedbackSystem.lastFeedbackTime fs < FeedbackSystem.feedbackCooldown fs ->
  FeedbackSystem.provideFeedback fs canVibrate type element now = (fs, []).
Proof.
  intros Hin. unfold FeedbackSystem.provideFeedback.
  destruct (Z.ltb_spec (now - FeedbackSystem.lastFeedbackTime fs)
              (FeedbackSystem.feedbackCooldown fs)); [reflexivity|lia].
Qed.

Lemma provideFeedback_dispatched (fs : FeedbackSystem.t) (canVibrate : bool)
  (type : FeedbackSystem.FeedbackType) (element : bool) (now : Z) :
  FeedbackSystem.dispatches fs now = true ->
  fst (FeedbackSystem.provideFeedback fs canVibrate type element now)
  = FeedbackSystem.mkFeedback (FeedbackSystem.audioContext fs) now
      (FeedbackSystem.feedbackCooldown fs).
Proof.
  unfold FeedbackSystem.dispatches, FeedbackSystem.isDuplicateFeedback,
    FeedbackSystem.provideFeedback.
  intros Hd. apply negb_true_iff in Hd. rewrite Hd.
  destruct type; reflexivity.
Qed.

(** After a call that dispatched at [t1], every call made before
    [t1 + feedbackCooldown] is silent, however many there are. *)
Lemma provideAll_inside_cooldown (fs : FeedbackSystem.t) (calls : list FeedbackSystem.Call) :
  Forall (fun c => FeedbackSystem.c_now c - FeedbackSystem.lastFeedbackTime fs
                   < FeedbackSystem.feedbackCooldown fs) calls ->
  FeedbackSystem.provideAll fs calls = (fs, map (fun _ => []) calls).
Proof.
  induction 1 as [|c rest Hc _ IH]; [reflexivity|].
  cbn [FeedbackSystem.provideAll map].
  rewrite provideFeedback_inside_cooldown by exact Hc.
  rewrite IH. reflexivity.
Qed.

(** C6.  With the default cooldown of 2000 ms, once a call has dispatched at
    [t1], a call at [t2] with [t1 < t2] and [t2 - t1 < 2000] returns at the
    gate: no effect and no change of the throttle state, whatever the kinds
    of the two calls. *)
Theorem feedback_global_cooldown (fs : FeedbackSystem.t)
  (vibrate1 vibrate2 element1 element2 : bool)
  (kind1 kind2 : FeedbackSystem.FeedbackType) (t1 t2 : Z) :
  FeedbackSystem.feedbackCooldown fs = 2000 ->
  FeedbackSystem.dispatches fs t1 = true ->
  t1 < t2 ->
  t2 - t1 < 2000 ->
  let fs1 := fst (FeedbackSystem.provideFeedback fs vibrate1 kind1 element1 t1) in
  FeedbackSystem.provideFeedback fs1 vibrate2 kind2 element2 t2 = (fs1, []).
Proof.
  intros Hcool Hd Hlt Hin fs1.
  apply provideFeedback_inside_cooldown.
  unfold fs1. rewrite provideFeedback_dispatched by exact Hd.
  cbn. lia.
Qed.

Lemma feedback_global_cooldown_witness :
  FeedbackSystem.dispatches (FeedbackSystem.instance true) t0905 = true /\
  FeedbackSystem.provideFeedback
    (fst (FeedbackSystem.provideFeedback (FeedbackSystem.instance true) true
            FeedbackSystem.success true t0905))
    true FeedbackSystem.error false (t0905 + 1999)
  = (FeedbackSystem.mkFeedback true t0905 2000, []).
Proof.
  split; [reflexivity|].
  apply (feedback_global_cooldown (FeedbackSystem.instance true) true true true false
           FeedbackSystem.success FeedbackSystem.error t0905 (t0905 + 1999)
           eq_refl eq_refl eq_refl eq_refl).
Defined.

(** The first call of that pair does reach the channels. *)
Lemma feedback_first_call_dispatches :
  snd (FeedbackSystem.provideFeedback (FeedbackSystem.instance true) true
         FeedbackSystem.success true t0905)
  = [PlayTeakSound; Vibrate [100; 50; 100]; ShowVisualConfirmation].
Proof. reflexivity. Qed.

(** ** The scan cooldown *)

(** The gate of the first scanner, on the cache its handler reads. *)
Lemma scan_gate_suppresses (seen : Scanner.Render) (env : Scanner.Env) (s : Store)
  (qrCode : string) (t1 : Z) :
  Scanner.mounted env = true ->
  Scanner.scanCache seen !! qrCode = Some t1 ->
  t1 <> 0 ->
  Scanner.t_scan (Scanner.clock env) - t1 < Scanner.SCAN_COOLDOWN ->
  Scanner.handleScanResult seen env s qrCode
  = (s, [SetScannerStatus "processing"; SetScannerStatus "ready"]).
Proof.
  intros Hm Hc Hnz Hin. unfold Scanner.handleScanResult, Scanner.recentlyScanned.
  rewrite Hm, Hc. cbn [negb Js.truthy Js.getTime].
  destruct (Z.eqb_spec t1 0); [contradiction|].
  destruct (Z.ltb_spec (Scanner.t_scan (Scanner.clock env) - t1) Scanner.SCAN_COOLDOWN);
    [reflexivity|lia].
Qed.

Lemma scan_gate_accepts (seen : Scanner.Render) (env : Scanner.Env) (s : Store)
  (qrCode : string) :
  Scanner.mounted env = true ->
  Scanner.recentlyScanned seen qrCode (Scanner.t_scan (Scanner.clock env)) = false ->
  exists rest,
    snd (Scanner.handleScanResult seen env s qrCode)
    = [SetScannerStatus "processing";
       SetScanCache qrCode (Scanner.t_scan (Scanner.clock env))]
      ++ Scanner.provideFeedback env "success" ++ rest.
Proof.
  intros Hm Hrecent. unfold Scanner.handleScanResult.
  rewrite Hm, Hrecent. cbn [negb].
  destruct (Scanner.isOnline seen); cbn [negb].
  - destruct (Scanner.findEmployee s _ qrCode) as [employee|m].
    + destruct (Scanner.canProceed _); cbn [negb].
      * destruct (Scanner.processAttendance s env employee _) as [[s' effs] [m|]];
          cbn [snd]; rewrite <- ?app_assoc; cbn [app]; eexists; reflexivity.
      * cbn [snd]. rewrite <- ?app_assoc. cbn [app]. eexists; reflexivity.
    + cbn [snd]. rewrite <- ?app_assoc. cbn [app]. eexists; reflexivity.
  - cbn [snd]. rewrite <- ?app_assoc. cbn [app]. eexists; reflexivity.
Qed.

(** The handler installed at mount reads the empty cache of the first
    render: its gate never closes. *)
Lemma mount_gate_open (online : bool) (qrCode : string) (now : Z) :
  Scanner.recentlyScanned (Scanner.initialRender online) qrCode now = false.
Proof. reflexivity. Qed.

(** Once callbacks are installed they are never replaced: retrying is
    possible only while [error] is set, and then [initializeScanner] stops
    at its first check, the video element being gone. *)
Lemma step_installed (c : Scanner.Component) (ev : Scanner.Event) (seen : Scanner.Render) :
  Scanner.installed c = Some seen ->
  Scanner.installed (fst (Scanner.step c ev)) = Some seen.
Proof.
  intros Hseen.
  destruct ev as [qrCode env|env d lightLevel|env d|r env camera]; cbn [Scanner.step].
  - rewrite Hseen. destruct (Scanner.handleScanResult _ env _ qrCode). reflexivity.
  - rewrite Hseen. reflexivity.
  - exact Hseen.
  - destruct (Scanner.videoRendered (Scanner.current c)) eqn:Hvideo; [exact Hseen|].
    unfold Scanner.initializeScanner. rewrite Hvideo.
    destruct (Scanner.mounted env); exact Hseen.
Qed.

Lemma run_installed (evs : list Scanner.Event) :
  forall (c : Scanner.Component) (seen : Scanner.Render),
  Scanner.installed c = Some seen ->
  Scanner.installed (fst (Scanner.run c evs)) = Some seen.
Proof.
  induction evs as [|ev rest IH]; intros c seen Hseen; [exact Hseen|].
  cbn [Scanner.run].
  pose proof (step_installed c ev seen Hseen) as Hstep.
  destruct (Scanner.step c ev) as [c' effs]. cbn [fst] in Hstep.
  specialize (IH c' seen Hstep).
  destruct (Scanner.run c' rest) as [c'' log]. exact IH.
Qed.

(** The mount effect, when the camera starts, yields the started
    component, with the callbacks of the first render installed. *)
Lemma mount_started (online : bool) (s : Store) (env : Scanner.Env) :
  Scanner.mounted env = true ->
  fst (Scanner.mountComponent online s env Scanner.CameraStarts)
  = Scanner.started online s.
Proof.
  intros Hm. unfold Scanner.mountComponent, Scanner.initializeScanner.
  rewrite Hm. reflexivity.
Qed.

(** The gate of the second scanner, whose cache is a ref: a code (other
    than the name [__proto__]) marked at [t1] is suppressed until
    [t1 + 2000]; a code that is absent, or was marked 2000 ms ago or more, is
    marked with the current time. *)
Lemma alt_scan_gate (st : ScannerAlt.State) (env : ScannerAlt.Env) (qrData : string) :
  qrData <> "__proto__" ->
  (forall t1,
     ScannerAlt.lastScanRef st !! qrData = Some t1 ->
     t1 <> 0 ->
     ScannerAlt.t_seen (ScannerAlt.clock env) - t1 < 2000 ->
     ScannerAlt.handleScan st env qrData = (st, [])) /\
  ((ScannerAlt.lastScanRef st !! qrData = None \/
    exists t1, ScannerAlt.lastScanRef st !! qrData = Some t1 /\
               2000 <= ScannerAlt.t_seen (ScannerAlt.clock env) - t1) ->
   ScannerAlt.lastScanRef (fst (ScannerAlt.handleScan st env qrData)) !! qrData
   = Some (ScannerAlt.t_mark (ScannerAlt.clock env))).
Proof.
  intros Hname. apply String.eqb_neq in Hname. split.
  - intros t1 Hc Hnz Hin. unfold ScannerAlt.handleScan, ScannerAlt.isRecentlySeen.
    rewrite Hname, Hc. cbn [Js.truthy Js.getTime].
    destruct (Z.eqb_spec t1 0); [contradiction|].
    change ScannerAlt.SCAN with 2000.
    destruct (Z.ltb_spec (ScannerAlt.t_seen (ScannerAlt.clock env) - t1) 2000);
      [reflexivity|lia].
  - intros Hopen.
    assert (Hgate : ScannerAlt.isRecentlySeen (ScannerAlt.lastScanRef st) qrData
                      (ScannerAlt.t_seen (ScannerAlt.clock env)) = false).
    { unfold ScannerAlt.isRecentlySeen. rewrite Hname.
      destruct Hopen as [Hnone | (t1 & Hsome & Hold)].
      - rewrite Hnone. reflexivity.
      - rewrite Hsome. cbn [Js.truthy Js.getTime]. change ScannerAlt.SCAN with 2000.
        destruct (Z.ltb_spec (ScannerAlt.t_seen (ScannerAlt.clock env) - t1) 2000);
          [lia|]. apply andb_false_r. }
    unfold ScannerAlt.handleScan, ScannerAlt.markScan. rewrite Hgate, Hname.
    destruct (ScannerAlt.validateQRCode _ _ qrData) as [employee|m].
    + destruct (ScannerAlt.processAttendance _ env employee) as [[s' effs] [m|]];
        cbn [fst ScannerAlt.lastScanRef]; apply lookup_insert_eq.
    + cbn [fst ScannerAlt.lastScanRef]. apply lookup_insert_eq.
Qed.

(** C2, on the code.  In the running first scanner the code of an employee
    without a record is decoded at 09:05:00.000 and again 500 ms later.  The
    first scan is recorded in the scan cache, yet the second one is
    processed too: it looks the employee up and writes the first check-out. *)
Theorem scan_cache_not_consulted :
  let c0 := Scanner.started true (storeWith None) in
  let first := Scanner.step c0 (Scanner.Scan "QR-ALICE" (envAt t0905)) in
  let second := Scanner.step (fst first) (Scanner.Scan "QR-ALICE" (envAt (t0905 + 500))) in
  Scanner.scanCache (Scanner.current (fst first)) !! "QR-ALICE" = Some t0905 /\
  snd second
  = [SetScannerStatus "processing"; SetScanCache "QR-ALICE" (t0905 + 500);
     Vibrate [100; 50; 100]; SelectEmployee "QR-ALICE";
     SelectAttendance "e-1" day; SelectAttendance "e-1" day;
     UpdateAttendance "r-1" (mkUpdate (Some (t0905 + 590)) None None None);
     AnnounceAttendance "Alice Perera" "first_check_out" (t0905 + 590);
     NotifyAttendance "Alice Perera" "First Check Out";
     NotifyAttendanceEvent "Alice Perera" "first_check_out" None;
     SwalFire "success" "Attendance Recorded" "First Check Out";
     SetMetricsScan 149; SetScannerStatus "ready"] /\
  attendance_records (Scanner.store (fst second)) !! ("e-1", day)
  = Some (mkAttendance "r-1" "e-1" day (Some (t0905 + 90)) (Some (t0905 + 590))
            None None 0 true 5).
Proof. vm_compute. repeat split. Qed.

(** The same two decodes in the second scanner: the second is dropped. *)
Lemma alt_scan_cache_consulted :
  let first := ScannerAlt.handleScan (altState None) (altEnv t0905) "QR-ALICE" in
  ScannerAlt.handleScan (fst first) (altEnv (t0905 + 500)) "QR-ALICE" = (fst first, []).
Proof. vm_compute. reflexivity. Qed.

(** ** Feedback order within a scan *)

(** An unknown or inactive code, scanned online past the gate: the cache
    write and the success pattern come first, then the lookup, then the
    error pattern. *)
Lemma unknown_code_feedback (seen : Scanner.Render) (env : Scanner.Env) (s : Store)
  (qrCode message : string) :
  Scanner.mounted env = true ->
  Scanner.recentlyScanned seen qrCode (Scanner.t_scan (Scanner.clock env)) = false ->
  Scanner.isOnline seen = true ->
  Scanner.findEmployee s (Scanner.n_employee (Scanner.net env)) qrCode
  = Scanner.Thrown message ->
  Scanner.handleScanResult seen env s qrCode
  = (s, [SetScannerStatus "processing";
         SetScanCache qrCode (Scanner.t_scan (Scanner.clock env))]
        ++ Scanner.provideFeedback env "success"
        ++ [SelectEmployee qrCode]
        ++ Scanner.provideFeedback env "error"
        ++ Scanner.handleProcessingError message
        ++ [SetScannerStatus "ready"]).
Proof.
  intros Hm Hrecent Honline Hfind. unfold Scanner.handleScanResult.
  rewrite Hm, Hrecent, Honline, Hfind. cbn [negb].
  rewrite <- !app_assoc. reflexivity.
Qed.

(** C10, on the code.  In the running first scanner an unknown code is
    decoded at 09:05:00.000 and again 500 ms later.  Each scan vibrates the
    success pattern before the employee lookup and the error pattern after
    it; the first scan is recorded in the scan cache, and the second one is
    not suppressed. *)
Theorem unknown_code_rescanned :
  let c0 := Scanner.started true (storeWith None) in
  let first := Scanner.step c0 (Scanner.Scan "QR-NOBODY" (envAt t0905)) in
  let second :=
    Scanner.step (fst first) (Scanner.Scan "QR-NOBODY" (envAt (t0905 + 500))) in
  snd first
  = [SetScannerStatus "processing"; SetScanCache "QR-NOBODY" t0905;
     Vibrate [100; 50; 100]; SelectEmployee "QR-NOBODY"; Vibrate [200; 100; 200];
     SetError "Invalid QR code or employee not found";
     AnnounceError "Invalid QR code or employee not found";
     SetScannerStatus "ready"] /\
  Scanner.scanCache (Scanner.current (fst first)) !! "QR-NOBODY" = Some t0905 /\
  snd second
  = [SetScannerStatus "processing"; SetScanCache "QR-NOBODY" (t0905 + 500);
     Vibrate [100; 50; 100]; SelectEmployee "QR-NOBODY"; Vibrate [200; 100; 200];
     SetError "Invalid QR code or employee not found";
     AnnounceError "Invalid QR code or employee not found";
     SetScannerStatus "ready"].
Proof. vm_compute. repeat split. Qed.

(** ** The light sampler *)

(** The guard of the sampler, on the flags its callback reads: with
    [flashEnabled] read as true, or [scanning] read as false, it does not
    call [enableFlash]. *)
Lemma lightSample_guard (seen : Scanner.Render) (env : Scanner.Env) (d : Scanner.Device)
  (lightLevel : Q) :
  Scanner.flashEnabled seen = true \/ Scanner.scanning seen = false ->
  filter (fun e => Scanner.flashOn e = true) (Scanner.lightSample seen env d lightLevel)
  = [].
Proof.
  intros Hflag. unfold Scanner.lightSample.
  destruct (Scanner.mounted env); [|reflexivity].
  destruct (Scanner.videoPresent d); [|reflexivity].
  destruct Hflag as [Hon | Hidle].
  - rewrite Hon. destruct (Scanner.scanning seen); [|reflexivity].
    rewrite andb_false_r. reflexivity.
  - rewrite Hidle. reflexivity.
Qed.

Lemma lightSample_idle (seen : Scanner.Render) (env : Scanner.Env) (d : Scanner.Device)
  (lightLevel : Q) :
  Scanner.scanning seen = false ->
  Scanner.lightSample seen env d lightLevel = [].
Proof.
  intros Hidle. unfold Scanner.lightSample. rewrite Hidle.
  destruct (Scanner.mounted env), (Scanner.videoPresent d); reflexivity.
Qed.

(** The interval callback of a component whose closure has [scanning]
    false stays silent throughout a run. *)
Lemma run_samples_idle (evs : list Scanner.Event) :
  forall c seen,
  Scanner.installed c = Some seen ->
  Scanner.scanning seen = false ->
  forall st env d lightLevel effs,
    In (st, Scanner.Sample env d lightLevel, effs) (snd (Scanner.run c evs)) ->
    effs = [].
Proof.
  induction evs as [|ev rest IH]; intros c seen Hseen Hidle st env d lightLevel effs Hin.
  - destruct Hin.
  - cbn [Scanner.run] in Hin.
    pose proof (step_installed c ev seen Hseen) as Hkept.
    destruct (Scanner.step c ev) as [c' effs'] eqn:Hstep.
    cbn [fst] in Hkept.
    destruct (Scanner.run c' rest) as [c'' log] eqn:Hrun.
    cbn [snd] in Hin. destruct Hin as [Hhead | Htail].
    + injection Hhead as _ Hev Heffs. subst ev effs'.
      cbn [Scanner.step] in Hstep. rewrite Hseen in Hstep.
      injection Hstep as _ Heffs.
      rewrite <- Heffs. apply lightSample_idle. exact Hidle.
    + apply (IH c' seen Hkept Hidle st env d lightLevel effs).
      rewrite Hrun. exact Htail.
Qed.

Lemma sampleFlashActions_idle
  (log : list (Scanner.Render * Scanner.Event * list Effect)) :
  (forall st env d lightLevel effs,
     In (st, Scanner.Sample env d lightLevel, effs) log -> effs = []) ->
  sampleFlashActions log = [].
Proof.
  induction log as [|[[st ev] effs] rest IH]; intros Hidle; [reflexivity|].
  cbn [sampleFlashActions flat_map].
  fold (sampleFlashActions rest). rewrite IH.
  - destruct ev as [qrCode env|env d lightLevel|env d|r env camera]; try reflexivity.
    rewrite (Hidle st env d lightLevel effs) by (left; reflexivity). reflexivity.
  - intros st' env d lightLevel effs' Hin.
    apply (Hidle st' env d lightLevel). right. exact Hin.
Qed.

(** C9.  Along every run of the started component (scans, 2-second light
    samples at any level, presses of the flash button, retries), a sample
    taken while the flash is enabled issues no flash-enable action, and the
    flash-enable actions issued by samples are no more than the off-to-on
    changes those samples caused. *)
Theorem lighting_enable_idempotent (online : bool) (s : Store)
  (evs : list Scanner.Event) :
  let log := snd (Scanner.run (Scanner.started online s) evs) in
  (forall st env d lightLevel effs,
     In (st, Scanner.Sample env d lightLevel, effs) log ->
     Scanner.flashEnabled st = true ->
     filter (fun e => Scanner.flashOn e = true) effs = []) /\
  (length (sampleFlashActions log) <= length (sampleFlashChanges log))%nat.
Proof.
  intros log.
  assert (Hidle : forall st env d lightLevel effs,
             In (st, Scanner.Sample env d lightLevel, effs) log -> effs = []).
  { intros st env d lightLevel effs Hin.
    apply (run_samples_idle evs (Scanner.started online s)
             (Scanner.initialRender online) eq_refl eq_refl
             st env d lightLevel effs Hin). }
  split.
  - intros st env d lightLevel effs Hin _.
    rewrite (Hidle st env d lightLevel effs Hin). reflexivity.
  - rewrite (sampleFlashActions_idle log Hidle). cbn. lia.
Qed.

Lemma lighting_enable_idempotent_witness :
  In (Scanner.mkRender true ∅ true true "",
      Scanner.Sample (envAt (t0905 + 2000)) torch 3%Q,
      [])
     (snd (Scanner.run (Scanner.started true (storeWith None)) darkRun)) /\
  filter (fun e => Scanner.flashOn e = true) ([] : list Effect) = [].
Proof.
  assert (Hin : In (Scanner.mkRender true ∅ true true "",
                    Scanner.Sample (envAt (t0905 + 2000)) torch 3%Q,
                    [])
                   (snd (Scanner.run (Scanner.started true (storeWith None)) darkRun)))
    by (right; left; reflexivity).
  split; [exact Hin|].
  destruct (lighting_enable_idempotent true (storeWith None) darkRun) as [H _].
  exact (H _ _ _ _ _ Hin eq_refl).
Defined.

(** The button press of that run is what turned the flash on. *)
Lemma darkRun_button_enables :
  snd (Scanner.step (Scanner.started true (storeWith None))
         (Scanner.FlashButton (envAt t0905) torch))
  = [TurnFlashOn; SetFlashEnabled true; Vibrate [100; 50; 100]].
Proof. reflexivity. Qed.

(** ** Every decode of the running first scanner passes its gate *)

Lemma run_scans_pass (evs : list Scanner.Event) :
  forall c seen,
  Scanner.installed c = Some seen ->
  Scanner.scanCache seen = ∅ ->
  forall st qrCode env effs,
    In (st, Scanner.Scan qrCode env, effs) (snd (Scanner.run c evs)) ->
    Scanner.mounted env = true ->
    exists rest,
      effs = [SetScannerStatus "processing";
              SetScanCache qrCode (Scanner.t_scan (Scanner.clock env))]
             ++ Scanner.provideFeedback env "success" ++ rest.
Proof.
  induction evs as [|ev rest IH]; intros c seen Hseen Hempty st qrCode env effs Hin Hm.
  - destruct Hin.
  - cbn [Scanner.run] in Hin.
    pose proof (step_installed c ev seen Hseen) as Hkept.
    destruct (Scanner.step c ev) as [c' effs'] eqn:Hstep.
    cbn [fst] in Hkept.
    destruct (Scanner.run c' rest) as [c'' log] eqn:Hrun.
    cbn [snd] in Hin. destruct Hin as [Hhead | Htail].
    + injection Hhead as _ Hev Heffs. subst ev effs'.
      cbn [Scanner.step] in Hstep. rewrite Hseen in Hstep.
      pose proof (scan_gate_accepts seen env (Scanner.store c) qrCode Hm) as Hgate.
      destruct (Scanner.handleScanResult seen env (Scanner.store c) qrCode)
        as [s' es] eqn:Hscan.
      injection Hstep as _ Heffs. subst es. cbn [snd] in Hgate.
      apply Hgate. unfold Scanner.recentlyScanned. rewrite Hempty. reflexivity.
    + apply (IH c' seen Hkept Hempty st qrCode env effs); [|exact Hm].
      rewrite Hrun. exact Htail.
Qed.

(** Whatever was scanned before, and however recently, a decode handled by
    the started component writes the cache and proceeds to the success
    feedback: the scan cooldown never suppresses it. *)
Lemma started_scans_never_suppressed (online : bool) (s : Store)
  (evs : list Scanner.Event) (st : Scanner.Render) (qrCode : string)
  (env : Scanner.Env) (effs : list Effect) :
  In (st, Scanner.Scan qrCode env, effs)
     (snd (Scanner.run (Scanner.started online s) evs)) ->
  Scanner.mounted env = true ->
  exists rest,
    effs = [SetScannerStatus "processing";
            SetScanCache qrCode (Scanner.t_scan (Scanner.clock env))]
           ++ Scanner.provideFeedback env "success" ++ rest.
Proof. apply (run_scans_pass evs _ (Scanner.initialRender online)); reflexivity. Qed.

(** ** The scanners keep every row sequenced *)

Lemma setAttendance_recorded (s : Store) (key : string * string) (r : Attendance) :
  tableRecorded s -> recorded r -> tableRecorded (Scanner.setAttendance s key r).
Proof.
  intros Hs Hr key' a. unfold Scanner.setAttendance. cbn [attendance_records].
  destruct (decide (key = key')) as [->|Hne].
  - rewrite lookup_insert_eq. intros [= <-]. exact Hr.
  - rewrite lookup_insert_ne by exact Hne. apply Hs.
Qed.

Lemma recorded_first_out (a : Attendance) (now : Z) :
  recorded a -> recorded (applyUpdate (mkUpdate (Some now) None None None) a).
Proof.
  intros (Hfi & H1 & H2 & H3). unfold recorded, sequenced. cbn.
  repeat split; auto.
Qed.

Lemma recorded_first_out_hours (a : Attendance) (now h : Z) :
  recorded a -> recorded (applyUpdate (mkUpdate (Some now) None None (Some h)) a).
Proof.
  intros (Hfi & H1 & H2 & H3). unfold recorded, sequenced. cbn.
  repeat split; auto.
Qed.

Lemma recorded_second_in (a : Attendance) (now : Z) :
  recorded a -> Js.present (first_check_out a) = true ->
  recorded (applyUpdate (mkUpdate None (Some now) None None) a).
Proof.
  intros (Hfi & H1 & H2 & H3) Hfo. unfold recorded, sequenced. cbn.
  destruct (first_check_out a); [|discriminate]. repeat split; auto.
Qed.

Lemma recorded_second_out (a : Attendance) (now h : Z) :
  recorded a -> Js.present (second_check_in a) = true ->
  recorded (applyUpdate (mkUpdate None None (Some now) (Some h)) a).
Proof.
  intros (Hfi & H1 & H2 & H3) Hsi. unfold recorded, sequenced. cbn.
  destruct (second_check_in a); [|discriminate].
  destruct (first_check_out a); repeat split; auto.
Qed.

(** What an accepting validation says about the row it read. *)
Lemma validate_accepts (s : Store) (f : Fault) (employee : Employee)
  (today : string) (now : Z) :
  let v := Scanner.validateAttendanceSequence s f employee today now in
  Scanner.canProceed v = true ->
  Scanner.nextAction v = "first_check_in" \/
  exists a,
    attendance_records s !! (e_id employee, today) = Some a /\
    (Scanner.nextAction v = "first_check_out" \/
     (Scanner.nextAction v = "second_check_in" /\ Js.present (first_check_out a) = true) \/
     (Scanner.nextAction v = "second_check_out" /\ Js.present (second_check_in a) = true)).
Proof.
  unfold Scanner.validateAttendanceSequence, Scanner.readAttendance.
  destruct f as [|code message|message]; cbn zeta.
  - destruct (attendance_records s !! (e_id employee, today)) as [a|] eqn:Hrow;
      [|left; reflexivity].
    intros Hcan. right. exists a. split; [reflexivity|].
    revert Hcan. unfold Scanner.validateRecord.
    destruct (Js.present (first_check_in a)), (Js.present (first_check_out a)),
      (Js.present (second_check_in a)), (Js.present (second_check_out a));
      cbn [andb negb]; try destruct (_ <? _); cbn; intros Hcan;
      try discriminate Hcan; auto.
  - destruct (negb (String.eqb code "PGRST116")); cbn; [discriminate|].
    left; reflexivity.
  - cbn. discriminate.
Qed.

Lemma updateFor_recorded (a : Attendance) (action : string) (now : Z) (u : UpdateData) :
  recorded a ->
  (action = "second_check_in" -> Js.present (first_check_out a) = true) ->
  (action = "second_check_out" -> Js.present (second_check_in a) = true) ->
  Scanner.updateFor a action now = Some u ->
  recorded (applyUpdate u a).
Proof.
  intros Ha Hsi Hso. unfold Scanner.updateFor.
  destruct (String.eqb_spec action "first_check_out");
    [intros [= <-]; apply recorded_first_out; exact Ha|].
  destruct (String.eqb_spec action "second_check_in");
    [intros [= <-]; apply recorded_second_in; auto|].
  destruct (String.eqb_spec action "second_check_out"); [|discriminate].
  intros [= <-]. apply recorded_second_out; auto.
Qed.

Lemma processAttendance_recorded (s : Store) (env : Scanner.Env) (employee : Employee)
  (action : string) :
  tableRecorded s ->
  (action = "first_check_in" \/
   exists a,
     attendance_records s !! (e_id employee, Scanner.today env) = Some a /\
     (action = "first_check_out" \/
      (action = "second_check_in" /\ Js.present (first_check_out a) = true) \/
      (action = "second_check_out" /\ Js.present (second_check_in a) = true))) ->
  tableRecorded (fst (fst (Scanner.processAttendance s env employee action))).
Proof.
  intros Hs Haction.
  assert (Hfresh : forall isLate lateDuration,
    recorded (mkAttendance (Scanner.fresh_id env) (e_id employee) (Scanner.today env)
                (Some (Scanner.t_process (Scanner.clock env))) None None None 0
                isLate lateDuration)).
  { intros. unfold recorded, sequenced. cbn. repeat split; auto; discriminate. }
  assert (Hrow : forall a,
    attendance_records s !! (e_id employee, Scanner.today env) = Some a ->
    (action = "second_check_in" -> Js.present (first_check_out a) = true) /\
    (action = "second_check_out" -> Js.present (second_check_in a) = true)).
  { intros a Ha.
    destruct Haction as [-> | (a' & Ha' & [-> | [[-> Hfo] | [-> Hsi]]])];
      try (split; discriminate);
      rewrite Ha in Ha'; injection Ha' as <-; split; auto; discriminate. }
  clear Haction.
  unfold Scanner.processAttendance, Scanner.readAttendance.
  destruct (Scanner.n_process (Scanner.net env)); cbn [fst]; [| |exact Hs];
    repeat match goal with
           | |- context [match ?x with _ => _ end] => destruct x eqn:?
           end;
    cbn [fst]; try exact Hs;
    (apply setAttendance_recorded; [exact Hs|]);
    try apply Hfresh.
  all: match goal with
       | Hlookup : attendance_records _ !! _ = Some ?a,
         Hupdate : Scanner.updateFor ?a _ _ = Some _ |- _ =>
         destruct (Hrow a eq_refl) as [Hsi Hso];
         apply (updateFor_recorded _ _ _ _ (Hs _ _ Hlookup) Hsi Hso Hupdate)
       end.
Qed.

(** Every scan of the first scanner keeps the table recorded. *)
Lemma handleScanResult_recorded (seen : Scanner.Render) (env : Scanner.Env) (s : Store)
  (qrCode : string) :
  tableRecorded s -> tableRecorded (fst (Scanner.handleScanResult seen env s qrCode)).
Proof.
  intros Hs. unfold Scanner.handleScanResult.
  destruct (Scanner.mounted env); [|exact Hs]. cbn [negb].
  destruct (Scanner.recentlyScanned seen qrCode _); [exact Hs|].
  destruct (Scanner.isOnline seen); cbn [negb]; [|exact Hs].
  destruct (Scanner.findEmployee s _ qrCode) as [employee|m]; [|exact Hs].
  pose proof (validate_accepts s (Scanner.n_validate (Scanner.net env)) employee
                (Scanner.today env) (Scanner.t_validate (Scanner.clock env))) as Hv.
  cbn zeta in Hv.
  destruct (Scanner.canProceed _); cbn [negb]; [|exact Hs].
  pose proof (processAttendance_recorded s env employee _ Hs (Hv eq_refl)) as Hp.
  destruct (Scanner.processAttendance s env employee _) as [[s' effs] [m|]];
    exact Hp.
Qed.

Lemma alt_nextUpdate_recorded (a : Attendance) (now : Z) (u : UpdateData) :
  recorded a -> ScannerAlt.nextUpdate a now = Scanner.Done u ->
  recorded (applyUpdate u a).
Proof.
  intros Ha. unfold ScannerAlt.nextUpdate.
  destruct (Js.present (first_check_out a)) eqn:Hfo; cbn [negb].
  - destruct (Js.present (second_check_in a)) eqn:Hsi; cbn [negb].
    + destruct (Js.present (second_check_out a)); cbn [negb]; [discriminate|].
      intros [= <-]. apply recorded_second_out; assumption.
    + intros [= <-]. apply recorded_second_in; assumption.
  - destruct (_ <? _); [discriminate|].
    intros [= <-]. apply recorded_first_out_hours; assumption.
Qed.

(** Every scan of the second scanner keeps the table recorded. *)
Lemma alt_processAttendance_recorded (s : Store) (env : ScannerAlt.Env)
  (employee : Employee) :
  tableRecorded s ->
  tableRecorded (fst (fst (ScannerAlt.processAttendance s env employee))).
Proof.
  intros Hs.
  assert (Hfresh : forall late,
    recorded (mkAttendance (ScannerAlt.fresh_id env) (e_id employee)
                (ScannerAlt.today env) (Some (ScannerAlt.t_now (ScannerAlt.clock env)))
                None None None 0 late 0)).
  { intros. unfold recorded, sequenced. cbn. repeat split; auto; discriminate. }
  unfold ScannerAlt.processAttendance.
  repeat match goal with
         | |- context [match ?x with _ => _ end] => destruct x eqn:?
         end;
    cbn [fst]; try exact Hs;
    (apply setAttendance_recorded; [exact Hs|]);
    try apply Hfresh.
  all: match goal with
       | Hrow : attendance_records _ !! _ = Some ?a,
         Hnext : ScannerAlt.nextUpdate ?a _ = Scanner.Done _ |- _ =>
         apply (alt_nextUpdate_recorded _ _ _ (Hs _ _ Hrow) Hnext)
       end.
Qed.

Lemma alt_handleScan_recorded (st : ScannerAlt.State) (env : ScannerAlt.Env)
  (qrData : string) :
  tableRecorded (ScannerAlt.store st) ->
  tableRecorded (ScannerAlt.store (fst (ScannerAlt.handleScan st env qrData))).
Proof.
  intros Hs. unfold ScannerAlt.handleScan.
  destruct (ScannerAlt.isRecentlySeen _ qrData _); [exact Hs|].
  destruct (ScannerAlt.validateQRCode _ _ qrData) as [employee|m]; [|exact Hs].
  pose proof (alt_processAttendance_recorded (ScannerAlt.store st) env employee Hs) as Hp.
  destruct (ScannerAlt.processAttendance _ env employee) as [[s' effs] [m|]];
    exact Hp.
Qed.

(** * Further properties of the code *)

(** ** The performance monitor *)

Lemma sliceLast_short {A : Type} (n : nat) (l : list A) :
  (length l <= n)%nat -> ScannerPerformance.sliceLast n l = l.
Proof.
  intros Hlen. unfold ScannerPerformance.sliceLast.
  replace (length l - n)%nat with 0%nat by lia. reflexivity.
Qed.

Lemma sliceLast_length {A : Type} (n : nat) (l : list A) :
  length (ScannerPerformance.sliceLast n l) = Nat.min n (length l).
Proof. unfold ScannerPerformance.sliceLast. rewrite length_drop. lia. Qed.

(** Trimming before a push does not change what a later trim keeps. *)
Lemma sliceLast_push {A : Type} (n : nat) (l k : list A) :
  ScannerPerformance.sliceLast n (ScannerPerformance.sliceLast n l ++ k)
  = ScannerPerformance.sliceLast n (l ++ k).
Proof.
  unfold ScannerPerformance.sliceLast.
  rewrite !length_app, length_drop.
  destruct (Nat.le_gt_cases (length l) n) as [Hle | Hgt].
  - replace (length l - n)%nat with 0%nat by lia. rewrite drop_0.
    f_equal. lia.
  - rewrite !drop_app, drop_drop, length_drop.
    f_equal; f_equal; lia.
Qed.

Lemma addToHistory_sliceLast (now : Z) (event : string)
  (data : ScannerPerformance.EventData) (history : list ScannerPerformance.HistoryEntry) :
  ScannerPerformance.addToHistory now event data history
  = ScannerPerformance.sliceLast 100
      (history ++ [ScannerPerformance.mkEntry now event data]).
Proof.
  unfold ScannerPerformance.addToHistory. cbn zeta.
  destruct (Z.ltb_spec 100 (Z.of_nat (length (history
              ++ [ScannerPerformance.mkEntry now event data])))) as [Hlong | Hshort];
    [reflexivity|].
  symmetry. apply sliceLast_short. apply Nat2Z.inj_le. exact Hshort.
Qed.

Lemma call_history (m : ScannerPerformance.t) (c : ScannerPerformance.Call) :
  ScannerPerformance.performanceHistory (ScannerPerformance.call m c)
  = ScannerPerformance.sliceLast 100
      (ScannerPerformance.performanceHistory m ++ ScannerPerformance.entryOf c)
  \/ (ScannerPerformance.entryOf c = [] /\
      ScannerPerformance.performanceHistory (ScannerPerformance.call m c)
      = ScannerPerformance.performanceHistory m).
Proof.
  destruct c; cbn; try (left; apply addToHistory_sliceLast).
  right. split; reflexivity.
Qed.

Lemma calls_history (cs : list ScannerPerformance.Call) :
  forall (m : ScannerPerformance.t) (all : list ScannerPerformance.HistoryEntry),
  ScannerPerformance.performanceHistory m = ScannerPerformance.sliceLast 100 all ->
  ScannerPerformance.performanceHistory (ScannerPerformance.calls m cs)
  = ScannerPerformance.sliceLast 100 (all ++ flat_map ScannerPerformance.entryOf cs).
Proof.
  induction cs as [|c rest IH]; intros m all Hm.
  - cbn. rewrite app_nil_r. exact Hm.
  - change (ScannerPerformance.calls m (c :: rest))
      with (ScannerPerformance.calls (ScannerPerformance.call m c) rest).
    cbn [flat_map]. rewrite app_assoc. apply IH.
    destruct (call_history m c) as [Hpush | [Hnone Hsame]].
    + rewrite Hpush, Hm. apply sliceLast_push.
    + rewrite Hsame, Hnone, app_nil_r. exact Hm.
Qed.

(** X1.  Whatever calls are made on a monitor that starts from [reset], its
    history is exactly the last 100 of the events recorded, oldest first,
    and so never holds more than 100 entries. *)
Theorem performance_history_last_100 (cs : list ScannerPerformance.Call) :
  let m := ScannerPerformance.calls ScannerPerformance.reset cs in
  ScannerPerformance.performanceHistory m
  = ScannerPerformance.sliceLast 100 (flat_map ScannerPerformance.entryOf cs) /\
  (length (ScannerPerformance.performanceHistory m) <= 100)%nat.
Proof.
  intros m.
  assert (Hh : ScannerPerformance.performanceHistory m
               = ScannerPerformance.sliceLast 100
                   (flat_map ScannerPerformance.entryOf cs)).
  { apply (calls_history cs ScannerPerformance.reset []). reflexivity. }
  split; [exact Hh|]. rewrite Hh, sliceLast_length. lia.
Qed.

(** ** Sequences of feedback calls *)

(** X3.  Over any sequence of [provideFeedback] calls, of any kinds and at
    any clock readings, the calls that pass the gate are spaced by at least
    [feedbackCooldown]: each dispatch comes at least that long after the
    previous one, the first after [lastFeedbackTime]. *)
Theorem feedback_dispatches_spaced (calls : list FeedbackSystem.Call) :
  forall fs : FeedbackSystem.t,
  spacedFrom (FeedbackSystem.lastFeedbackTime fs) (FeedbackSystem.feedbackCooldown fs)
    (dispatchTimes fs calls).
Proof.
  induction calls as [|c rest IH]; intros fs; [exact I|].
  cbn [dispatchTimes].
  destruct (FeedbackSystem.dispatches fs (FeedbackSystem.c_now c)) eqn:Hd.
  - pose proof (provideFeedback_dispatched fs (FeedbackSystem.c_vibrate c)
                  (FeedbackSystem.c_type c) (FeedbackSystem.c_element c)
                  (FeedbackSystem.c_now c) Hd) as Hfs.
    cbn [spacedFrom]. split.
    + unfold FeedbackSystem.dispatches, FeedbackSystem.isDuplicateFeedback in Hd.
      apply negb_true_iff in Hd. apply Z.ltb_ge in Hd. exact Hd.
    + specialize (IH (fst (FeedbackSystem.provideFeedback fs (FeedbackSystem.c_vibrate c)
                             (FeedbackSystem.c_type c) (FeedbackSystem.c_element c)
                             (FeedbackSystem.c_now c)))).
      rewrite Hfs in IH |- *. exact IH.
  - assert (Hsame : fst (FeedbackSystem.provideFeedback fs (FeedbackSystem.c_vibrate c)
                           (FeedbackSystem.c_type c) (FeedbackSystem.c_element c)
                           (FeedbackSystem.c_now c)) = fs).
    { unfold FeedbackSystem.dispatches, FeedbackSystem.isDuplicateFeedback in Hd.
      apply negb_false_iff in Hd. unfold FeedbackSystem.provideFeedback.
      rewrite Hd. reflexivity. }
    rewrite Hsame. apply IH.
Qed.

Lemma provideFeedback_no_audio (fs : FeedbackSystem.t) (canVibrate : bool)
  (type : FeedbackSystem.FeedbackType) (element : bool) (now : Z) :
  FeedbackSystem.audioContext fs = false ->
  FeedbackSystem.audioContext
    (fst (FeedbackSystem.provideFeedback fs canVibrate type element now)) = false /\
  ~ In PlayTeakSound (snd (FeedbackSystem.provideFeedback fs canVibrate type element now)).
Proof.
  intros Hnone. unfold FeedbackSystem.provideFeedback, FeedbackSystem.playTeakSound,
    FeedbackSystem.triggerHapticFeedback, FeedbackSystem.showVisualConfirmation.
  rewrite Hnone.
  destruct (_ <? _); [split; [cbn; assumption|intros []]|].
  destruct type, canVibrate, element; cbn; (split; [reflexivity|intuition discriminate]).
Qed.

Lemma provideAll_no_audio (calls : list FeedbackSystem.Call) :
  forall fs : FeedbackSystem.t,
  FeedbackSystem.audioContext fs = false ->
  Forall (fun effs => ~ In PlayTeakSound effs) (snd (FeedbackSystem.provideAll fs calls)).
Proof.
  induction calls as [|c rest IH]; intros fs Hnone; [constructor|].
  cbn [FeedbackSystem.provideAll].
  destruct (provideFeedback_no_audio fs (FeedbackSystem.c_vibrate c)
              (FeedbackSystem.c_type c) (FeedbackSystem.c_element c)
              (FeedbackSystem.c_now c) Hnone) as [Hkept Hsilent].
  destruct (FeedbackSystem.provideFeedback fs _ _ _ _) as [fs' effs].
  cbn [fst snd] in Hkept, Hsilent.
  specialize (IH fs' Hkept).
  destruct (FeedbackSystem.provideAll fs' rest) as [fs'' log].
  cbn [snd] in IH |- *. constructor; assumption.
Qed.

(** X4.  Once [cleanup] has run, the singleton never plays the audible cue
    again: [cleanup] closes and drops the audio context, and no later
    [provideFeedback] call, of any kind, re-creates it. *)
Theorem feedback_silent_after_cleanup (fs : FeedbackSystem.t)
  (calls : list FeedbackSystem.Call) :
  Forall (fun effs => ~ In PlayTeakSound effs)
    (snd (FeedbackSystem.provideAll (FeedbackSystem.cleanup fs) calls)).
Proof. apply provideAll_no_audio. reflexivity. Qed.

(** ** Lateness *)

(** X5.  [checkIfLate]: without a readable work start time nobody is late.
    With one, a check-in is late exactly when it is strictly after the
    instant of that local time on today's date, and [lateDuration] is the
    number of whole minutes elapsed since then, so a check-in less than a
    minute late is late by 0 minutes. *)
Theorem checkIfLate_whole_minutes (s : Store) (env : Scanner.Env) (checkInTime : Z) :
  ((Scanner.n_settings (Scanner.net env) <> NoFault \/ work_start_time s = None) ->
   Scanner.checkIfLate s env checkInTime = (false, 0)) /\
  (forall hours minutes,
     Scanner.n_settings (Scanner.net env) = NoFault ->
     work_start_time s = Some (hours, minutes) ->
     let workStart := Scanner.wallClock env hours minutes in
     let isLate := fst (Scanner.checkIfLate s env checkInTime) in
     let lateDuration := snd (Scanner.checkIfLate s env checkInTime) in
     (isLate = true <-> workStart < checkInTime) /\
     (isLate = true -> checkInTime - workStart < 2 ^ 53 ->
      60000 * lateDuration <= checkInTime - workStart < 60000 * (lateDuration + 1)) /\
     (isLate = false -> lateDuration = 0)).
Proof.
  split.
  - intros [Hfault | Hnone]; unfold Scanner.checkIfLate.
    + destruct (Scanner.n_settings (Scanner.net env)); [contradiction| |]; reflexivity.
    + rewrite Hnone. destruct (Scanner.n_settings (Scanner.net env)); reflexivity.
  - intros hours minutes Hnet Hstart workStart isLate lateDuration.
    unfold isLate, lateDuration, Scanner.checkIfLate. rewrite Hnet, Hstart.
    fold workStart.
    destruct (Z.ltb_spec workStart checkInTime) as [Hlate | Hearly]; cbn [fst snd].
    + split; [tauto|]. split; [|discriminate].
      intros _ _. change (1000 * 60) with 60000.
      pose proof (Z.mul_div_le (checkInTime - workStart) 60000 ltac:(lia)).
      pose proof (Z.mul_succ_div_gt (checkInTime - workStart) 60000 ltac:(lia)).
      lia.
    + split; [split; [discriminate|lia]|]. split; [discriminate|reflexivity].
Qed.

Lemma checkIfLate_whole_minutes_witness :
  let late := Scanner.checkIfLate (storeWith None) (envAt t0905) (t0905 + 90) in
  60000 * snd late <= (t0905 + 90) - utcDay 9 0 < 60000 * (snd late + 1).
Proof.
  destruct (checkIfLate_whole_minutes (storeWith None) (envAt t0905) (t0905 + 90))
    as [_ Hset].
  destruct (Hset 9 0 eq_refl eq_refl) as (_ & Hminutes & _).
  apply Hminutes; reflexivity.
Defined.

(** X6.  The two scanners agree on lateness when the work start time can be
    read and both take it as the same local time of the same day; when the
    setting is missing the first scanner never marks a check-in late, while
    the second compares it with 09:00 local time. *)
Theorem lateness_of_the_two_scanners (s : Store) (env : Scanner.Env)
  (envAlt : ScannerAlt.Env) (checkInTime : Z) :
  Scanner.n_settings (Scanner.net env) = NoFault ->
  ScannerAlt.n_settings (ScannerAlt.net envAlt) = NoFault ->
  (forall hours minutes,
     ScannerAlt.wallClock envAlt hours minutes = Scanner.wallClock env hours minutes) ->
  (is_Some (work_start_time s) ->
   ScannerAlt.isLate s envAlt checkInTime
   = Some (fst (Scanner.checkIfLate s env checkInTime))) /\
  (work_start_time s = None ->
   fst (Scanner.checkIfLate s env checkInTime) = false /\
   ScannerAlt.isLate s envAlt checkInTime
   = Some (ScannerAlt.wallClock envAlt 9 0 <? checkInTime)).
Proof.
  intros Hnet HnetAlt Hclock. unfold ScannerAlt.isLate, Scanner.checkIfLate.
  rewrite Hnet, HnetAlt. split.
  - intros [[hours minutes] Hstart]. rewrite Hstart, Hclock.
    destruct (_ <? _); reflexivity.
  - intros Hnone. rewrite Hnone. split; reflexivity.
Qed.

Lemma lateness_of_the_two_scanners_witness :
  let s := mkStore [alice] ∅ None in
  fst (Scanner.checkIfLate s (envAt t0905) (t0905 + 60)) = false /\
  ScannerAlt.isLate s (altEnv t0905) (t0905 + 60) = Some true.
Proof.
  destruct (lateness_of_the_two_scanners (mkStore [alice] ∅ None) (envAt t0905)
              (altEnv t0905) (t0905 + 60) eq_refl eq_refl) as [_ Hmissing].
  - reflexivity.
  - apply Hmissing. reflexivity.
Defined.

(** ** What a scan changes in the store *)

Lemma processAttendance_store (s : Store) (env : Scanner.Env) (employee : Employee)
  (action : string) :
  let key := (e_id employee, Scanner.today env) in
  let s' := fst (fst (Scanner.processAttendance s env employee action)) in
  s' = s \/
  (attendance_records s !! key = None /\ exists r, s' = Scanner.setAttendance s key r) \/
  (exists a u,
     attendance_records s !! key = Some a /\
     Scanner.updateFor a action (Scanner.t_process (Scanner.clock env)) = Some u /\
     s' = Scanner.setAttendance s key (applyUpdate u a)).
Proof.
  cbn zeta. unfold Scanner.processAttendance, Scanner.readAttendance.
  destruct (Scanner.n_process (Scanner.net env)); cbn [fst]; [| |left; reflexivity];
    repeat match goal with
           | |- context [match ?x with _ => _ end] => destruct x eqn:?
           end;
    cbn [fst]; try (left; reflexivity); right.
  all: try (left; split; [first [assumption|reflexivity]|eexists; reflexivity]).
  all: right; eexists _, _; repeat split; first [eassumption|reflexivity].
Qed.

Lemma alt_processAttendance_store (s : Store) (env : ScannerAlt.Env)
  (employee : Employee) :
  let key := (e_id employee, ScannerAlt.today env) in
  let s' := fst (fst (ScannerAlt.processAttendance s env employee)) in
  s' = s \/
  (attendance_records s !! key = None /\ exists r, s' = Scanner.setAttendance s key r) \/
  (exists a u,
     attendance_records s !! key = Some a /\
     ScannerAlt.nextUpdate a (ScannerAlt.t_now (ScannerAlt.clock env)) = Scanner.Done u /\
     s' = Scanner.setAttendance s key (applyUpdate u a)).
Proof.
  cbn zeta. unfold ScannerAlt.processAttendance.
  repeat match goal with
         | |- context [match ?x with _ => _ end] => destruct x eqn:?
         end;
    cbn [fst]; try (left; reflexivity); right.
  all: try (left; split; [first [assumption|reflexivity]|eexists; reflexivity]).
  all: right; eexists _, _; repeat split; first [eassumption|reflexivity].
Qed.

Lemma setAttendance_elsewhere (s : Store) (key key' : string * string) (r : Attendance) :
  attendance_records (Scanner.setAttendance s key r) !! key' <> attendance_records s !! key' ->
  key' = key.
Proof.
  intros Hchanged. destruct (decide (key = key')) as [->|Hne]; [reflexivity|].
  contradict Hchanged. unfold Scanner.setAttendance. cbn [attendance_records].
  apply lookup_insert_ne. exact Hne.
Qed.

(** X7.  A scan leaves the employees and the settings as they were, and the
    only attendance row it can change is the one of the scanned employee for
    the current day; when the code matches no employee no row changes.  This
    holds for both scanner components. *)
Theorem scan_changes_one_row :
  (forall (seen : Scanner.Render) (env : Scanner.Env) (s : Store) (qrCode : string),
     let s' := fst (Scanner.handleScanResult seen env s qrCode) in
     employees s' = employees s /\ work_start_time s' = work_start_time s /\
     forall key,
       attendance_records s' !! key <> attendance_records s !! key ->
       exists employee,
         Scanner.findEmployee s (Scanner.n_employee (Scanner.net env)) qrCode
         = Scanner.Done employee /\
         key = (e_id employee, Scanner.today env)) /\
  (forall (st : ScannerAlt.State) (env : ScannerAlt.Env) (qrData : string),
     let s := ScannerAlt.store st in
     let s' := ScannerAlt.store (fst (ScannerAlt.handleScan st env qrData)) in
     employees s' = employees s /\ work_start_time s' = work_start_time s /\
     forall key,
       attendance_records s' !! key <> attendance_records s !! key ->
       exists employee,
         ScannerAlt.validateQRCode s (ScannerAlt.n_employee (ScannerAlt.net env)) qrData
         = Scanner.Done employee /\
         key = (e_id employee, ScannerAlt.today env)).
Proof.
  split.
  - intros seen env s qrCode. cbn zeta. unfold Scanner.handleScanResult.
    destruct (Scanner.mounted env); cbn [negb fst]; [|tauto].
    destruct (Scanner.recentlyScanned seen qrCode _); cbn [fst]; [tauto|].
    destruct (Scanner.isOnline seen); cbn [negb fst]; [|tauto].
    destruct (Scanner.findEmployee s _ qrCode) as [employee|m]; cbn [fst]; [|tauto].
    destruct (negb (Scanner.canProceed _)); cbn [fst]; [tauto|].
    pose proof (processAttendance_store s env employee
                  (Scanner.nextAction
                     (Scanner.validateAttendanceSequence s
                        (Scanner.n_validate (Scanner.net env)) employee
                        (Scanner.today env) (Scanner.t_validate (Scanner.clock env)))))
      as Hstore.
    cbn zeta in Hstore.
    destruct (Scanner.processAttendance s env employee _) as [[s' effs] [m|]];
      cbn [fst] in *.
    all: destruct Hstore as [-> | [(_ & r & ->) | (a & u & _ & _ & ->)]]; [tauto| |].
    all: split; [reflexivity|split; [reflexivity|]].
    all: intros key Hkey; exists employee; split; [reflexivity|].
    all: exact (setAttendance_elsewhere _ _ _ _ Hkey).
  - intros st env qrData. cbn zeta. unfold ScannerAlt.handleScan.
    destruct (ScannerAlt.isRecentlySeen _ qrData _); cbn [fst]; [tauto|].
    destruct (ScannerAlt.validateQRCode _ _ qrData) as [employee|m];
      cbn [fst ScannerAlt.store]; [|tauto].
    pose proof (alt_processAttendance_store (ScannerAlt.store st) env employee) as Hstore.
    cbn zeta in Hstore.
    destruct (ScannerAlt.processAttendance _ env employee) as [[s' effs] [m|]];
      cbn [fst ScannerAlt.store] in *.
    all: destruct Hstore as [-> | [(_ & r & ->) | (a & u & _ & _ & ->)]]; [tauto| |].
    all: split; [reflexivity|split; [reflexivity|]].
    all: intros key Hkey; exists employee; split; [reflexivity|].
    all: exact (setAttendance_elsewhere _ _ _ _ Hkey).
Qed.

Lemma scan_changes_one_row_witness :
  let s := storeWith None in
  let s' := fst (Scanner.handleScanResult (Scanner.initialRender true) (envAt t0905) s
                   "QR-ALICE") in
  employees s' = employees s /\ work_start_time s' = work_start_time s /\
  forall key,
    attendance_records s' !! key <> attendance_records s !! key ->
    exists employee,
      Scanner.findEmployee s NoFault "QR-ALICE" = Scanner.Done employee /\
      key = (e_id employee, day).
Proof.
  apply (proj1 scan_changes_one_row (Scanner.initialRender true) (envAt t0905)
           (storeWith None) "QR-ALICE").
Defined.

(** ** The column an accepted scan writes *)

(** What an accepting validation says about the column it asks to write. *)
Lemma validate_accepts_unset (s : Store) (f : Fault) (employee : Employee)
  (today : string) (now : Z) (a : Attendance) :
  let v := Scanner.validateAttendanceSequence s f employee today now in
  Scanner.canProceed v = true ->
  attendance_records s !! (e_id employee, today) = Some a ->
  Scanner.nextAction v = "first_check_in" \/
  (Scanner.nextAction v = "first_check_out" /\ Js.present (first_check_out a) = false) \/
  (Scanner.nextAction v = "second_check_in" /\ Js.present (second_check_in a) = false) \/
  (Scanner.nextAction v = "second_check_out" /\ Js.present (second_check_out a) = false).
Proof.
  unfold Scanner.validateAttendanceSequence, Scanner.readAttendance.
  destruct f as [|code message|message]; cbn zeta.
  - intros Hcan Hrow. revert Hcan. rewrite Hrow. unfold Scanner.validateRecord.
    destruct (Js.present (first_check_in a)), (Js.present (first_check_out a)),
      (Js.present (second_check_in a)), (Js.present (second_check_out a));
      cbn [andb negb]; try destruct (_ <? _); cbn; intros Hcan;
      try discriminate Hcan; auto.
  - destruct (negb (String.eqb code "PGRST116")); cbn; [discriminate|].
    left; reflexivity.
  - cbn. discriminate.
Qed.

(** ** A whole day at the first scanner *)

(** The store after a scan that gets past the scan cooldown, online, for a
    known employee, the sequencer's read succeeding. *)
Lemma scan_store (seen : Scanner.Render) (env : Scanner.Env) (s : Store)
  (qrCode : string) (employee : Employee) :
  Scanner.mounted env = true ->
  Scanner.recentlyScanned seen qrCode (Scanner.t_scan (Scanner.clock env)) = false ->
  Scanner.isOnline seen = true ->
  Scanner.findEmployee s (Scanner.n_employee (Scanner.net env)) qrCode
  = Scanner.Done employee ->
  Scanner.n_validate (Scanner.net env) = NoFault ->
  fst (Scanner.handleScanResult seen env s qrCode)
  = let v := Scanner.validateRecord
               (attendance_records s !! (e_id employee, Scanner.today env))
               (Scanner.t_validate (Scanner.clock env)) in
    if Scanner.canProceed v
    then fst (fst (Scanner.processAttendance s env employee (Scanner.nextAction v)))
    else s.
Proof.
  intros Hm Hrecent Honline Hfind Hv. unfold Scanner.handleScanResult.
  rewrite Hm, Hrecent, Honline, Hfind. cbn [negb].
  unfold Scanner.validateAttendanceSequence, Scanner.readAttendance. rewrite Hv.
  cbn zeta. destruct (Scanner.canProceed _); cbn [negb fst]; [|reflexivity].
  destruct (Scanner.processAttendance s env employee _) as [[s' effs] [m|]];
    reflexivity.
Qed.

(** X10.  Four scans of one employee's code on a day without a record, one
    after the other, all requests succeeding and the third scan validated at
    least three minutes after the second was recorded, leave one row with the
    four timestamps in scan order, the lateness decided at the first scan,
    and the total that [calculateTotalHours] computes, in binary64, from the
    two sessions; a fifth scan changes nothing. *)
Theorem four_scans_complete_the_day (s : Store) (employee : Employee)
  (qrCode today id : string) (canVibrate : bool) (wallClock : Z -> Z -> Z)
  (c1 c2 c3 c4 c5 : Scanner.Clock) :
  let env c := Scanner.mkEnv true canVibrate today wallClock id c
                 (Scanner.mkNet NoFault NoFault NoFault NoFault NoFault) in
  let scan c st := fst (Scanner.handleScanResult (Scanner.initialRender true) (env c)
                          st qrCode) in
  let t1 := Scanner.t_process c1 in
  let t2 := Scanner.t_process c2 in
  let t3 := Scanner.t_process c3 in
  let t4 := Scanner.t_process c4 in
  Scanner.findEmployee s NoFault qrCode = Scanner.Done employee ->
  attendance_records s !! (e_id employee, today) = None ->
  Scanner.CHECKOUT_TO_CHECKIN_COOLDOWN <= Scanner.t_validate c3 - t2 ->
  let s4 := scan c4 (scan c3 (scan c2 (scan c1 s))) in
  attendance_records s4 !! (e_id employee, today)
  = Some (mkAttendance id (e_id employee) today (Some t1) (Some t2) (Some t3) (Some t4)
            (Double.round
               (Double.mul (Double.add (Double.hours t1 t2) (Double.hours t3 t4))
                  (Double.ofZ 100)))
            (fst (Scanner.checkIfLate s (env c1) t1))
            (snd (Scanner.checkIfLate s (env c1) t1))) /\
  scan c5 s4 = s4.
Proof.
  intros env scan t1 t2 t3 t4 Hfind Hnone Hcool.
  set (key := (e_id employee, today)).
  set (r1 := mkAttendance id (e_id employee) today (Some t1) None None None 0
               (fst (Scanner.checkIfLate s (env c1) t1))
               (snd (Scanner.checkIfLate s (env c1) t1))).
  set (r2 := applyUpdate (mkUpdate (Some t2) None None None) r1).
  set (r3 := applyUpdate (mkUpdate None (Some t3) None None) r2).
  set (r4 := applyUpdate
               (mkUpdate None None (Some t4) (Some (Scanner.calculateTotalHours r3 t4)))
               r3).
  assert (Hstep : forall c st,
    Scanner.findEmployee st NoFault qrCode = Scanner.Done employee ->
    scan c st
    = let v := Scanner.validateRecord (attendance_records st !! key)
                 (Scanner.t_validate c) in
      if Scanner.canProceed v
      then fst (fst (Scanner.processAttendance st (env c) employee (Scanner.nextAction v)))
      else st).
  { intros c st Hst. unfold scan.
    rewrite (scan_store _ (env c) st qrCode employee); auto. }
  assert (Hupdate : forall c st a action u,
    attendance_records st !! key = Some a ->
    Scanner.updateFor a action (Scanner.t_process c) = Some u ->
    fst (fst (Scanner.processAttendance st (env c) employee action))
    = Scanner.setAttendance st key (applyUpdate u a)).
  { intros c st a action u Hrow Hu.
    rewrite (processAttendance_update st (env c) employee action a u); auto. }
  assert (H1 : scan c1 s = Scanner.setAttendance s key r1).
  { rewrite Hstep by exact Hfind. fold key in Hnone. rewrite Hnone. cbn zeta.
    cbn [Scanner.validateRecord Scanner.canProceed Scanner.nextAction].
    unfold Scanner.processAttendance, Scanner.readAttendance.
    cbn [env Scanner.net Scanner.n_process Scanner.n_write Scanner.today Scanner.clock
         Scanner.fresh_id].
    fold key. rewrite Hnone. cbn [String.eqb Ascii.eqb Bool.eqb andb].
    fold (env c1). fold t1. subst r1.
    destruct (Scanner.checkIfLate s (env c1) t1) as [isLate lateDuration].
    reflexivity. }
  assert (H2 : scan c2 (scan c1 s) = Scanner.setAttendance (scan c1 s) key r2).
  { rewrite Hstep by (rewrite H1; exact Hfind).
    rewrite (eq_ind_r (fun st => attendance_records st !! key = _) (lookup_setAttendance _ _ _) H1).
    cbn zeta.
    change (Scanner.validateRecord (Some r1) (Scanner.t_validate c2))
      with (Scanner.mkValidation true "first_check_out" None None true).
    cbn [Scanner.canProceed Scanner.nextAction].
    apply Hupdate; [rewrite H1; apply lookup_setAttendance|reflexivity]. }
  assert (H3 : scan c3 (scan c2 (scan c1 s))
               = Scanner.setAttendance (scan c2 (scan c1 s)) key r3).
  { rewrite Hstep by (rewrite H2, H1; exact Hfind).
    rewrite (eq_ind_r (fun st => attendance_records st !! key = _) (lookup_setAttendance _ _ _) H2).
    cbn zeta.
    assert (Hv : Scanner.validateRecord (Some r2) (Scanner.t_validate c3)
                 = Scanner.mkValidation true "second_check_in" None None true).
    { unfold Scanner.validateRecord. cbn [r2 r1 applyUpdate first_check_in first_check_out
        second_check_in second_check_out u_first_check_out u_second_check_in
        u_second_check_out Js.present andb negb Js.getTime].
      destruct (Z.ltb_spec (Scanner.t_validate c3 - t2) Scanner.CHECKOUT_TO_CHECKIN_COOLDOWN);
        [lia|reflexivity]. }
    rewrite Hv. cbn [Scanner.canProceed Scanner.nextAction].
    apply Hupdate; [rewrite H2; apply lookup_setAttendance|reflexivity]. }
  assert (H4 : scan c4 (scan c3 (scan c2 (scan c1 s)))
               = Scanner.setAttendance (scan c3 (scan c2 (scan c1 s))) key r4).
  { rewrite Hstep by (rewrite H3, H2, H1; exact Hfind).
    rewrite (eq_ind_r (fun st => attendance_records st !! key = _) (lookup_setAttendance _ _ _) H3).
    cbn zeta.
    change (Scanner.validateRecord (Some r3) (Scanner.t_validate c4))
      with (Scanner.mkValidation true "second_check_out" None None true).
    cbn [Scanner.canProceed Scanner.nextAction].
    apply Hupdate; [rewrite H3; apply lookup_setAttendance|reflexivity]. }
  cbn zeta. split.
  - rewrite H4. rewrite lookup_setAttendance. reflexivity.
  - rewrite Hstep by (rewrite H4, H3, H2, H1; exact Hfind).
    rewrite (eq_ind_r (fun st => attendance_records st !! key = _) (lookup_setAttendance _ _ _) H4).
    reflexivity.
Qed.

Lemma four_scans_complete_the_day_witness :
  let scan t st := fst (Scanner.handleScanResult (Scanner.initialRender true) (envAt t)
                          st "QR-ALICE") in
  let s4 := scan t1700 (scan (t0923 + 60000) (scan t0920 (scan t0905 (storeWith None)))) in
  attendance_records s4 !! ("e-1", day)
  = Some (mkAttendance "r-1" "e-1" day (Some (t0905 + 90)) (Some (t0920 + 90))
            (Some (t0923 + 60000 + 90)) (Some (t1700 + 90)) 785 true 5) /\
  scan (t1700 + 60000) s4 = s4.
Proof.
  assert (Htotal :
    Double.round
      (Double.mul
         (Double.add (Double.hours (t0905 + 90) (t0920 + 90))
            (Double.hours (t0923 + 60000 + 90) (t1700 + 90)))
         (Double.ofZ 100)) = 785) by (vm_compute; reflexivity).
  rewrite <- Htotal.
  apply (four_scans_complete_the_day (storeWith None) alice "QR-ALICE" day "r-1" true
           utcDay
           (Scanner.mkClock t0905 (t0905 + 1) (t0905 + 40) (t0905 + 90) (t0905 + 150))
           (Scanner.mkClock t0920 (t0920 + 1) (t0920 + 40) (t0920 + 90) (t0920 + 150))
           (Scanner.mkClock (t0923 + 60000) (t0923 + 60000 + 1) (t0923 + 60000 + 40)
              (t0923 + 60000 + 90) (t0923 + 60000 + 150))
           (Scanner.mkClock t1700 (t1700 + 1) (t1700 + 40) (t1700 + 90) (t1700 + 150))
           (Scanner.mkClock (t1700 + 60000) (t1700 + 60000 + 1) (t1700 + 60000 + 40)
              (t1700 + 60000 + 90) (t1700 + 60000 + 150))).
  - reflexivity.
  - reflexivity.
  - vm_compute. discriminate.
Defined.

(** ** Deactivated employees *)

(** X11.  The code of a deactivated employee: the first scanner rejects every
    scan of it and leaves the store alone, since its lookup selects active
    employees only; the second scanner's lookup has no such filter, and with
    the requests succeeding it opens the day's record of that employee. *)
Theorem deactivated_employee_scans (s : Store) (employee : Employee) (qrCode : string) :
  filter (λ e, qr_code e = qrCode) (employees s) = [employee] ->
  is_active employee = false ->
  (forall seen env, fst (Scanner.handleScanResult seen env s qrCode) = s) /\
  (forall lastScanRef env,
     ScannerAlt.isRecentlySeen lastScanRef qrCode
       (ScannerAlt.t_seen (ScannerAlt.clock env)) = false ->
     ScannerAlt.net env = ScannerAlt.mkNet NoFault NoFault NoFault NoFault ->
     attendance_records s !! (e_id employee, ScannerAlt.today env) = None ->
     exists r,
       attendance_records
         (ScannerAlt.store
            (fst (ScannerAlt.handleScan (ScannerAlt.mkState lastScanRef s) env qrCode)))
       !! (e_id employee, ScannerAlt.today env) = Some r /\
       employee_id r = e_id employee /\
       first_check_in r = Some (ScannerAlt.t_now (ScannerAlt.clock env))).
Proof.
  intros Hcode Hinactive. split.
  - intros seen env.
    assert (Hnone : filter (λ e, qr_code e = qrCode ∧ is_active e = true) (employees s)
                    = []).
    { rewrite <- (list_filter_filter_l _ (λ e, qr_code e = qrCode)) by tauto.
      rewrite Hcode. rewrite filter_cons_False; [reflexivity|].
      rewrite Hinactive. intros [_ Hactive]. discriminate Hactive. }
    assert (Hfind : exists m,
      Scanner.findEmployee s (Scanner.n_employee (Scanner.net env)) qrCode
      = Scanner.Thrown m).
    { unfold Scanner.findEmployee. rewrite Hnone.
      destruct (Scanner.n_employee (Scanner.net env)); eexists; reflexivity. }
    destruct Hfind as [m Hfind].
    apply (scan_without_employee seen env s qrCode m Hfind).
  - intros lastScanRef env Hseen Hnet Hrow.
    unfold ScannerAlt.handleScan. cbn [ScannerAlt.lastScanRef ScannerAlt.store].
    rewrite Hseen. unfold ScannerAlt.validateQRCode, ScannerAlt.processAttendance,
      ScannerAlt.isLate.
    rewrite Hnet. cbn [ScannerAlt.n_employee ScannerAlt.n_read ScannerAlt.n_settings
                       ScannerAlt.n_write].
    rewrite Hcode. cbn [Scanner.single]. rewrite Hrow.
    destruct (work_start_time s) as [[hours minutes]|];
      cbn [fst ScannerAlt.store]; rewrite lookup_setAttendance;
      eexists; split; reflexivity || (split; reflexivity).
Qed.

Lemma deactivated_employee_scans_witness :
  let bob := mkEmployee "e-2" "QR-BOB" false "Bob" "Silva" in
  let s := mkStore [alice; bob] ∅ (Some (9, 0)) in
  fst (Scanner.handleScanResult (Scanner.initialRender true) (envAt t0905) s "QR-BOB") = s /\
  exists r,
    attendance_records
      (ScannerAlt.store
         (fst (ScannerAlt.handleScan (ScannerAlt.mkState ∅ s) (altEnv t0905) "QR-BOB")))
    !! ("e-2", day) = Some r /\
    employee_id r = "e-2" /\ first_check_in r = Some (t0905 + 60).
Proof.
  intros bob s.
  destruct (deactivated_employee_scans s bob "QR-BOB" eq_refl eq_refl) as [Hfirst Hsecond].
  split.
  - apply Hfirst.
  - apply (Hsecond ∅ (altEnv t0905)); reflexivity.
Defined.

(** ** Errors of the second scanner *)

Lemma alt_processAttendance_thrown (s : Store) (env : ScannerAlt.Env)
  (employee : Employee) (m : string) :
  snd (ScannerAlt.processAttendance s env employee) = Some m ->
  exists done,
    ScannerAlt.processAttendance s env employee
    = (s, done ++ ScannerAlt.handleError m, Some m).
Proof.
  unfold ScannerAlt.processAttendance.
  repeat match goal with
         | |- context [match ?x with _ => _ end] => destruct x eqn:?
         end;
    cbn [snd]; intros Hm; try discriminate Hm;
    injection Hm as <-; eexists; reflexivity.
Qed.

(** X12.  Second scanner: an error thrown inside [processAttendance] is
    reported by its own [catch] block and, being rethrown, once more by the
    one of [handleScan]; the dialog and the spoken announcement are issued
    twice in a row, and the store is unchanged. *)
Theorem alt_processing_error_reported_twice (st : ScannerAlt.State)
  (env : ScannerAlt.Env) (qrData : string) (employee : Employee) (m : string) :
  ScannerAlt.isRecentlySeen (ScannerAlt.lastScanRef st) qrData
    (ScannerAlt.t_seen (ScannerAlt.clock env)) = false ->
  ScannerAlt.validateQRCode (ScannerAlt.store st)
    (ScannerAlt.n_employee (ScannerAlt.net env)) qrData = Scanner.Done employee ->
  snd (ScannerAlt.processAttendance (ScannerAlt.store st) env employee) = Some m ->
  let status v := if ScannerAlt.mounted env then [SetScannerStatus v] else [] in
  ScannerAlt.store (fst (ScannerAlt.handleScan st env qrData)) = ScannerAlt.store st /\
  exists done,
    snd (ScannerAlt.handleScan st env qrData)
    = status "processing" ++ [SelectEmployee qrData] ++ done
      ++ ScannerAlt.handleError m ++ ScannerAlt.handleError m ++ status "ready".
Proof.
  intros Hseen Hfind Hthrown status.
  destruct (alt_processAttendance_thrown _ _ _ _ Hthrown) as [done Hprocess].
  unfold ScannerAlt.handleScan. rewrite Hseen, Hfind, Hprocess.
  cbn [fst snd ScannerAlt.store]. split; [reflexivity|].
  exists done. fold status. rewrite <- !app_assoc. reflexivity.
Qed.

Lemma alt_processing_error_reported_twice_witness :
  let st := altState (Some afterFirstIn) in
  let wait := "Please wait at least 3 minutes between first check-in and first check-out" in
  ScannerAlt.store (fst (ScannerAlt.handleScan st (altEnv (t0905 + 60000)) "QR-ALICE"))
  = ScannerAlt.store st /\
  exists done,
    snd (ScannerAlt.handleScan st (altEnv (t0905 + 60000)) "QR-ALICE")
    = [SetScannerStatus "processing"] ++ [SelectEmployee "QR-ALICE"] ++ done
      ++ ScannerAlt.handleError wait ++ ScannerAlt.handleError wait
      ++ [SetScannerStatus "ready"].
Proof.
  apply (alt_processing_error_reported_twice (altState (Some afterFirstIn))
           (altEnv (t0905 + 60000)) "QR-ALICE" alice
           "Please wait at least 3 minutes between first check-in and first check-out"
           eq_refl eq_refl eq_refl).
Defined.

(** ** The camera optimizer *)

Lemma detectAll_cons (o : CameraOptimizer.t) (probe : CameraOptimizer.Probe)
  (rest : list CameraOptimizer.Probe) :
  CameraOptimizer.detectAll o (probe :: rest)
  = CameraOptimizer.detectAll (fst (CameraOptimizer.detectDeviceCapabilities o probe)) rest.
Proof. reflexivity. Qed.

Lemma detectAll_cached (probes : list CameraOptimizer.Probe) :
  forall o d,
  CameraOptimizer.deviceCapabilities o = Some d ->
  CameraOptimizer.detectAll o probes = o.
Proof.
  induction probes as [|probe rest IH]; intros o d Hd; [reflexivity|].
  rewrite detectAll_cons. unfold CameraOptimizer.detectDeviceCapabilities.
  rewrite Hd. cbn [fst]. apply (IH o d Hd).
Qed.

Lemma detectAll_first (probes : list CameraOptimizer.Probe) :
  forall o,
  CameraOptimizer.deviceCapabilities o = None ->
  CameraOptimizer.deviceCapabilities (CameraOptimizer.detectAll o probes)
  = CameraOptimizer.firstSuccess probes.
Proof.
  induction probes as [|[|videoDevices c] rest IH]; intros o Hnone.
  - exact Hnone.
  - rewrite detectAll_cons. unfold CameraOptimizer.detectDeviceCapabilities.
    rewrite Hnone. cbn [fst]. apply (IH o Hnone).
  - rewrite detectAll_cons. unfold CameraOptimizer.detectDeviceCapabilities.
    rewrite Hnone. cbn [fst].
    rewrite (detectAll_cached rest _ (CameraOptimizer.probed videoDevices c));
      reflexivity.
Qed.

(** X13.  Device detection keeps the first success and no failure: after
    any sequence of [detectDeviceCapabilities] calls on a new instance the
    stored object is the one built from the first successful probe, later
    probes being ignored, and nothing is stored while every probe has failed.
    A further call returns the stored object if there is one; otherwise the
    object of its own probe, or on failure the fallback, which is not stored,
    so that [getPerformanceRecommendations] goes on asking for a detection. *)
Theorem detection_keeps_first_success (probes : list CameraOptimizer.Probe)
  (probe : CameraOptimizer.Probe) :
  let o := CameraOptimizer.detectAll CameraOptimizer.instance probes in
  CameraOptimizer.deviceCapabilities o = CameraOptimizer.firstSuccess probes /\
  snd (CameraOptimizer.detectDeviceCapabilities o probe)
  = match CameraOptimizer.firstSuccess (probes ++ [probe]) with
    | Some d => d
    | None => CameraOptimizer.fallback
    end /\
  (CameraOptimizer.firstSuccess probes = None <->
   CameraOptimizer.getPerformanceRecommendations o = ["Run device detection first"]).
Proof.
  intros o.
  pose proof (detectAll_first probes CameraOptimizer.instance eq_refl) as Hd.
  fold o in Hd. split; [exact Hd|]. split.
  - unfold CameraOptimizer.detectDeviceCapabilities. rewrite Hd.
    clearbody o. clear Hd. revert o.
    induction probes as [|[|videoDevices c] rest IH]; intros o; cbn.
    + destruct probe; reflexivity.
    + apply IH.
    + reflexivity.
  - unfold CameraOptimizer.getPerformanceRecommendations. rewrite Hd.
    destruct (CameraOptimizer.firstSuccess probes) as [d|]; [|tauto].
    split; [discriminate|].
    destruct (CameraOptimizer.deviceCount d =? 1),
      (CameraOptimizer.advancedControls d),
      (CameraOptimizer.belowQ _ 20), (CameraOptimizer.belowZ _ 1280);
      cbn; discriminate.
Qed.

Lemma detection_keeps_first_success_witness :
  let o := CameraOptimizer.detectAll CameraOptimizer.instance
             [CameraOptimizer.ProbeFailed; webcams; phone] in
  CameraOptimizer.deviceCapabilities o
  = CameraOptimizer.firstSuccess [CameraOptimizer.ProbeFailed; webcams; phone] /\
  snd (CameraOptimizer.detectDeviceCapabilities o phone)
  = CameraOptimizer.probed
      [CameraOptimizer.mkVideoDevice false false; CameraOptimizer.mkVideoDevice false false]
      (CameraOptimizer.mkCapabilities (Some 640) (Some 30%Q) (Some ["manual"])
         None None None).
Proof.
  destruct (detection_keeps_first_success
              [CameraOptimizer.ProbeFailed; webcams; phone] phone) as (Hstored & Hnext & _).
  split; [exact Hstored|exact Hnext].
Defined.

Lemma frameRateLimit_le (frameRate : Q) :
  (CameraOptimizer.frameRateLimit frameRate <= 30)%Q /\
  ((CameraOptimizer.frameRateLimit frameRate < frameRate)%Q <-> (30 < frameRate)%Q).
Proof.
  unfold CameraOptimizer.frameRateLimit.
  destruct (Qle_bool (frameRate + 5) 30) eqn:Hle.
  - apply Qle_bool_iff in Hle. split; [exact Hle|]. split; intros H; lra.
  - assert (Hgt : ~ (frameRate + 5 <= 30)%Q).
    { intros H. apply Qle_bool_iff in H. congruence. }
    split; [lra|]. split; intros H; lra.
Qed.

(** X14.  Whatever the device, the stored state and the preferences, the
    constraints recommended by [getOptimalSettings] always ask for the
    environment-facing camera, also when the settings report the preferred
    facing mode; they never switch the torch on, and list [torch: false]
    exactly on devices with a torch when advanced controls are reported;
    their maximal frame rate is at most 30 and is below the ideal one exactly
    when the chosen frame rate exceeds 30. *)
Theorem recommended_constraints_safe (o : CameraOptimizer.t)
  (probe : CameraOptimizer.Probe) (userPreferences : CameraOptimizer.Preferences)
  (settings : CameraOptimizer.Settings) :
  snd (CameraOptimizer.getOptimalSettings o probe userPreferences) = Scanner.Done settings ->
  let d := snd (CameraOptimizer.detectDeviceCapabilities o probe) in
  let video := CameraOptimizer.recommendedConstraints settings in
  CameraOptimizer.facingMode settings
  = Scanner.orElse (CameraOptimizer.p_facingMode userPreferences) "environment" /\
  CameraOptimizer.v_facingMode video = "environment" /\
  (CameraOptimizer.advancedControls d = false -> CameraOptimizer.v_advanced video = None) /\
  (CameraOptimizer.advancedControls d = true ->
   exists advanced,
     CameraOptimizer.v_advanced video = Some advanced /\
     ~ In (CameraOptimizer.Torch true) advanced /\
     (In (CameraOptimizer.Torch false) advanced <->
      CameraOptimizer.torch (CameraOptimizer.capabilities d) = Some true)) /\
  CameraOptimizer.ideal (CameraOptimizer.v_frameRate video)
  = CameraOptimizer.frameRate settings /\
  (CameraOptimizer.limit (CameraOptimizer.v_frameRate video) <= 30)%Q /\
  ((CameraOptimizer.limit (CameraOptimizer.v_frameRate video)
    < CameraOptimizer.frameRate settings)%Q <-> (30 < CameraOptimizer.frameRate settings)%Q).
Proof.
  unfold CameraOptimizer.getOptimalSettings.
  destruct (CameraOptimizer.detectDeviceCapabilities o probe) as [o1 d]. cbn [snd].
  set (optimalResolution := if CameraOptimizer.highEnd _ then _ else _).
  set (optimalFrameRate := if CameraOptimizer.highEnd _ then _ else _).
  unfold CameraOptimizer.buildOptimalConstraints.
  assert (Htorch : forall (l : list CameraOptimizer.Advanced) on,
    (forall on', ~ In (CameraOptimizer.Torch on') l) ->
    In (CameraOptimizer.Torch on)
       (l ++ (if CameraOptimizer.enabled (CameraOptimizer.torch (CameraOptimizer.capabilities d))
              then [CameraOptimizer.Torch false] else []))
    <-> on = false /\
        CameraOptimizer.torch (CameraOptimizer.capabilities d) = Some true).
  { intros l on Hl. rewrite in_app_iff.
    destruct (CameraOptimizer.torch (CameraOptimizer.capabilities d)) as [[|]|]; cbn;
      split; intros H.
    - destruct H as [H|[H|[]]]; [destruct (Hl _ H)|]. injection H as <-. tauto.
    - destruct H as [-> _]. tauto.
    - destruct H as [H|[]]. destruct (Hl _ H).
    - destruct H as [_ H]. discriminate H.
    - destruct H as [H|[]]. destruct (Hl _ H).
    - destruct H as [_ H]. discriminate H. }
  assert (Hmodes : forall on',
    ~ In (CameraOptimizer.Torch on')
        ((match CameraOptimizer.focusMode (CameraOptimizer.capabilities d) with
          | Some modes =>
            [CameraOptimizer.FocusMode
               (if CameraOptimizer.includes modes "continuous" then "continuous"
                else "single-shot")]
          | None => []
          end)
         ++ (match CameraOptimizer.exposureMode (CameraOptimizer.capabilities d) with
             | Some modes =>
               [CameraOptimizer.ExposureMode
                  (if CameraOptimizer.includes modes "continuous" then "continuous"
                   else "manual")]
             | None => []
             end)
         ++ (match CameraOptimizer.whiteBalanceMode (CameraOptimizer.capabilities d) with
             | Some modes =>
               [CameraOptimizer.WhiteBalanceMode
                  (if CameraOptimizer.includes modes "continuous" then "continuous"
                   else "manual")]
             | None => []
             end))).
  { intros on'. rewrite !in_app_iff.
    destruct (CameraOptimizer.focusMode _), (CameraOptimizer.exposureMode _),
      (CameraOptimizer.whiteBalanceMode _); cbn; intuition discriminate. }
  destruct (CameraOptimizer.resolutionMap optimalResolution); cbn [snd];
    try discriminate;
    intros [= <-]; cbn zeta;
    cbn [CameraOptimizer.facingMode CameraOptimizer.recommendedConstraints
         CameraOptimizer.v_facingMode CameraOptimizer.v_advanced
         CameraOptimizer.v_frameRate CameraOptimizer.ideal CameraOptimizer.limit
         CameraOptimizer.frameRate];
    (split; [reflexivity|]); (split; [reflexivity|]);
    (split; [intros ->; reflexivity|]);
    (split; [intros ->; eexists; split; [reflexivity|];
             rewrite !app_assoc;
             split; [intros Hin; apply Htorch in Hin;
                     [destruct Hin as [Hin _]; discriminate Hin
                     |rewrite <- app_assoc; exact Hmodes]
                    |rewrite Htorch by (rewrite <- app_assoc; exact Hmodes); tauto]
            |]);
    (split; [reflexivity|]); apply frameRateLimit_le.
Qed.

Lemma recommended_constraints_safe_witness :
  let userPreferences :=
    CameraOptimizer.mkPreferences (Some "high") (Some 60%Q) (Some "user") in
  exists settings,
    snd (CameraOptimizer.getOptimalSettings CameraOptimizer.instance phone userPreferences)
    = Scanner.Done settings /\
    CameraOptimizer.facingMode settings = "user" /\
    CameraOptimizer.v_facingMode (CameraOptimizer.recommendedConstraints settings)
    = "environment" /\
    (CameraOptimizer.limit
       (CameraOptimizer.v_frameRate (CameraOptimizer.recommendedConstraints settings))
     < CameraOptimizer.frameRate settings)%Q.
Proof.
  intros userPreferences. eexists. split; [reflexivity|].
  destruct (recommended_constraints_safe CameraOptimizer.instance phone userPreferences
              _ eq_refl) as (Hfacing & Hvideo & _ & _ & _ & _ & Hrate).
  split; [exact Hfacing|]. split; [exact Hvideo|].
  apply Hrate. reflexivity.
Defined.

Lemma atLeastZ_1920 (v : option Z) :
  CameraOptimizer.atLeastZ v 1920 = true -> CameraOptimizer.atLeastZ v 1280 = true.
Proof.
  destruct v as [x|]; cbn; [|discriminate].
  intros H. apply Z.leb_le in H. apply Z.leb_le. lia.
Qed.

Lemma atLeastQ_30 (v : option Q) :
  CameraOptimizer.atLeastQ v 30 = true -> CameraOptimizer.atLeastQ v 20 = true.
Proof.
  destruct v as [x|]; cbn [CameraOptimizer.atLeastQ]; [|discriminate].
  intros H. apply Qle_bool_iff in H. apply Qle_bool_iff. lra.
Qed.

(** X15.  [getOptimalSettings] without preferences, as the diagnostics call
    it, on an instance with nothing stored.  After a successful probe it
    never throws, and the frame rate it chooses is one the device profile
    lists as supported; the resolution is too, except exactly on a device
    with other than one camera and with advanced controls whose maximal
    width is unknown or below 1280, where it chooses medium.  After a failed
    probe it chooses low at 10 frames a second, neither of which the fallback
    profile lists. *)
Theorem optimal_settings_without_preferences (o : CameraOptimizer.t) :
  CameraOptimizer.deviceCapabilities o = None ->
  (forall videoDevices c,
     exists settings,
       snd (CameraOptimizer.getOptimalSettings o (CameraOptimizer.Probed videoDevices c)
              CameraOptimizer.noPreferences) = Scanner.Done settings /\
       In (CameraOptimizer.frameRate settings) (CameraOptimizer.getSupportedFrameRates c) /\
       (In (CameraOptimizer.resolution settings) (CameraOptimizer.getSupportedResolutions c)
        <-> ~ (length videoDevices <> 1%nat /\
               CameraOptimizer.hasAdvancedControls c = true /\
               CameraOptimizer.atLeastZ (CameraOptimizer.width_max c) 1280 = false))) /\
  (exists settings,
     snd (CameraOptimizer.getOptimalSettings o CameraOptimizer.ProbeFailed
            CameraOptimizer.noPreferences) = Scanner.Done settings /\
     CameraOptimizer.resolution settings = "low" /\
     CameraOptimizer.frameRate settings = 10%Q /\
     ~ In "low" (CameraOptimizer.supportedResolutions CameraOptimizer.fallback) /\
     ~ In 10%Q (CameraOptimizer.supportedFrameRates CameraOptimizer.fallback)).
Proof.
  intros Hnone. split.
  - intros videoDevices c.
    unfold CameraOptimizer.getOptimalSettings, CameraOptimizer.detectDeviceCapabilities.
    rewrite Hnone.
    cbn [CameraOptimizer.probed CameraOptimizer.capabilities CameraOptimizer.deviceCount
         CameraOptimizer.advancedControls CameraOptimizer.noPreferences
         CameraOptimizer.p_resolution CameraOptimizer.p_frameRate
         CameraOptimizer.p_facingMode Scanner.orElse CameraOptimizer.frameRateOr].
    unfold CameraOptimizer.highEnd.
    assert (Hcount : (Z.of_nat (length videoDevices) =? 1) = true
                     <-> length videoDevices = 1%nat).
    { rewrite Z.eqb_eq. lia. }
    unfold CameraOptimizer.getSupportedResolutions, CameraOptimizer.getSupportedFrameRates.
    destruct (CameraOptimizer.atLeastZ (CameraOptimizer.width_max c) 1920) eqn:Hw1920;
      [pose proof (atLeastZ_1920 _ Hw1920) as Hw1280|];
      (destruct (CameraOptimizer.atLeastQ (CameraOptimizer.frameRate_max c) 30) eqn:Hf30;
       [pose proof (atLeastQ_30 _ Hf30) as Hf20|]);
      cbn [andb];
      destruct (Z.of_nat (length videoDevices) =? 1) eqn:Hone;
      destruct (CameraOptimizer.hasAdvancedControls c) eqn:Hadv;
      cbn [orb negb];
      unfold CameraOptimizer.buildOptimalConstraints;
      cbn [CameraOptimizer.resolutionMap String.eqb Ascii.eqb Bool.eqb andb];
      cbn [snd]; eexists; (split; [reflexivity|]);
      cbn [CameraOptimizer.frameRate CameraOptimizer.resolution];
      rewrite ?Hw1280, ?Hf20;
      (split; [cbn; tauto|]).
    all: try (destruct (CameraOptimizer.atLeastZ (CameraOptimizer.width_max c) 1280)
                eqn:Hw).
    all: cbn [app In].
    all: try (assert (Hlen : length videoDevices = 1%nat) by (apply Hcount; reflexivity)).
    all: try (assert (Hlen : length videoDevices <> 1%nat)
                by (intros Hlen; apply Hcount in Hlen; congruence)).
    all: split;
      [intros Hin (H1 & H2 & H3);
       first [congruence | destruct Hin as [Hin|[]]; discriminate Hin]|].
    all: try (intros _; tauto).
    all: intros Hnot; exfalso; apply Hnot; repeat split; congruence.
  - unfold CameraOptimizer.getOptimalSettings, CameraOptimizer.detectDeviceCapabilities.
    rewrite Hnone. cbn. eexists. split; [reflexivity|]. cbn.
    repeat split; try reflexivity; intros [H|[]]; discriminate H.
Qed.

Lemma optimal_settings_without_preferences_witness :
  exists settings,
    snd (CameraOptimizer.getOptimalSettings CameraOptimizer.instance webcams
           CameraOptimizer.noPreferences) = Scanner.Done settings /\
    CameraOptimizer.resolution settings = "medium" /\
    ~ In (CameraOptimizer.resolution settings) ["low"].
Proof.
  destruct (optimal_settings_without_preferences CameraOptimizer.instance eq_refl)
    as [Hprobed _].
  destruct (Hprobed
              [CameraOptimizer.mkVideoDevice false false;
               CameraOptimizer.mkVideoDevice false false]
              (CameraOptimizer.mkCapabilities (Some 640) (Some 30%Q) (Some ["manual"])
                 None None None)) as (settings & Hsettings & _ & Hresolution).
  exists settings. split; [exact Hsettings|].
  injection Hsettings as <-. split; [reflexivity|].
  intros Hin. apply Hresolution in Hin. apply Hin.
  split; [discriminate|split; reflexivity].
Defined.

(** X16.  The preferred resolution and frame rate are consulted on high-end
    devices only (maximal width at least 1920 and maximal frame rate at least
    30): on any other device two calls whose preferences agree on the facing
    mode give the same result.  [getOptimalSettings] throws exactly when the
    device is high-end and the preferred resolution is a non-empty name that
    is no property of the resolution table. *)
Theorem preferences_only_on_high_end (o : CameraOptimizer.t)
  (probe : CameraOptimizer.Probe) (userPreferences : CameraOptimizer.Preferences) :
  let d := snd (CameraOptimizer.detectDeviceCapabilities o probe) in
  ((exists m, snd (CameraOptimizer.getOptimalSettings o probe userPreferences)
              = Scanner.Thrown m)
   <-> CameraOptimizer.highEnd (CameraOptimizer.capabilities d) = true /\
       CameraOptimizer.resolutionMap
         (Scanner.orElse (CameraOptimizer.p_resolution userPreferences) "medium")
       = CameraOptimizer.Absent) /\
  (CameraOptimizer.highEnd (CameraOptimizer.capabilities d) = false ->
   forall others,
     CameraOptimizer.p_facingMode others = CameraOptimizer.p_facingMode userPreferences ->
     CameraOptimizer.getOptimalSettings o probe others
     = CameraOptimizer.getOptimalSettings o probe userPreferences).
Proof.
  unfold CameraOptimizer.getOptimalSettings.
  destruct (CameraOptimizer.detectDeviceCapabilities o probe) as [o1 d]. cbn [snd].
  destruct (CameraOptimizer.highEnd (CameraOptimizer.capabilities d)).
  - split; [|discriminate]. unfold CameraOptimizer.buildOptimalConstraints.
    destruct (CameraOptimizer.resolutionMap _); cbn [snd]; split.
    + intros [m Hm]. discriminate Hm.
    + intros [_ H]. discriminate H.
    + intros [m Hm]. discriminate Hm.
    + intros [_ H]. discriminate H.
    + intros _. split; reflexivity.
    + intros _. eexists. reflexivity.
  - split.
    + destruct ((CameraOptimizer.deviceCount d =? 1)
                || negb (CameraOptimizer.advancedControls d)); cbn; split.
      * intros [m Hm]. discriminate Hm.
      * intros [H _]. discriminate H.
      * intros [m Hm]. discriminate Hm.
      * intros [H _]. discriminate H.
    + intros _ others Hfacing. rewrite Hfacing. reflexivity.
Qed.

Lemma preferences_only_on_high_end_witness :
  let userPreferences := CameraOptimizer.mkPreferences (Some "ultra") None None in
  (exists m, snd (CameraOptimizer.getOptimalSettings CameraOptimizer.instance phone
                    userPreferences) = Scanner.Thrown m) /\
  CameraOptimizer.getOptimalSettings CameraOptimizer.instance webcams
    CameraOptimizer.noPreferences
  = CameraOptimizer.getOptimalSettings CameraOptimizer.instance webcams userPreferences.
Proof.
  intros userPreferences. split.
  - apply (preferences_only_on_high_end CameraOptimizer.instance phone userPreferences).
    split; reflexivity.
  - apply (preferences_only_on_high_end CameraOptimizer.instance webcams userPreferences);
      reflexivity.
Defined.

(** ** The guidance singleton *)






(** X18.  The guidance that [updateScanningStatus] hands to the subscribed
    callbacks is computed for light level 0: whatever the state and the new
    status, it asks for the flash, reports very low light and never reports
    optimal conditions; it carries the new status. *)
Theorem notified_guidance_never_optimal (g : ScannerGuidance.t) (status : string) :
  let report := snd (ScannerGuidance.updateScanningStatus g status) in
  let distance := ScannerGuidance.currentDistance g in
  ScannerGuidance.status_current report = status /\
  ScannerGuidance.lighting_needsFlash report = true /\
  ScannerGuidance.lighting_guidance report
  = "Very low light - enable flash or move to brighter area" /\
  ScannerGuidance.overall report
  = (if Scanner.Qltb distance 10 || Scanner.Qltb 50 distance
     then "Adjust lighting and distance"
     else "Adjust lighting for better scanning") /\
  ScannerGuidance.overall report <> "Optimal conditions for scanning".
Proof.
  intros report distance.
  assert (Hoverall : ScannerGuidance.overall report
    = (if Scanner.Qltb distance 10 || Scanner.Qltb 50 distance
       then "Adjust lighting and distance"
       else "Adjust lighting for better scanning")).
  { unfold report, ScannerGuidance.updateScanningStatus,
      ScannerGuidance.notifyGuidanceUpdate, ScannerGuidance.getComprehensiveGuidance.
    cbn [snd ScannerGuidance.overall].
    unfold ScannerGuidance.getOverallGuidance, ScannerGuidance.issues.
    cbn [ScannerGuidance.currentDistance]. fold distance.
    destruct (Scanner.Qltb distance 10 || Scanner.Qltb 50 distance); reflexivity. }
  repeat split; try reflexivity; try exact Hoverall.
  rewrite Hoverall.
  destruct (Scanner.Qltb distance 10 || Scanner.Qltb 50 distance); discriminate.
Qed.

(** ** Push notifications of the first scanner *)

(** X21.  A scan refused by the three-minute rule is pushed as a "Check-in
    Timing Violation" of high priority whose text gives the remaining time
    in whole minutes, rounded up: never less than what remains, and less than
    a minute more; with the clock not before the first check-out it is 1, 2
    or 3. *)
Theorem timing_violation_push (a : Attendance) (firstIn firstOut now : Z)
  (employeeName timeStr : string) :
  first_check_in a = Some firstIn ->
  first_check_out a = Some firstOut ->
  second_check_in a = None ->
  firstOut <= now ->
  now - firstOut < Scanner.CHECKOUT_TO_CHECKIN_COOLDOWN ->
  let v := Scanner.validateRecord (Some a) now in
  let n := OneSignalService.notifyAttendanceEvent employeeName (Scanner.nextAction v)
             timeStr false (Scanner.cooldownRemaining v) in
  let remaining := Scanner.CHECKOUT_TO_CHECKIN_COOLDOWN - (now - firstOut) in
  exists minutes,
    OneSignalService.title n = "Check-in Timing Violation" /\
    OneSignalService.delivery (OneSignalService.priority n)
    = (8, 86400, "high-priority-notifications") /\
    OneSignalService.message n
    = Some ("‚ùå " +:+ employeeName +:+ " attempted early check-in. "
            +:+ pretty minutes +:+ " minutes remaining.") /\
    60000 * (minutes - 1) < remaining <= 60000 * minutes /\
    1 <= minutes <= 3.
Proof.
  intros Hfi Hfo Hsi Hclock Hearly v n remaining.
  exists (Js.ceil_div remaining 60000).
  assert (Hv : v = Scanner.mkValidation false "second_check_in"
                     (Some (Scanner.cooldownMessage remaining)) (Some remaining) false).
  { unfold v. rewrite (validateRecord_after_first_out a firstIn firstOut) by assumption.
    apply Z.ltb_lt in Hearly. rewrite Hearly. reflexivity. }
  assert (Hpositive : 0 < remaining).
  { unfold remaining. lia. }
  assert (Hn : n = OneSignalService.mkNotification "Check-in Timing Violation"
                     (Some ("‚ùå " +:+ employeeName +:+ " attempted early check-in. "
                            +:+ pretty (Js.ceil_div remaining 60000)
                            +:+ " minutes remaining."))
                     "attendance" OneSignalService.high).
  { unfold n. rewrite Hv. cbn [Scanner.nextAction Scanner.cooldownRemaining].
    unfold OneSignalService.notifyAttendanceEvent. cbn [Js.truthy].
    destruct (Z.eqb_spec remaining 0) as [Hzero|_]; [lia|].
    apply Z.ltb_lt in Hpositive. rewrite Hpositive. reflexivity. }
  rewrite Hn. cbn [OneSignalService.title OneSignalService.priority
                   OneSignalService.message OneSignalService.delivery].
  repeat split; try reflexivity.
  - apply ceil_div_bounds. lia.
  - apply ceil_div_bounds. lia.
  - pose proof (ceil_div_bounds remaining 60000 ltac:(lia)). lia.
  - pose proof (ceil_div_bounds remaining 60000 ltac:(lia)).
    unfold remaining, Scanner.CHECKOUT_TO_CHECKIN_COOLDOWN in *. lia.
Qed.

Lemma timing_violation_push_witness :
  let v := Scanner.validateRecord (Some afterFirstOut) (t0920 + 1000) in
  OneSignalService.message
    (OneSignalService.notifyAttendanceEvent "Alice Perera" (Scanner.nextAction v)
       "9:20 AM" false (Scanner.cooldownRemaining v))
  = Some "‚ùå Alice Perera attempted early check-in. 3 minutes remaining.".
Proof.
  destruct (timing_violation_push afterFirstOut t0905 t0920 (t0920 + 1000)
              "Alice Perera" "9:20 AM" eq_refl eq_refl eq_refl)
    as (minutes & _ & _ & Hmessage & _ & _).
  - vm_compute. discriminate.
  - reflexivity.
  - reflexivity.
Defined.

Lemma pushes_app (timeStr : string) (es1 es2 : list Effect) :
  pushes timeStr (es1 ++ es2) = pushes timeStr es1 ++ pushes timeStr es2.
Proof. apply flat_map_app. Qed.

Lemma pushes_provideFeedback (timeStr : string) (env : Scanner.Env) (type : string) :
  pushes timeStr (Scanner.provideFeedback env type) = [].
Proof.
  unfold Scanner.provideFeedback.
  destruct (Scanner.canVibrate env); [destruct (String.eqb type "success")|];
    reflexivity.
Qed.

Lemma pushes_failure (timeStr : string) (env : Scanner.Env) (done : list Effect)
  (m : string) :
  pushes timeStr (done ++ Scanner.provideFeedback env "error"
                  ++ Scanner.handleProcessingError m ++ [SetScannerStatus "ready"])
  = pushes timeStr done.
Proof.
  rewrite !pushes_app, pushes_provideFeedback. cbn. apply app_nil_r.
Qed.

Lemma pushes_processAttendance (timeStr : string) (s : Store) (env : Scanner.Env)
  (employee : Employee) (action : string) :
  let effs := snd (fst (Scanner.processAttendance s env employee action)) in
  pushes timeStr effs = [] \/
  pushes timeStr effs
  = [OneSignalService.notifyAttendanceEvent (Scanner.employeeName employee) action
       timeStr false None].
Proof.
  cbn zeta. unfold Scanner.processAttendance, Scanner.readAttendance,
    Scanner.showSuccessFeedback.
  destruct (Scanner.mounted env); cbn [negb];
    repeat match goal with
           | |- context [match ?x with _ => _ end] => destruct x eqn:?
           end;
    cbn [fst snd]; rewrite ?pushes_app; cbn; auto.
Qed.

Lemma notify_without_late (employeeName action timeStr : string)
  (cooldownRemaining : option Z) :
  let n := OneSignalService.notifyAttendanceEvent employeeName action timeStr false
             cooldownRemaining in
  (OneSignalService.title n = "Attendance Update" /\
   OneSignalService.priority n = OneSignalService.normal /\
   (forall remaining, cooldownRemaining = Some remaining -> remaining <= 0)) \/
  (OneSignalService.title n = "Check-in Timing Violation" /\
   OneSignalService.priority n = OneSignalService.high /\
   exists remaining, cooldownRemaining = Some remaining /\ 0 < remaining).
Proof.
  unfold OneSignalService.notifyAttendanceEvent.
  destruct cooldownRemaining as [remaining|]; cbn [Js.truthy].
  - destruct (Z.eqb_spec remaining 0) as [->|Hnonzero]; cbn [negb andb].
    + left. repeat split. intros ? [= <-]. lia.
    + destruct (Z.ltb_spec 0 remaining) as [Hpositive|Hnegative].
      * right. repeat split. exists remaining. split; [reflexivity|exact Hpositive].
      * left. repeat split. intros ? [= <-]. lia.
  - left. repeat split. discriminate.
Qed.

(** X22.  One scan of the first scanner pushes at most one notification.
    It is never the "Late Arrival Alert", also when the scan records a late
    first check-in: it is either an "Attendance Update" of normal priority or
    a "Check-in Timing Violation" of high priority, and the latter only for a
    scan that leaves the store unchanged. *)
Theorem scan_pushes_at_most_one (seen : Scanner.Render) (env : Scanner.Env) (s : Store)
  (qrCode timeStr : string) :
  let result := Scanner.handleScanResult seen env s qrCode in
  let sent := pushes timeStr (snd result) in
  (length sent <= 1)%nat /\
  Forall (fun n =>
            OneSignalService.title n <> "Late Arrival Alert" /\
            ((OneSignalService.title n = "Attendance Update" /\
              OneSignalService.priority n = OneSignalService.normal) \/
             (OneSignalService.title n = "Check-in Timing Violation" /\
              OneSignalService.priority n = OneSignalService.high /\
              fst result = s))) sent.
Proof.
  cbn zeta. unfold Scanner.handleScanResult.
  destruct (Scanner.mounted env); cbn [negb]; [|split; [cbn; lia|constructor]].
  destruct (Scanner.recentlyScanned seen qrCode _); [split; [cbn; lia|constructor]|].
  assert (Hcached : forall tail,
    pushes timeStr
      ([SetScannerStatus "processing"]
       ++ [SetScanCache qrCode (Scanner.t_scan (Scanner.clock env))]
       ++ Scanner.provideFeedback env "success" ++ tail)
    = pushes timeStr tail).
  { intros tail. rewrite !pushes_app, pushes_provideFeedback. reflexivity. }
  destruct (Scanner.isOnline seen); cbn [negb fst snd].
  2:{ rewrite pushes_failure.
      rewrite <- (app_nil_r (Scanner.provideFeedback env "success")), Hcached.
      split; [cbn; lia|constructor]. }
  destruct (Scanner.findEmployee s _ qrCode) as [employee|m]; cbn [fst snd].
  2:{ rewrite pushes_failure, <- !app_assoc, Hcached.
      split; [cbn; lia|constructor]. }
  set (v := Scanner.validateAttendanceSequence s _ employee _ _).
  destruct (Scanner.canProceed v); cbn [negb fst snd].
  - pose proof (pushes_processAttendance timeStr s env employee (Scanner.nextAction v))
      as Hsent. cbn zeta in Hsent.
    assert (Hgoal : forall tail,
      pushes timeStr tail = [] ->
      let sent :=
        pushes timeStr
          (snd (fst (Scanner.processAttendance s env employee (Scanner.nextAction v)))
           ++ tail) in
      (length sent <= 1)%nat /\
      Forall (fun n =>
                OneSignalService.title n <> "Late Arrival Alert" /\
                (OneSignalService.title n = "Attendance Update" /\
                 OneSignalService.priority n = OneSignalService.normal)) sent).
    { intros tail Htail. cbn zeta. rewrite pushes_app, Htail, app_nil_r.
      destruct Hsent as [-> | ->]; [split; [cbn; lia|constructor]|].
      split; [cbn; lia|]. constructor; [|constructor].
      split; [|split; reflexivity]. cbn. discriminate. }
    destruct (Scanner.processAttendance s env employee (Scanner.nextAction v))
      as [[s' effs] [m|]]; cbn [fst snd] in *.
    + rewrite pushes_failure, <- !app_assoc, Hcached.
      rewrite pushes_app. cbn [pushes flat_map app].
      destruct (Hgoal [] eq_refl) as [Hlen Hall]. rewrite app_nil_r in Hlen, Hall.
      split; [exact Hlen|].
      eapply Forall_impl; [exact Hall|]. cbn beta. tauto.
    + rewrite <- !app_assoc, Hcached. rewrite pushes_app. cbn [pushes flat_map app].
      destruct (Hgoal ([SetMetricsScan (Scanner.t_end (Scanner.clock env)
                                        - Scanner.t_start (Scanner.clock env))]
                       ++ [SetScannerStatus "ready"]) eq_refl) as [Hlen Hall].
      split; [exact Hlen|].
      eapply Forall_impl; [exact Hall|]. cbn beta. tauto.
  - rewrite <- !app_assoc, Hcached. rewrite !pushes_app.
    unfold Scanner.showTimingError. rewrite !pushes_app.
    assert (Hvibrate : pushes timeStr
              (if Scanner.canVibrate env then [Vibrate [200; 100; 200; 100; 200]] else [])
            = []).
    { destruct (Scanner.canVibrate env); reflexivity. }
    rewrite Hvibrate. cbn [pushes flat_map app length].
    split; [lia|]. constructor; [|constructor].
    destruct (notify_without_late (Scanner.employeeName employee) (Scanner.nextAction v)
                timeStr (Scanner.cooldownRemaining v))
      as [(Htitle & Hpriority & _) | (Htitle & Hpriority & _)];
      cbn zeta in Htitle, Hpriority; rewrite Htitle, Hpriority.
    + split; [discriminate|left; split; reflexivity].
    + split; [discriminate|right; repeat split; reflexivity].
Qed.

Lemma scan_pushes_at_most_one_witness :
  let result := Scanner.handleScanResult (Scanner.initialRender true) (envAt t0905)
                  (storeWith None) "QR-ALICE" in
  option_map is_late (attendance_records (fst result) !! ("e-1", day)) = Some true /\
  pushes "9:05 AM" (snd result)
  = [OneSignalService.mkNotification "Attendance Update"
       (Some "Alice Perera checked in at 9:05 AM") "attendance" OneSignalService.normal] /\
  (length (pushes "9:05 AM" (snd result)) <= 1)%nat.
Proof.
  intros result. split; [reflexivity|]. split; [reflexivity|].
  apply (scan_pushes_at_most_one (Scanner.initialRender true) (envAt t0905)
           (storeWith None) "QR-ALICE" "9:05 AM").
Defined.

(** ** The dashboard's reading of the rows *)

Lemma processAttendance_row (s : Store) (env : Scanner.Env) (employee : Employee)
  (action : string) :
  let key := (e_id employee, Scanner.today env) in
  let now := Scanner.t_process (Scanner.clock env) in
  let s' := fst (fst (Scanner.processAttendance s env employee action)) in
  s' = s \/
  (action = "first_check_in" /\
   exists isLate lateDuration,
     s' = Scanner.setAttendance s key
            (mkAttendance (Scanner.fresh_id env) (e_id employee) (Scanner.today env)
               (Some now) None None None 0 isLate lateDuration)) \/
  (exists a u,
     attendance_records s !! key = Some a /\
     Scanner.updateFor a action now = Some u /\
     s' = Scanner.setAttendance s key (applyUpdate u a)).
Proof.
  cbn zeta. unfold Scanner.processAttendance, Scanner.readAttendance.
  destruct (Scanner.n_process (Scanner.net env)); cbn [fst]; [| |left; reflexivity];
    repeat match goal with
           | |- context [match ?x with _ => _ end] => destruct x eqn:?
           end;
    cbn [fst]; try (left; reflexivity); right.
  all: try (left; split;
            [apply String.eqb_eq; assumption|eexists _, _; reflexivity]).
  all: right; eexists _, _; repeat split; first [eassumption|reflexivity].
Qed.

(** X24.  The dashboard names the last accepted scan: when a scan of the
    first scanner changes the employee's row of the day, in a table whose
    rows are sequenced, [getLatestAction] of the new row is the display name
    of the action the sequencer chose, and [getLatestTime] formats the
    instant that scan recorded. *)
Theorem dashboard_shows_last_scan (seen : Scanner.Render) (env : Scanner.Env)
  (s : Store) (qrCode : string) (employee : Employee) (r : Attendance) :
  tableRecorded s ->
  Scanner.findEmployee s (Scanner.n_employee (Scanner.net env)) qrCode
  = Scanner.Done employee ->
  let key := (e_id employee, Scanner.today env) in
  attendance_records (fst (Scanner.handleScanResult seen env s qrCode)) !! key = Some r ->
  attendance_records s !! key <> Some r ->
  let v := Scanner.validateAttendanceSequence s (Scanner.n_validate (Scanner.net env))
             employee (Scanner.today env) (Scanner.t_validate (Scanner.clock env)) in
  Dashboard.getLatestAction r = Scanner.formatActionText (Scanner.nextAction v) /\
  Dashboard.getLatestTime r = Some (Scanner.t_process (Scanner.clock env)).
Proof.
  intros Hs Hfind key Hr Hchanged v. revert Hr.
  unfold Scanner.handleScanResult.
  destruct (Scanner.mounted env); cbn [negb fst]; [|intros Hr; contradiction].
  destruct (Scanner.recentlyScanned seen qrCode _); cbn [fst];
    [intros Hr; contradiction|].
  destruct (Scanner.isOnline seen); cbn [negb fst]; [|intros Hr; contradiction].
  rewrite Hfind. fold v.
  pose proof (validate_accepts_unset s (Scanner.n_validate (Scanner.net env)) employee
                (Scanner.today env) (Scanner.t_validate (Scanner.clock env))) as Hv.
  cbn zeta in Hv. fold v in Hv.
  destruct (Scanner.canProceed v); cbn [negb fst]; [|intros Hr; contradiction].
  pose proof (processAttendance_row s env employee (Scanner.nextAction v)) as Hstore.
  cbn zeta in Hstore. fold key in Hstore.
  assert (Hgoal :
    attendance_records
      (fst (fst (Scanner.processAttendance s env employee (Scanner.nextAction v))))
      !! key = Some r ->
    Dashboard.getLatestAction r = Scanner.formatActionText (Scanner.nextAction v) /\
    Dashboard.getLatestTime r = Some (Scanner.t_process (Scanner.clock env))).
  { destruct Hstore as [-> | [(Haction & isLate & lateDuration & ->)
                             | (a & u & Hrow & Hupdate & ->)]].
    - intros Hr. contradiction.
    - rewrite lookup_setAttendance. intros [= <-]. rewrite Haction.
      split; reflexivity.
    - rewrite lookup_setAttendance. intros [= <-].
      destruct (Hs _ _ Hrow) as (Hfi & Hfo & Hsi & Hso).
      specialize (Hv a eq_refl Hrow). revert Hupdate.
      destruct Hv as [Hv | [[Hv Hunset] | [[Hv Hunset] | [Hv Hunset]]]];
        rewrite Hv;
        [ discriminate
        | change (Scanner.updateFor a "first_check_out" ?t)
            with (Some (mkUpdate (Some t) None None None))
        | change (Scanner.updateFor a "second_check_in" ?t)
            with (Some (mkUpdate None (Some t) None None))
        | change (Scanner.updateFor a "second_check_out" ?t)
            with (Some (mkUpdate None None (Some t)
                          (Some (Scanner.calculateTotalHours a t)))) ];
        intros [= <-];
        unfold Dashboard.getLatestAction, Dashboard.getLatestTime;
        cbn [applyUpdate first_check_in first_check_out second_check_in second_check_out
             u_first_check_out u_second_check_in u_second_check_out];
        destruct (second_check_out a); destruct (second_check_in a);
        destruct (first_check_out a); destruct (first_check_in a);
        cbn in *; try discriminate; try (split; reflexivity);
        exfalso; auto using diff_false_true. }
  destruct (Scanner.processAttendance s env employee (Scanner.nextAction v))
    as [[s' effs] [m|]]; cbn [fst] in *; exact Hgoal.
Qed.

Lemma dashboard_shows_last_scan_witness :
  let result := Scanner.handleScanResult (Scanner.initialRender true) (envAt t0920)
                  (storeWith (Some afterFirstIn)) "QR-ALICE" in
  exists r,
    attendance_records (fst result) !! ("e-1", day) = Some r /\
    Dashboard.getLatestAction r = "First Check Out" /\
    Dashboard.getLatestTime r = Some (t0920 + 90).
Proof.
  intros result. eexists. split; [reflexivity|].
  apply (dashboard_shows_last_scan (Scanner.initialRender true) (envAt t0920)
           (storeWith (Some afterFirstIn)) "QR-ALICE" alice).
  - intros key a. unfold storeWith. cbn [attendance_records].
    intros Hrow. apply lookup_singleton_Some in Hrow. destruct Hrow as [_ <-].
    unfold recorded, sequenced. cbn. repeat split; auto; discriminate.
  - reflexivity.
  - reflexivity.
  - vm_compute. discriminate.
Defined.

(** ** The two scanners on the same row *)

(** X25.  On a sequenced row the two scanners agree on the column to write
    whenever both accept the scan: the timestamps of their updates are the
    same, only the total hours may differ.  They disagree on when to accept:
    inside the three minutes after the first check-out the first scanner's
    sequencer refuses, while the second scanner, which has no such rule,
    writes the second check-in. *)
Theorem scanners_on_the_same_row (a : Attendance) (now : Z) :
  recorded a ->
  let v := Scanner.validateRecord (Some a) now in
  (forall u1 u2,
     Scanner.canProceed v = true ->
     Scanner.updateFor a (Scanner.nextAction v) now = Some u1 ->
     ScannerAlt.nextUpdate a now = Scanner.Done u2 ->
     u_first_check_out u1 = u_first_check_out u2 /\
     u_second_check_in u1 = u_second_check_in u2 /\
     u_second_check_out u1 = u_second_check_out u2) /\
  (forall firstOut,
     first_check_out a = Some firstOut ->
     second_check_in a = None ->
     now - firstOut < Scanner.CHECKOUT_TO_CHECKIN_COOLDOWN ->
     Scanner.canProceed v = false /\
     ScannerAlt.nextUpdate a now = Scanner.Done (mkUpdate None (Some now) None None)).
Proof.
  intros (Hfi & Hfo & Hsi & Hso) v. split.
  - intros u1 u2. unfold v, Scanner.validateRecord, ScannerAlt.nextUpdate.
    destruct (first_check_in a) as [firstIn|]; [|discriminate Hfi].
    destruct (first_check_out a) as [firstOut|];
      destruct (second_check_in a) as [secondIn|];
      destruct (second_check_out a) as [secondOut|];
      cbn [Js.present Js.getTime andb negb] in *;
      try (specialize (Hsi eq_refl); discriminate Hsi);
      try (specialize (Hso eq_refl); discriminate Hso);
      repeat match goal with
             | |- context [if ?c then _ else _] => destruct c
             end;
      cbn [Scanner.canProceed Scanner.nextAction];
      intros Hcan Hu1 Hu2; try discriminate Hcan; try discriminate Hu2;
      injection Hu2 as <-;
      first [ change (Scanner.updateFor a "first_check_out" now)
                with (Some (mkUpdate (Some now) None None None)) in Hu1
            | change (Scanner.updateFor a "second_check_in" now)
                with (Some (mkUpdate None (Some now) None None)) in Hu1
            | change (Scanner.updateFor a "second_check_out" now)
                with (Some (mkUpdate None None (Some now)
                              (Some (Scanner.calculateTotalHours a now)))) in Hu1 ];
      injection Hu1 as <-; repeat split.
  - intros firstOut Hfirst Hsecond Hearly.
    unfold v, Scanner.validateRecord, ScannerAlt.nextUpdate.
    rewrite Hfirst, Hsecond.
    destruct (first_check_in a) as [firstIn|]; [|discriminate Hfi].
    cbn [Js.present Js.getTime andb negb].
    apply Z.ltb_lt in Hearly. rewrite Hearly. split; reflexivity.
Qed.

Lemma scanners_on_the_same_row_witness :
  Scanner.canProceed (Scanner.validateRecord (Some afterFirstOut) (t0920 + 1000)) = false /\
  ScannerAlt.nextUpdate afterFirstOut (t0920 + 1000)
  = Scanner.Done (mkUpdate None (Some (t0920 + 1000)) None None).
Proof.
  assert (Hrecorded : recorded afterFirstOut).
  { unfold recorded, sequenced. cbn. repeat split; auto; discriminate. }
  apply (proj2 (scanners_on_the_same_row afterFirstOut (t0920 + 1000) Hrecorded) t0920).
  - reflexivity.
  - reflexivity.
  - vm_compute. reflexivity.
Defined.

(** X26.  The scan cooldown of the second scanner holds after every outcome:
    a scan that passes the gate marks the code before it looks anything up,
    so whether it succeeded or failed, a further scan of that code whose
    clock reads less than 2000 ms after the mark is dropped with no effect
    and no change of state.  The one exception is the code [__proto__], which
    the object behind [lastScanRef] cannot hold: no scan of it is ever
    dropped. *)
Theorem alt_rescan_suppressed (st : ScannerAlt.State) (env1 env2 : ScannerAlt.Env)
  (qrData : string) :
  (qrData <> "__proto__" ->
   ScannerAlt.isRecentlySeen (ScannerAlt.lastScanRef st) qrData
     (ScannerAlt.t_seen (ScannerAlt.clock env1)) = false ->
   ScannerAlt.t_mark (ScannerAlt.clock env1) <> 0 ->
   ScannerAlt.t_seen (ScannerAlt.clock env2) - ScannerAlt.t_mark (ScannerAlt.clock env1)
   < ScannerAlt.SCAN ->
   let st1 := fst (ScannerAlt.handleScan st env1 qrData) in
   ScannerAlt.handleScan st1 env2 qrData = (st1, [])) /\
  (qrData = "__proto__" ->
   let st1 := fst (ScannerAlt.handleScan st env1 qrData) in
   In (SelectEmployee qrData) (snd (ScannerAlt.handleScan st env1 qrData)) /\
   In (SelectEmployee qrData) (snd (ScannerAlt.handleScan st1 env2 qrData))).
Proof.
  split.
  - intros Hname Hgate Hmark Hsoon st1. apply String.eqb_neq in Hname.
    assert (Hmarked : ScannerAlt.lastScanRef st1 !! qrData
                      = Some (ScannerAlt.t_mark (ScannerAlt.clock env1))).
    { unfold st1, ScannerAlt.handleScan, ScannerAlt.markScan. rewrite Hgate, Hname.
      destruct (ScannerAlt.validateQRCode _ _ qrData) as [employee|m].
      - destruct (ScannerAlt.processAttendance _ env1 employee) as [[s' effs] [m|]];
          cbn [fst ScannerAlt.lastScanRef]; apply lookup_insert_eq.
      - cbn [fst ScannerAlt.lastScanRef]. apply lookup_insert_eq. }
    unfold ScannerAlt.handleScan at 1, ScannerAlt.isRecentlySeen.
    rewrite Hname, Hmarked. cbn [Js.truthy Js.getTime].
    destruct (Z.eqb_spec (ScannerAlt.t_mark (ScannerAlt.clock env1)) 0); [contradiction|].
    apply Z.ltb_lt in Hsoon. rewrite Hsoon. reflexivity.
  - intros -> st1.
    assert (Hpass : forall st env,
      In (SelectEmployee "__proto__") (snd (ScannerAlt.handleScan st env "__proto__"))).
    { intros st0 env. unfold ScannerAlt.handleScan, ScannerAlt.isRecentlySeen.
      cbn [String.eqb Ascii.eqb Bool.eqb andb].
      destruct (ScannerAlt.validateQRCode _ _ _) as [employee|m].
      - destruct (ScannerAlt.processAttendance _ env employee) as [[s' effs] [m|]];
          cbn [snd]; rewrite !in_app_iff; cbn [In]; auto 10.
      - cbn [snd]. rewrite !in_app_iff. cbn [In]. auto 10. }
    split; apply Hpass.
Qed.

Lemma alt_rescan_suppressed_witness :
  let st1 := fst (ScannerAlt.handleScan (altState None) (altEnv t0905) "QR-NOBODY") in
  ScannerAlt.handleScan st1 (altEnv (t0905 + 500)) "QR-NOBODY" = (st1, []).
Proof.
  apply (proj1 (alt_rescan_suppressed (altState None) (altEnv t0905)
                  (altEnv (t0905 + 500)) "QR-NOBODY")).
  - discriminate.
  - reflexivity.
  - vm_compute. discriminate.
  - vm_compute. reflexivity.
Defined.

(** ** A scanner started offline *)

Lemma scan_offline (seen : Scanner.Render) (env : Scanner.Env) (s : Store)
  (qrCode : string) :
  Scanner.isOnline seen = false ->
  Scanner.scanCache seen = ∅ ->
  Scanner.handleScanResult seen env s qrCode
  = (s, if Scanner.mounted env
        then [SetScannerStatus "processing";
              SetScanCache qrCode (Scanner.t_scan (Scanner.clock env))]
             ++ Scanner.provideFeedback env "success"
             ++ Scanner.provideFeedback env "error"
             ++ Scanner.handleProcessingError "No internet connection"
             ++ [SetScannerStatus "ready"]
        else []).
Proof.
  intros Hoffline Hempty. unfold Scanner.handleScanResult, Scanner.recentlyScanned.
  rewrite Hoffline, Hempty. destruct (Scanner.mounted env); [|reflexivity].
  cbn [negb]. rewrite lookup_empty. cbn [Js.truthy andb].
  rewrite <- !app_assoc. reflexivity.
Qed.

Lemma step_store_offline (c : Scanner.Component) (ev : Scanner.Event)
  (seen : Scanner.Render) :
  Scanner.installed c = Some seen ->
  Scanner.isOnline seen = false ->
  Scanner.scanCache seen = ∅ ->
  Scanner.store (fst (Scanner.step c ev)) = Scanner.store c.
Proof.
  intros Hseen Hoffline Hempty.
  destruct ev as [qrCode env|env d lightLevel|env d|r env camera]; cbn [Scanner.step].
  - rewrite Hseen, (scan_offline seen env _ qrCode Hoffline Hempty). reflexivity.
  - rewrite Hseen. reflexivity.
  - reflexivity.
  - destruct (Scanner.videoRendered (Scanner.current c)) eqn:Hvideo; [reflexivity|].
    unfold Scanner.initializeScanner. rewrite Hvideo.
    destruct (Scanner.mounted env); reflexivity.
Qed.

Lemma run_offline (evs : list Scanner.Event) :
  forall c seen,
  Scanner.installed c = Some seen ->
  Scanner.isOnline seen = false ->
  Scanner.scanCache seen = ∅ ->
  Scanner.store (fst (Scanner.run c evs)) = Scanner.store c /\
  forall st qrCode env effs,
    In (st, Scanner.Scan qrCode env, effs) (snd (Scanner.run c evs)) ->
    effs = snd (Scanner.handleScanResult seen env (Scanner.store c) qrCode).
Proof.
  induction evs as [|ev rest IH]; intros c seen Hseen Hoffline Hempty.
  - split; [reflexivity|]. intros st qrCode env effs [].
  - cbn [Scanner.run].
    pose proof (step_installed c ev seen Hseen) as Hkept.
    pose proof (step_store_offline c ev seen Hseen Hoffline Hempty) as Hstore.
    destruct (Scanner.step c ev) as [c' effs'] eqn:Hstep. cbn [fst] in Hkept, Hstore.
    destruct (IH c' seen Hkept Hoffline Hempty) as [IHstore IHlog].
    destruct (Scanner.run c' rest) as [c'' log]. cbn [fst snd] in *.
    split; [congruence|].
    intros st qrCode env effs [Hhead | Htail].
    + injection Hhead as _ Hev Heffs. subst ev effs'.
      cbn [Scanner.step] in Hstep. rewrite Hseen in Hstep.
      destruct (Scanner.handleScanResult seen env (Scanner.store c) qrCode)
        as [s' es]. injection Hstep as _ Heffs. subst es. reflexivity.
    + rewrite <- Hstore. apply (IHlog st qrCode env effs Htail).
Qed.

(** X27.  A first scanner whose mount effect ran while the browser was
    offline never records anything: the decode callback it installed keeps
    reading the [isOnline] of the first render, so in every later run each
    decode stops at "No internet connection" after the success vibration,
    before any request, and the store stays as it was. *)
Theorem started_offline_never_records (s : Store) (evs : list Scanner.Event) :
  let result := Scanner.run (Scanner.started false s) evs in
  Scanner.store (fst result) = s /\
  forall st qrCode env effs,
    In (st, Scanner.Scan qrCode env, effs) (snd result) ->
    Scanner.mounted env = true ->
    effs = [SetScannerStatus "processing";
            SetScanCache qrCode (Scanner.t_scan (Scanner.clock env))]
           ++ Scanner.provideFeedback env "success"
           ++ Scanner.provideFeedback env "error"
           ++ [SetError "No internet connection"; AnnounceError "No internet connection";
               SetScannerStatus "ready"].
Proof.
  intros result.
  destruct (run_offline evs (Scanner.started false s) (Scanner.initialRender false)
              eq_refl eq_refl eq_refl) as [Hstore Hlog].
  split; [exact Hstore|].
  intros st qrCode env effs Hin Hm.
  rewrite (Hlog st qrCode env effs Hin).
  rewrite (scan_offline (Scanner.initialRender false) env _ qrCode eq_refl eq_refl).
  rewrite Hm. reflexivity.
Qed.

Lemma started_offline_never_records_witness :
  let result := Scanner.run (Scanner.started false (storeWith None))
                  [Scanner.Scan "QR-ALICE" (envAt t0905);
                   Scanner.Scan "QR-ALICE" (envAt t0920)] in
  Scanner.store (fst result) = storeWith None /\
  Forall (fun entry => readOnly (snd entry) = true) (snd result).
Proof.
  intros result. split.
  - apply (started_offline_never_records (storeWith None)).
  - destruct (started_offline_never_records (storeWith None)
                [Scanner.Scan "QR-ALICE" (envAt t0905);
                 Scanner.Scan "QR-ALICE" (envAt t0920)]) as [_ Hlog].
    repeat constructor;
      match goal with
      | |- readOnly (snd (?st, Scanner.Scan ?qr ?env, ?effs)) = true =>
        rewrite (Hlog st qr env effs) by (cbn; auto); reflexivity
      end.
Defined.
